(** * FSK Caller-ID decoding: a shallow embedding of [ciddeco.c]

    The development follows the C source function by function:
    [callerid_new], [decode_CID_msg], [get_CID_info] and [callerid_feed],
    then [getHeader] and the parts of [main] that read the command line and
    fill the buffers.

    Conventions.
    - A C [int] is a [Z].  The values that reach the decoder are the 8-bit
      characters recovered by the serial demodulator and at most 256 of them
      are accumulated per session, so no [int] computation of the modelled
      functions leaves the 32-bit range; the arithmetic is therefore written
      without wrap-around.
    - An array is a [list] of its declared length, read with stdpp's lookup
      and written with stdpp's insert.  An access outside the declared bounds
      is undefined behaviour in C and is reported as [Undef].
    - The function-local [static] variables of [decode_CID_msg] live for the
      whole process; they are the record [statics], threaded through every
      call next to the heap-allocated [callerid_state].
    - What the program prints on standard output is returned as a list of
      [console] lines; the diagnostic lines on standard error are left out.
    - [fsk_serial] and [fskmodem_init] are declared in [fskmodem.h] but their
      bodies are not part of the sources at hand: they are section variables.
      The filter memories of [fsk_data] hold C doubles and stay abstract.
    - A C [float] is an IEEE 754 single-precision number: the Standard
      Library's [spec_float] with a significand of 24 bits and the exponent
      bound 128.  Every operation on floats is rounded to nearest, ties to
      even, and is evaluated in single precision, as on x86-64 and ARM. *)

From Stdlib Require Import ZArith SpecFloat String Ascii Lia.
From stdpp Require Import base option list numbers.

Local Open Scope Z_scope.

(** ** Results of C code *)

Inductive outcome (A : Type) : Type :=
| Done (a : A)     (* normal completion *)
| Undef            (* an access outside the bounds of an array *)
| Timeout.         (* the loop model exhausted its fuel *)

Arguments Done {A} a.
Arguments Undef {A}.
Arguments Timeout {A}.

Definition bind {A B : Type} (m : outcome A) (k : A -> outcome B) : outcome B :=
  match m with
  | Done a => k a
  | Undef => Undef
  | Timeout => Timeout
  end.

Declare Scope outcome_scope.
Delimit Scope outcome_scope with outcome.
Notation "'do' x <- m ; k" := (bind m (fun x => k))
  (at level 10, x pattern, m at level 100, k at level 200) : outcome_scope.
Local Open Scope outcome_scope.

Definition is_done {A : Type} (m : outcome A) : bool :=
  match m with Done _ => true | _ => false end.

(** ** Constants of [ciddeco.c] *)

Definition MDMF : Z := 0x80.
Definition SDMF : Z := 0x04.

Definition DATE_TIME : Z := 0x01.
Definition NAME : Z := 0x07.
Definition NO_NAME : Z := 0x08.
Definition NUM : Z := 0x02.
Definition NO_NUM : Z := 0x04.

Definition MESSAGE_TYPE : Z := 0.
Definition MESSAGE_LENGTH : Z := 1.
Definition DATA_TYPE : Z := 2.
Definition DATA_LENGTH : Z := 3.
Definition DATA : Z := 4.
Definition CHECKSUM : Z := 5.
Definition UNKNOWN : Z := 10.

(** Declared array sizes of [ciddeco.h]. *)
Definition RAWDATA_LEN : Z := 256.
Definition OLDSTUFF_LEN : Z := 1000.
Definition CID_FIELD_LEN : Z := 20.
Definition CID_NAME_LEN : Z := 64.

(** ** Data

    [fsk_data] of [fskmodem.h]; the three [filter_struct] members are kept
    together in [filters]. *)

Record fsk_data (filter_struct : Type) : Type := mk_fsk_data {
  nbit : Z;
  parity : Z;
  instop : Z;
  ispb : Z;
  fsk_std : Z;
  xi0 : Z;
  xi1 : Z;
  xi2 : Z;
  state : Z;
  pllispb : Z;
  pllids : Z;
  pllispb2 : Z;
  icont : Z;
  pll_round_off : Z;
  filters : filter_struct
}.

Arguments mk_fsk_data {filter_struct}.
Arguments nbit {filter_struct}.
Arguments parity {filter_struct}.
Arguments instop {filter_struct}.
Arguments ispb {filter_struct}.
Arguments fsk_std {filter_struct}.
Arguments xi0 {filter_struct}.
Arguments xi1 {filter_struct}.
Arguments xi2 {filter_struct}.
Arguments state {filter_struct}.
Arguments pllispb {filter_struct}.
Arguments pllids {filter_struct}.
Arguments pllispb2 {filter_struct}.
Arguments icont {filter_struct}.
Arguments pll_round_off {filter_struct}.
Arguments filters {filter_struct}.

(** [struct callerid_state] of [ciddeco.h].  The members [pos], [type],
    [flags], [len], [skipflag] and [crc] are never read or written by
    [ciddeco.c] and are left out. *)

Record callerid_state (filter_struct : Type) : Type := mk_callerid_state {
  fskd : fsk_data filter_struct;
  rawdata : list Z;        (* int rawdata[256] *)
  oldstuff : list Z;       (* short oldstuff[1000] *)
  oldlen : Z;              (* in bytes *)
  cksum : Z;
  name : list Z;           (* char name[64] *)
  number : list Z;         (* char number[64] *)
  date_time : list Z;      (* char date_time[64] *)
  sawflag : Z
}.

Arguments mk_callerid_state {filter_struct}.
Arguments fskd {filter_struct}.
Arguments rawdata {filter_struct}.
Arguments oldstuff {filter_struct}.
Arguments oldlen {filter_struct}.
Arguments cksum {filter_struct}.
Arguments name {filter_struct}.
Arguments number {filter_struct}.
Arguments date_time {filter_struct}.
Arguments sawflag {filter_struct}.

(** The [static] locals of [decode_CID_msg]. *)

Record statics : Type := mk_statics {
  name_field : Z;
  number_field : Z;
  msg_type : Z;
  msg_off : Z;
  data_field : Z
}.

(** Their values when the process starts ([data_field] has no initialiser
    and is zero like every static object). *)
Definition statics_init : statics := mk_statics 0 0 0 0 0.

(** [typedef struct cid_data]: four [char[20]] members. *)

Record cid_data : Type := mk_cid_data {
  date : list Z;
  call_time : list Z;
  cd_name : list Z;
  cd_number : list Z
}.

(** The C type [float]. *)
Definition float : Type := spec_float.

(** [typedef struct param]. *)

Record param : Type := mk_param {
  samp_rate : Z;
  baud_rate : Z;
  p_ispb : float
}.

(** Lines written to standard output.  The banner "CID Message is" and the
    rows of stars around the record are left out. *)

Inductive console : Type :=
| Checksum_Passed      (* "Checksum Passed!!" *)
| Checksum_Failed      (* "Checksum Failed!!" *)
| Unknown_Msg          (* "UNKNOWN" *)
| CID_Record (line : list Z).   (* date and time, number, name *)

(** ** Field updates *)

Section Updates.
Context {filter_struct : Type}.
Implicit Types (cid : callerid_state filter_struct).

Definition set_fskd (v : fsk_data filter_struct) cid :=
  mk_callerid_state v (rawdata cid) (oldstuff cid) (oldlen cid) (cksum cid)
    (name cid) (number cid) (date_time cid) (sawflag cid).

Definition set_rawdata (v : list Z) cid :=
  mk_callerid_state (fskd cid) v (oldstuff cid) (oldlen cid) (cksum cid)
    (name cid) (number cid) (date_time cid) (sawflag cid).

Definition set_old (stuff : list Z) (len : Z) cid :=
  mk_callerid_state (fskd cid) (rawdata cid) stuff len (cksum cid)
    (name cid) (number cid) (date_time cid) (sawflag cid).

Definition set_cksum (v : Z) cid :=
  mk_callerid_state (fskd cid) (rawdata cid) (oldstuff cid) (oldlen cid) v
    (name cid) (number cid) (date_time cid) (sawflag cid).

Definition set_strings (nm nb dt : list Z) cid :=
  mk_callerid_state (fskd cid) (rawdata cid) (oldstuff cid) (oldlen cid)
    (cksum cid) nm nb dt (sawflag cid).

Definition set_sawflag (v : Z) cid :=
  mk_callerid_state (fskd cid) (rawdata cid) (oldstuff cid) (oldlen cid)
    (cksum cid) (name cid) (number cid) (date_time cid) v.
End Updates.

Definition set_name_field (v : Z) (g : statics) : statics :=
  mk_statics v (number_field g) (msg_type g) (msg_off g) (data_field g).
Definition set_number_field (v : Z) (g : statics) : statics :=
  mk_statics (name_field g) v (msg_type g) (msg_off g) (data_field g).
Definition set_msg_type (v : Z) (g : statics) : statics :=
  mk_statics (name_field g) (number_field g) v (msg_off g) (data_field g).
Definition set_msg_off (v : Z) (g : statics) : statics :=
  mk_statics (name_field g) (number_field g) (msg_type g) v (data_field g).
Definition set_data_field (v : Z) (g : statics) : statics :=
  mk_statics (name_field g) (number_field g) (msg_type g) (msg_off g) v.

(** ** Arrays *)

(** [a[i]] for an array of declared length [len]. *)
Definition aget (len : Z) (a : list Z) (i : Z) : outcome Z :=
  if (0 <=? i) && (i <? len) then
    match a !! Z.to_nat i with
    | Some v => Done v
    | None => Undef
    end
  else Undef.

(** [a[i] = v] for an array of declared length [len]. *)
Definition aset (len : Z) (a : list Z) (i : Z) (v : Z) : outcome (list Z) :=
  if (0 <=? i) && (i <? len) then Done (<[Z.to_nat i := v]> a) else Undef.

(** ** [decode_CID_msg]

    The result carries the returned [int], the lines printed, the statics and
    the session state after the call. *)

Section Decoder.
Context {filter_struct : Type}.
Implicit Types (cid : callerid_state filter_struct) (g : statics).

Definition decoded : Type :=
  (Z * list console * statics * callerid_state filter_struct)%type.

(** The common exit of the [switch]: [cid->cksum += data_byte; return 0;]. *)
Definition decode_continue g cid (data_byte : Z) : outcome decoded :=
  Done (0, [], g, set_cksum (cksum cid + data_byte) cid).

Definition decode_CID_msg g cid (data_byte : Z) : outcome decoded :=
  let a := data_byte in
  (* cid->rawdata[msg_off++] = a; *)
  do raw <- aset RAWDATA_LEN (rawdata cid) (msg_off g) a;
  let cid := set_rawdata raw cid in
  let g := set_msg_off (msg_off g + 1) g in
  if sawflag cid =? MESSAGE_TYPE then
    let cid := set_sawflag MESSAGE_LENGTH cid in
    if a =? MDMF then decode_continue (set_msg_type MDMF g) cid data_byte
    else if a =? SDMF then decode_continue (set_msg_type SDMF g) cid data_byte
    else decode_continue g (set_sawflag UNKNOWN cid) data_byte
  else if sawflag cid =? MESSAGE_LENGTH then
    decode_continue g (set_sawflag DATA_TYPE cid) data_byte
  else if sawflag cid =? DATA_TYPE then
    let cid := set_sawflag DATA_LENGTH cid in
    if a =? DATE_TIME then decode_continue g cid data_byte
    else if a =? NUM then decode_continue (set_number_field 1 g) cid data_byte
    else if a =? NO_NUM then decode_continue (set_number_field 1 g) cid data_byte
    else if a =? NAME then decode_continue (set_name_field 1 g) cid data_byte
    else if a =? NO_NAME then decode_continue (set_name_field 1 g) cid data_byte
    else decode_continue g (set_sawflag UNKNOWN cid) data_byte
  else if sawflag cid =? DATA_LENGTH then
    decode_continue (set_data_field a g) (set_sawflag DATA cid) data_byte
  else if sawflag cid =? DATA then
    (* if (--data_field == 0) *)
    let g := set_data_field (data_field g - 1) g in
    if data_field g =? 0 then
      if (msg_type g =? MDMF) && negb (name_field g =? 0)
         && negb (number_field g =? 0) then
        decode_continue (set_number_field 0 (set_name_field 0 g))
          (set_sawflag CHECKSUM cid) data_byte
      else if (msg_type g =? SDMF) && negb (number_field g =? 0) then
        decode_continue (set_number_field 0 g)
          (set_sawflag CHECKSUM cid) data_byte
      else decode_continue g (set_sawflag DATA_TYPE cid) data_byte
    else decode_continue g cid data_byte
  else if sawflag cid =? CHECKSUM then
    let g := set_msg_off 0 g in
    if data_byte =? 256 - Z.land (cksum cid) 0xff
    then Done (1, [Checksum_Passed], g, cid)
    else Done (1, [Checksum_Failed], g, cid)
  else
    (* case UNKNOWN: default: *)
    Done (-1, [Unknown_Msg], g, cid).

(** The bytes recovered by the demodulator reach the decoder one at a time,
    and [callerid_feed] stops at the first call that does not return 0.
    [feed_bytes] is that byte-level view of the loop of [callerid_feed]:
    it returns the last result, everything printed, and the bytes that were
    not looked at. *)
Fixpoint feed_bytes g cid (bytes : list Z)
  : outcome (decoded * list Z) :=
  match bytes with
  | [] => Done ((0, [], g, cid), [])
  | b :: rest =>
      do (res, out, g1, cid1) <- decode_CID_msg g cid b;
      if res =? 0 then
        do ((res', out', g2, cid2), unread) <- feed_bytes g1 cid1 rest;
        Done ((res', out ++ out', g2, cid2), unread)
      else Done ((res, out, g1, cid1), rest)
  end.
End Decoder.

(** ** [callerid_new] *)

(** Conversion of an [int] to [float], and the division and subtraction
    of floats. *)
Definition int_to_float (z : Z) : float := binary_normalize 24 128 z 0 false.

Definition float_div (x y : float) : float := SFdiv 24 128 x y.

Definition float_sub (x y : float) : float := SFsub 24 128 x y.

(** Conversion of a [float] to [int]: the fractional part is discarded;
    the result is undefined when the value is an infinity or not a number,
    or when its integral part is not an [int]. *)
Definition float_to_int (x : float) : outcome Z :=
  match x with
  | S754_zero _ => Done 0
  | S754_finite s m e =>
      let t := cond_Zopp s (Z.shiftl (Zpos m) e) in
      if (- 2 ^ 31 <=? t) && (t <? 2 ^ 31) then Done t else Undef
  | S754_infinity _ | S754_nan => Undef
  end.

(** [1 / d], converted to [int]: the [int] 1 becomes a float, the quotient
    is a float, and a zero divisor gives an infinity. *)
Definition round_off_of (d : float) : outcome Z :=
  float_to_int (float_div (int_to_float 1) d).

(** [demod_param] as [main] fills it in:
    [demod_param->ispb = samp_rate / (float) baud_rate], where [samp_rate]
    is converted to [float] too. *)
Definition main_param (samp_rate baud_rate : Z) : param :=
  mk_param samp_rate baud_rate
    (float_div (int_to_float samp_rate) (int_to_float baud_rate)).

Section New.
Context {filter_struct : Type}.
(** The zeroed filter memories that [calloc] returns, and the missing
    [fskmodem_init]. *)
Variable zero_filters : filter_struct.
Variable fskmodem_init : fsk_data filter_struct -> fsk_data filter_struct.

(** The object returned by [calloc] for one [struct callerid_state]. *)
Definition calloc_state : callerid_state filter_struct :=
  mk_callerid_state
    (mk_fsk_data 0 0 0 0 0 0 0 0 0 0 0 0 0 0 zero_filters)
    (replicate (Z.to_nat RAWDATA_LEN) 0)
    (replicate (Z.to_nat OLDSTUFF_LEN) 0) 0 0
    (replicate (Z.to_nat CID_NAME_LEN) 0)
    (replicate (Z.to_nat CID_NAME_LEN) 0)
    (replicate (Z.to_nat CID_NAME_LEN) 0) 0.

(** The allocation is taken to succeed. *)
Definition callerid_new (cid_signalling : Z) (demod_param : param)
  : outcome (callerid_state filter_struct) :=
  do v_ispb <- float_to_int (p_ispb demod_param);
  let v_pllispb := v_ispb * 32 in
  let v_pllids := Z.quot v_pllispb 32 in
  let v_pllispb2 := Z.quot v_pllispb 2 in
  do v_round <-
    round_off_of (float_sub (p_ispb demod_param) (int_to_float v_ispb));
  let f := mk_fsk_data 8 0 2 v_ispb cid_signalling 0 0 0 0
             v_pllispb v_pllids v_pllispb2 0 v_round zero_filters in
  Done (set_sawflag 0 (set_fskd (fskmodem_init f) calloc_state)).
End New.

(** ** [get_CID_info] *)

Definition months : list string :=
  ["January"; "February"; "March"; "April"; "May"; "June";
   "July"; "August"; "September"; "October"; "November"; "December"]%string.

(** The characters of a string literal. *)
Definition chars (s : string) : list Z :=
  map (fun c => Z.of_nat (nat_of_ascii c)) (list_ascii_of_string s).

(** [%c] converts its [int] argument to [unsigned char]. *)
Definition to_char (v : Z) : Z := v mod 256.

(** The C string held in a character array: the characters before the first
    NUL. *)
Fixpoint cstr (a : list Z) : list Z :=
  match a with
  | [] => []
  | c :: rest => if c =? 0 then [] else c :: cstr rest
  end.

(** [sprintf(dst + off, ...)] into a [char] array of declared length [len]:
    [text] and the terminating NUL are stored from index [off] on. *)
Definition sprintf_at (len : Z) (dst : list Z) (off : Z) (text : list Z)
  : outcome (list Z) :=
  let n := Z.of_nat (length text) + 1 in
  if (0 <=? off) && (off + n <=? len) then
    Done (take (Z.to_nat off) dst ++ (text ++ [0])
            ++ drop (Z.to_nat (off + n)) dst)
  else Undef.

(** The remaining [n] turns, from index [i] on, of the loop
    [for (i = 0; i < bound; ++i) sprintf(dst + i, "%c", raw[base + i]);]
    whose bound does not change while it runs. *)
Fixpoint copy_field (n : nat) (raw : list Z) (base i : Z) (dst : list Z)
  : outcome (list Z) :=
  match n with
  | O => Done dst
  | S n' =>
      do c <- aget RAWDATA_LEN raw (base + i);
      do dst' <- sprintf_at CID_FIELD_LEN dst i [to_char c];
      copy_field n' raw base (i + 1) dst'
  end.

(** [memcpy(dst, src, n)] between character arrays. *)
Definition memcpy_chars (dst src : list Z) (n : Z) : list Z :=
  take (Z.to_nat n) src ++ drop (Z.to_nat n) dst.

Section Extract.
Context {filter_struct : Type}.
Implicit Types (cid : callerid_state filter_struct).

(** The record line printed between the two rows of stars. *)
Definition record_line cid : list Z :=
  cstr (date_time cid) ++ [32] ++ cstr (number cid) ++ [32] ++ cstr (name cid).

(** [data] is the caller's [malloc]ed, uninitialised [cid_data]. *)
Definition get_CID_info cid (data : cid_data)
  : outcome (list console * callerid_state filter_struct * cid_data) :=
  let raw := rawdata cid in
  let rd := aget RAWDATA_LEN raw in
  do r4 <- rd 4; do r5 <- rd 5;
  let month := (r4 - 48) * 10 + (r5 - 48) in
  do m <- (if (0 <=? month - 1) && (month - 1 <? 12) then
             match months !! Z.to_nat (month - 1) with
             | Some s => Done (chars s)
             | None => Undef
             end
           else Undef);
  do r6 <- rd 6; do r7 <- rd 7;
  do v_date <- sprintf_at CID_FIELD_LEN (date data) 0
                 (m ++ [32; to_char r6; to_char r7]);
  do r8 <- rd 8; do r9 <- rd 9; do r10 <- rd 10; do r11 <- rd 11;
  do v_time <- sprintf_at CID_FIELD_LEN (call_time data) 0
                 ([to_char r8; to_char r9] ++ chars " hr : "
                    ++ [to_char r10; to_char r11] ++ chars " min");
  do r12 <- rd 12;
  do (v_name, v_number) <-
    (if r12 =? NAME then
       do n1 <- rd 13;
       do nm <- copy_field (Z.to_nat n1) raw 14 0 (cd_name data);
       let i := Z.max 0 n1 in
       do n2 <- rd (15 + i);
       do nb <- copy_field (Z.to_nat n2) raw (16 + i) 0 (cd_number data);
       Done (nm, nb)
     else if r12 =? NUM then
       do n1 <- rd 13;
       do nb <- copy_field (Z.to_nat n1) raw 14 0 (cd_number data);
       let j := Z.max 0 n1 in
       do n2 <- rd (15 + j);
       do nm <- copy_field (Z.to_nat n2) raw (16 + j) 0 (cd_name data);
       Done (nm, nb)
     else Done (cd_name data, cd_number data));
  let data' := mk_cid_data v_date v_time v_name v_number in
  do v_dt <- sprintf_at CID_NAME_LEN (date_time cid) 0
               (cstr v_date ++ [32] ++ cstr v_time);
  let cid' := set_strings (memcpy_chars (name cid) v_name CID_FIELD_LEN)
                (memcpy_chars (number cid) v_number CID_FIELD_LEN) v_dt cid in
  Done ([CID_Record (record_line cid')], cid', data').
End Extract.

(** ** [callerid_feed]

    [fsk_serial fskd buf b] stands for the call
    [fsk_serial(&cid->fskd, buf, &mylen, &b)] where [buf] holds the [mylen]
    samples still available: it yields the returned [int], the demodulator
    state, the new value of [mylen] and the new value of [b]. *)

Record serial_out (filter_struct : Type) : Type := mk_serial_out {
  s_res : Z;
  s_fskd : fsk_data filter_struct;
  s_len : Z;
  s_byte : Z
}.

Arguments mk_serial_out {filter_struct}.
Arguments s_res {filter_struct}.
Arguments s_fskd {filter_struct}.
Arguments s_len {filter_struct}.
Arguments s_byte {filter_struct}.

(** How the [while] loop of [callerid_feed] is left. *)
Inductive fed (filter_struct : Type) : Type :=
| Returned (res : Z) (out : list console) (g : statics)
    (cid : callerid_state filter_struct)     (* a [return] inside the loop *)
| Drained (buf : list Z) (out : list console) (g : statics)
    (cid : callerid_state filter_struct).    (* the loop condition is false *)

Arguments Returned {filter_struct}.
Arguments Drained {filter_struct}.

Definition CID_SIG_V23 : Z := 0.

Section Feed.
Context {filter_struct : Type}.
Variable fsk_serial :
  fsk_data filter_struct -> list Z -> Z -> serial_out filter_struct.
Implicit Types (cid : callerid_state filter_struct) (g : statics).

(** The loop; [buf] is the part of the sample buffer from the moving
    pointer [buf] on, so that [mylen] is its length.  A demodulator that
    reports a negative [mylen], or more samples than it was given, moves the
    pointer outside the samples. *)
Fixpoint feed_loop (fuel : nat) g cid (buf : list Z) (b : Z)
    (out : list console) : outcome (fed filter_struct) :=
  let mylen := Z.of_nat (length buf) in
  if mylen >=? ispb (fskd cid) * 12 then
    match fuel with
    | O => Timeout
    | S fuel' =>
        let olen := mylen in
        let o := fsk_serial (fskd cid) buf b in
        let cid := set_fskd (s_fskd o) cid in
        let mylen := s_len o in
        let b := s_byte o in
        (* buf += (olen - mylen); *)
        if (0 <=? mylen) && (mylen <=? olen) then
          let buf := drop (Z.to_nat (olen - mylen)) buf in
          if negb (s_res o =? 0) then
            do (res, out', g, cid) <- decode_CID_msg g cid b;
            if res =? -1 then Done (Returned (-1) (out ++ out') g cid)
            else if negb (res =? 0) then Done (Returned 1 (out ++ out') g cid)
            else feed_loop fuel' g cid buf b (out ++ out')
          else feed_loop fuel' g cid buf b out
        else Undef
    end
  else Done (Drained buf out g cid).

(** [ubuf] is the caller's buffer seen as 16-bit samples, so that the
    argument [len] is twice its length and [len / 2] its length. *)
Definition callerid_feed (fuel : nat) g cid (ubuf : list Z)
  : outcome (decoded (filter_struct := filter_struct)) :=
  let len := Z.of_nat (length ubuf) in
  (* memcpy(buf, cid->oldstuff, cid->oldlen); *)
  if (0 <=? oldlen cid) && (oldlen cid <=? 2 * OLDSTUFF_LEN) then
    let buf := take (Z.to_nat (Z.quot (oldlen cid) 2)) (oldstuff cid) ++ ubuf in
    do r <- feed_loop fuel g cid buf 88 [];
    match r with
    | Returned res out g cid => Done (res, out, g, cid)
    | Drained buf out g cid =>
        let mylen := Z.of_nat (length buf) in
        if negb (mylen =? 0) then
          (* memcpy(cid->oldstuff, buf, mylen * 2); *)
          if mylen <=? OLDSTUFF_LEN then
            Done (0, out, g,
                  set_old (buf ++ drop (length buf) (oldstuff cid))
                    (mylen * 2) cid)
          else Undef
        else Done (0, out, g, set_old (oldstuff cid) 0 cid)
    end
  else Undef.

(** One turn of the [while (1)] loop of [main] once a buffer is ready:
    feed the buffer, display the record when the spill is complete, and
    replace the session and the record after an error or a completion.
    [fresh_data] is the content of the newly allocated [cid_data].  With a
    signalling other than [CID_SIG_V23] the variable [res] is read without
    having been written. *)
Variable zero_filters : filter_struct.
Variable fskmodem_init : fsk_data filter_struct -> fsk_data filter_struct.

Definition main_turn (fuel : nat) (cid_signalling : Z) (demod_param : param)
    g cs (data : cid_data) (buf : list Z) (fresh_data : cid_data)
  : outcome (list console * statics * callerid_state filter_struct * cid_data) :=
  if cid_signalling =? CID_SIG_V23 then
    do (res, out, g, cs) <- callerid_feed fuel g cs buf;
    if res <? 0 then
      do cs' <- callerid_new zero_filters fskmodem_init cid_signalling demod_param;
      Done (out, g, cs', fresh_data)
    else if negb (res =? 0) then
      do (out', _, _) <- get_CID_info cs data;
      do cs' <- callerid_new zero_filters fskmodem_init cid_signalling demod_param;
      Done (out ++ out', g, cs', fresh_data)
    else Done (out, g, cs, data)
  else Undef.
End Feed.

(** ** [main]: the command line *)

(** The three settings that the command line can change, and their
    defaults. *)
Record options : Type := mk_options {
  opt_bits : Z;
  opt_samp_rate : Z;
  opt_baud_rate : Z
}.


Section Arguments.
(** [atoi] of the C library. *)
Variable atoi : string -> Z.


End Arguments.

(** ** [main]: the capture buffers *)

(** Arithmetic on [unsigned int]. *)
Definition uint (z : Z) : Z := z mod 2 ^ 32.

Inductive pcm_format : Type :=
| PCM_FORMAT_S16_LE
| PCM_FORMAT_S24_LE
| PCM_FORMAT_S32_LE.

(** [pcm_capture] of [ciddeco.h]. *)
Record pcm_capture : Type := mk_pcm_capture {
  card : Z;
  device : Z;
  channels : Z;
  rate : Z;
  format : pcm_format;
  period_size : Z;
  period_count : Z;
  size : Z
}.

(** The [switch (bits)]; [None] stands for [exit(EXIT_FAILURE)]. *)
Definition format_of_bits (bits : Z) : option pcm_format :=
  if bits =? 32 then Some PCM_FORMAT_S32_LE
  else if bits =? 24 then Some PCM_FORMAT_S24_LE
  else if bits =? 16 then Some PCM_FORMAT_S16_LE
  else None.

(** What [main] computes between the command line and the allocation of
    the buffers: the capture parameters and [size_of_buf].  The operands
    are [unsigned int], [bits / 8] is an [int] converted to it. *)
Definition main_capture (o : options) : option (pcm_capture * Z) :=
  let bits := opt_bits o in
  let v_channels := 2 in
  let v_period_size := 1024 in
  let v_period_count := 4 in
  let v_size :=
    uint (uint (uint (v_channels * v_period_size) * v_period_count)
          * uint (Z.quot bits 8)) in
  match format_of_bits bits with
  | Some f =>
      Some (mk_pcm_capture 1 0 v_channels (uint (opt_samp_rate o)) f
              v_period_size v_period_count v_size,
            Z.quot v_size (uint (Z.quot bits 8)))
  | None => None
  end.

(** The remaining [n] turns, from index [j] on, of the inner loop
    [for (j = 0; j < w; j++) buf[i + j] = buffer[i * w + j];] where [w] is
    [bits / 8], [buf] has [buf_size] bytes ([size_of_buf] in [main]) and
    [buffer] has [buffer_size] bytes ([pcm_cap.size]).  The bytes are the
    stored ones, which the conversion from [char] to [unsigned char] does
    not change. *)
Fixpoint copy_bytes (n : nat) (w buf_size buffer_size : Z) (buffer buf : list Z)
    (i j : Z) : outcome (list Z) :=
  match n with
  | O => Done buf
  | S n' =>
      do c <- aget buffer_size buffer (i * w + j);
      do buf' <- aset buf_size buf (i + j) c;
      copy_bytes n' w buf_size buffer_size buffer buf' i (j + 1)
  end.

(** The outer loop [for (i = 0; i < size_of_buf; i += (bits / 8))] from
    index [i] on: the bytes captured from the sound card go from [buffer]
    to the buffer [buf] that is fed to the decoder. *)
Fixpoint capture_copy (fuel : nat) (w buf_size buffer_size : Z) (buffer buf : list Z)
    (i : Z) : outcome (list Z) :=
  if i <? buf_size then
    match fuel with
    | O => Timeout
    | S fuel' =>
        do buf' <- copy_bytes (Z.to_nat w) w buf_size buffer_size buffer buf i 0;
        capture_copy fuel' w buf_size buffer_size buffer buf' (i + w)
    end
  else Done buf.

(** ** [main] with [WAVFILE]: reading the file image *)

(** [sizeof(wav_header)]: the members add up to 44 bytes and need no
    padding. *)
Definition WAV_HEADER_LEN : Z := 44.

(** The remaining [n] turns, from index [i] on, of the loop
    [for (i = 0; i < size_of_buf; i++) buf[i] = wavbuf[off + i];] where
    [wavbuf] has [st_size] bytes and [buf] has [buf_size].  The loop of
    [getHeader] that fills [temp_buf] is this loop with [off] at 0. *)
Fixpoint wav_copy (n : nat) (buf_size st_size : Z) (wavbuf buf : list Z)
    (off i : Z) : outcome (list Z) :=
  match n with
  | O => Done buf
  | S n' =>
      do c <- aget st_size wavbuf (off + i);
      do buf' <- aset buf_size buf i c;
      wav_copy n' buf_size st_size wavbuf buf' off (i + 1)
  end.

(** How a turn of the loop of [main] goes on after the copy. *)
Inductive wav_turn : Type :=
| Wav_Exit                                          (* [exit(0)] *)
| Wav_Buffer (buf : list Z) (off samples : Z).      (* [buf] is fed *)

(** The copy, the two counters and the test for the end of the file.  The
    counters are taken to stay in the range of their C types, as they do
    for every file below 2 GB. *)
Definition wav_fill (size_of_buf st_size : Z) (wavbuf buf : list Z)
    (off samples : Z) : outcome wav_turn :=
  do buf' <- wav_copy (Z.to_nat size_of_buf) size_of_buf st_size wavbuf buf off 0;
  let samples := samples + size_of_buf in
  let off := off + size_of_buf in
  if samples >? st_size then Done Wav_Exit
  else Done (Wav_Buffer buf' off samples).

(** ** [getHeader] *)

(** [wav_header] of [ciddeco.h]; its member [format] is [wh_format] here,
    [format] being a member of [pcm_capture] too. *)
Record wav_header : Type := mk_wav_header {
  chunk_id : list Z;        (* char chunk_id[4] *)
  chunk_size : Z;
  wh_format : list Z;       (* char format[4] *)
  fmtchunk_id : list Z;     (* char fmtchunk_id[4] *)
  fmtchunk_size : Z;
  audio_format : Z;
  num_channels : Z;
  sample_rate : Z;
  byte_rate : Z;
  block_align : Z;
  bps : Z;
  datachunk_id : list Z;    (* char datachunk_id[4] *)
  datachunk_size : Z
}.

(** The value of an unsigned integer stored with its least significant
    byte first, as on the little-endian machines the program is built
    for. *)
Definition le_value (bytes : list Z) : Z :=
  foldr (fun b acc => b + 256 * acc) 0 bytes.

(** [memcpy(wh, temp_buf, sizeof(wav_header))]: the members at their
    offsets in the 44 bytes. *)
Definition wav_header_of (t : list Z) : wav_header :=
  let str off := take 4 (drop off t) in
  let u32 off := le_value (take 4 (drop off t)) in
  let u16 off := le_value (take 2 (drop off t)) in
  mk_wav_header (str 0%nat) (u32 4%nat) (str 8%nat) (str 12%nat) (u32 16%nat)
    (u16 20%nat) (u16 22%nat) (u32 24%nat) (u32 28%nat) (u16 32%nat)
    (u16 34%nat) (str 36%nat) (u32 40%nat).

(** [strncmp] of the C library on character arrays: at most [n] characters
    are compared, up to the first difference or the first NUL. *)
Fixpoint strncmp (s1 s2 : list Z) (n : nat) : outcome Z :=
  match n with
  | O => Done 0
  | S n' =>
      match s1, s2 with
      | c1 :: r1, c2 :: r2 =>
          if c1 =? c2 then (if c1 =? 0 then Done 0 else strncmp r1 r2 n')
          else Done (c1 - c2)
      | _, _ => Undef
      end
  end.

(** How [getHeader] ends: with one of its two error messages and
    [exit(EXIT_FAILURE)], or by printing the members of the header. *)
Inductive header_check : Type :=
| Not_a_wav_file
| Only_PCM_encoding_supported
| Wav_File_Information (wh : wav_header).

(** [wavbuf] is the file image of [st_size] bytes that [main] passes;
    [temp_buf] is the local array before it is written.  The allocation of
    [wh] is taken to succeed. *)
Definition getHeader (st_size : Z) (wavbuf temp_buf : list Z)
  : outcome header_check :=
  do t <- wav_copy (Z.to_nat WAV_HEADER_LEN) WAV_HEADER_LEN st_size wavbuf
            temp_buf 0 0;
  let wh := wav_header_of t in
  do r1 <- strncmp (chunk_id wh) (chars "RIFF" ++ [0]) 4;
  do not_wav <-
    (if negb (r1 =? 0) then Done true
     else do r2 <- strncmp (wh_format wh) (chars "WAVE" ++ [0]) 4;
          Done (negb (r2 =? 0)));
  if not_wav : bool then Done Not_a_wav_file
  else if negb (audio_format wh =? 1) then Done Only_PCM_encoding_supported
  else Done (Wav_File_Information wh).

(** ** Byte sequences and sessions used in the statements *)

(** Sum of the bytes of a message. *)
Definition zsum (l : list Z) : Z := foldr Z.add 0 l.

(** The checksum byte that makes the modulo-256 sum of a message zero. *)
Definition checksum_of (l : list Z) : Z := (256 - zsum l mod 256) mod 256.

Definition is_byte (b : Z) : Prop := 0 <= b < 256.

(** The content of [rawdata] in a session that started from a zeroed array
    and received [msg] from offset 0. *)
Definition raw_of (msg : list Z) : list Z :=
  msg ++ replicate (Z.to_nat RAWDATA_LEN - length msg) 0.

(** The session state after the bytes [msg] were stored, with the decoder in
    state [saw]; [c0] is the session as [callerid_new] made it. *)
Definition session {filter_struct : Type} (c0 : callerid_state filter_struct)
    (msg : list Z) (saw : Z) : callerid_state filter_struct :=
  mk_callerid_state (fskd c0) (raw_of msg) (oldstuff c0) (oldlen c0)
    (cksum c0 + zsum msg) (name c0) (number c0) (date_time c0) saw.

(** A session as [callerid_new] leaves it, as far as the decoder and the
    extractor look at it. *)
Definition fresh {filter_struct : Type} (c0 : callerid_state filter_struct)
  : Prop :=
  rawdata c0 = replicate (Z.to_nat RAWDATA_LEN) 0 /\ cksum c0 = 0 /\
  sawflag c0 = MESSAGE_TYPE /\ length (date_time c0) = Z.to_nat CID_NAME_LEN.

(** A [cid_data] whose four members have their declared size. *)
Definition allocated (data : cid_data) : Prop :=
  length (date data) = Z.to_nat CID_FIELD_LEN /\
  length (call_time data) = Z.to_nat CID_FIELD_LEN /\
  length (cd_name data) = Z.to_nat CID_FIELD_LEN /\
  length (cd_number data) = Z.to_nat CID_FIELD_LEN.

(** A printable character: a non-zero byte. *)
Definition is_char (c : Z) : Prop := 0 < c < 256.

(** The samples of the carry-over buffer that are in use. *)
Definition carry_over {filter_struct : Type} (cid : callerid_state filter_struct)
  : list Z :=
  take (Z.to_nat (Z.quot (oldlen cid) 2)) (oldstuff cid).

(** A stand-in for the absent demodulator, for running [callerid_feed] on
    concrete buffers: every call uses up one sample and delivers its low
    eight bits as a byte. *)
Definition serial_double {filter_struct : Type} (fskd : fsk_data filter_struct)
    (buf : list Z) (b : Z) : serial_out filter_struct :=
  match buf with
  | [] => mk_serial_out 0 fskd 0 b
  | s :: rest => mk_serial_out 1 fskd (Z.of_nat (length rest)) (s mod 256)
  end.

(** What [callerid_feed] needs from the demodulator: it uses up at least one
    of the samples it is given, never more than there are, and leaves the
    samples-per-bit setting alone. *)
Definition consuming {filter_struct : Type}
    (fsk_serial : fsk_data filter_struct -> list Z -> Z -> serial_out filter_struct)
  : Prop :=
  forall fskd buf b,
    ispb (s_fskd (fsk_serial fskd buf b)) = ispb fskd /\
    0 <= s_len (fsk_serial fskd buf b) <= Z.of_nat (length buf) /\
    (buf <> [] -> s_len (fsk_serial fskd buf b) < Z.of_nat (length buf)).

(** A session for the default configuration of [main] (44100 Hz, 1200 baud),
    with trivial filter memories. *)
Definition session0 : callerid_state unit :=
  set_fskd (mk_fsk_data 8 0 2 36 0 0 0 0 0 1152 36 576 0 1 tt) (calloc_state tt).

(** A session for 44100 Hz at 500 baud: 88 samples per bit, so that one
    window of 1056 samples is longer than the carry-over array. *)
Definition session_wide : callerid_state unit :=
  set_fskd (mk_fsk_data 8 0 2 88 0 0 0 0 0 2816 88 1408 0 5 tt) (calloc_state tt).

(** An allocated but not yet written [cid_data]. *)
Definition data0 : cid_data :=
  mk_cid_data (replicate 20 0xAA) (replicate 20 0xAA)
    (replicate 20 0xAA) (replicate 20 0xAA).

(** Messages in the layout the decoder follows. *)
Definition field (type : Z) (body : list Z) : list Z :=
  type :: Z.of_nat (length body) :: body.

Definition mdmf_name_first (len : Z) (dt nm nb : list Z) : list Z :=
  [MDMF; len] ++ field DATE_TIME dt ++ field NAME nm ++ field NUM nb.

Definition mdmf_number_first (len : Z) (dt nm nb : list Z) : list Z :=
  [MDMF; len] ++ field DATE_TIME dt ++ field NUM nb ++ field NAME nm.

Definition sdmf_number (len : Z) (nb : list Z) : list Z :=
  [SDMF; len] ++ field NUM nb.

Definition sdmf_date_number (len : Z) (dt nb : list Z) : list Z :=
  [SDMF; len] ++ field DATE_TIME dt ++ field NUM nb.

(** A message followed by its checksum byte. *)
Definition framed (msg : list Z) : list Z := msg ++ [checksum_of msg].

(** The month number that [get_CID_info] computes from a date and time field. *)
Definition month_of (dt : list Z) : Z :=
  (default 0 (dt !! 0%nat) - 48) * 10 + (default 0 (dt !! 1%nat) - 48).

(** The flags and the decoder state after the last byte of a field, as the
    [DATA] case computes them from the flags and the message type. *)
Definition after_field (nf nbf mt : Z) : Z * Z * Z :=
  if (mt =? MDMF) && negb (nf =? 0) && negb (nbf =? 0) then (0, 0, CHECKSUM)
  else if (mt =? SDMF) && negb (nbf =? 0) then (nf, 0, CHECKSUM)
  else (nf, nbf, DATA_TYPE).

(** A spill seen from the decoder on: the recovered bytes go through
    [decode_CID_msg] as in [callerid_feed], and [main] calls [get_CID_info]
    when the result is positive. *)
Definition spill {filter_struct : Type} (g : statics)
    (cid : callerid_state filter_struct) (data : cid_data) (bytes : list Z)
  : outcome (Z * list console * statics * callerid_state filter_struct * cid_data) :=
  do ((res, out, g', cid'), _) <- feed_bytes g cid bytes;
  if res <? 0 then Done (res, out, g', cid', data)
  else if negb (res =? 0) then
    do (out', cid'', data') <- get_CID_info cid' data;
    Done (res, out ++ out', g', cid'', data')
  else Done (res, out, g', cid', data).

(** The statics after a spill. *)
Definition statics_after {filter_struct : Type}
    (r : outcome (Z * list console * statics * callerid_state filter_struct * cid_data))
  : statics :=
  match r with
  | Done (_, _, g, _, _) => g
  | _ => statics_init
  end.

(** *** Concrete inputs *)

(** A message whose bytes before the checksum add up to 1280 = 5 * 256. *)
Definition zero_sum_msg : list Z :=
  mdmf_number_first 26 (chars "01011200") (chars "ALICE") (chars "5551212").

(** The example of an SDMF message without a date and time field. *)
Definition sdmf_example : list Z := sdmf_number 8 (chars "5551234").

(** An MDMF message in both field orders, and with a wrong checksum byte. *)
Definition mdmf_john : list Z :=
  mdmf_name_first 25 (chars "01051432") (chars "JOHN") (chars "5551234").
Definition mdmf_john_number_first : list Z :=
  mdmf_number_first 25 (chars "01051432") (chars "JOHN") (chars "5551234").
Definition bad_checksum : list Z := mdmf_john ++ [checksum_of mdmf_john + 1].

(** A date and time field that announces 255 bytes. *)
Definition long_field : list Z :=
  [MDMF; 255] ++ field DATE_TIME (replicate 255 48).

(** A complete message whose month digits read 13, and one whose name field
    has 200 characters. *)
Definition month_13 : list Z :=
  mdmf_name_first 25 (chars "13051432") (chars "JOHN") (chars "5551234").
Definition long_name : list Z :=
  mdmf_name_first 221 (chars "01051432") (replicate 200 65) (chars "5551234").

(** Sample buffers for the stand-in demodulator: the bytes followed by
    silence. *)
Definition samples_of (bytes : list Z) (silence : nat) : list Z :=
  bytes ++ replicate silence 0.

(** An SDMF-typed message that carries a date and time, a name and a
    number. *)
Definition sdmf_named : list Z :=
  [SDMF; 25] ++ field DATE_TIME (chars "01051432") ++ field NAME (chars "JOHN")
    ++ field NUM (chars "5551234").

(** What a spill printed and the record it left. *)
Definition printed {filter_struct : Type}
    (r : outcome (Z * list console * statics * callerid_state filter_struct * cid_data))
  : list console :=
  match r with
  | Done (_, out, _, _, _) => out
  | _ => []
  end.

Definition record_of {filter_struct : Type}
    (r : outcome (Z * list console * statics * callerid_state filter_struct * cid_data))
  : option cid_data :=
  match r with
  | Done (_, _, _, _, d) => Some d
  | _ => None
  end.

(** Two sessions of one process: the spill [sdmf_named], then a new session
    for [mdmf_john_number_first]; and the second spill in a process that
    has seen no other. *)
Definition first_spill :=
  spill statics_init session0 data0 (framed sdmf_named).
Definition second_spill :=
  spill (statics_after first_spill) session0 data0
    (framed mdmf_john_number_first).
Definition second_spill_alone :=
  spill statics_init session0 data0 (framed mdmf_john_number_first).

(** The same second session for the message with the name first. *)
Definition second_spill_name_first :=
  spill (statics_after first_spill) session0 data0 (framed mdmf_john).

(** One turn of [main] with the stand-in demodulator and the default
    configuration. *)
Definition turn0 (buf : list Z) :=
  main_turn serial_double tt id 1000 CID_SIG_V23 (main_param 44100 1200)
    statics_init session0 data0 buf data0.

(** Views of a result, for statements about concrete runs: the returned
    [int] with the lines printed, and the decoder variables [msg_off],
    [cksum] and [sawflag]. *)
Definition decoded_of {filter_struct : Type}
    (r : outcome (decoded (filter_struct := filter_struct) * list Z))
  : outcome (decoded (filter_struct := filter_struct)) :=
  match r with
  | Done (d, _) => Done d
  | Undef => Undef
  | Timeout => Timeout
  end.

Definition fed_result {filter_struct : Type}
    (r : outcome (decoded (filter_struct := filter_struct)))
  : option (Z * list console) :=
  match r with
  | Done (res, out, _, _) => Some (res, out)
  | _ => None
  end.

Definition decoder_view {filter_struct : Type}
    (r : outcome (decoded (filter_struct := filter_struct)))
  : option (Z * Z * Z) :=
  match r with
  | Done (_, _, g, cid) => Some (msg_off g, cksum cid, sawflag cid)
  | _ => None
  end.

Definition turn_printed {filter_struct : Type}
    (r : outcome (list console * statics * callerid_state filter_struct * cid_data))
  : list console :=
  match r with
  | Done (out, _, _, _) => out
  | _ => []
  end.

(** *** Statics that a session cannot tell apart *)

(** Two values of the statics that a decoder in state [saw] cannot tell
    apart: the flags and the offset agree, the message type agrees once it
    was set in this session, and so does the count of data bytes. *)
Definition agree (saw : Z) (g g' : statics) : Prop :=
  name_field g = name_field g' /\ number_field g = number_field g' /\
  msg_off g = msg_off g' /\
  (saw = MESSAGE_TYPE \/ saw = UNKNOWN \/ msg_type g = msg_type g') /\
  (saw = MESSAGE_TYPE \/ saw = MESSAGE_LENGTH \/ saw = DATA_TYPE \/
   saw = DATA_LENGTH \/ saw = UNKNOWN \/ data_field g = data_field g').

(** Results of one call of the decoder that differ at most in statics that
    the rest of the session cannot tell apart. *)
Definition related {F : Type} (r r' : outcome (decoded (filter_struct := F)))
  : Prop :=
  match r, r' with
  | Done (res, out, g, cid), Done (res', out', g', cid') =>
      res = res' /\ out = out' /\ cid = cid' /\
      (if res =? 0 then agree (sawflag cid) g g'
       else name_field g = name_field g' /\ number_field g = number_field g' /\
            msg_off g = msg_off g')
  | Undef, Undef => True
  | _, _ => False
  end.

(** Results of a run that agree on everything but the message type and the
    data count left in the statics. *)
Definition related_run {F : Type}
    (r r' : outcome (decoded (filter_struct := F) * list Z)) : Prop :=
  match r, r' with
  | Done ((res, out, g, cid), unread), Done ((res', out', g', cid'), unread') =>
      res = res' /\ out = out' /\ cid = cid' /\ unread = unread' /\
      name_field g = name_field g' /\ number_field g = number_field g' /\
      msg_off g = msg_off g'
  | Undef, Undef => True
  | _, _ => False
  end.

(** *** What the extractor reads and writes, in closed form *)

(** [raw[i]] for an index inside the buffer. *)
Definition rd (raw : list Z) (i : nat) : Z := default 0 (raw !! i).

Definition month_raw (raw : list Z) : Z :=
  (rd raw 4 - 48) * 10 + (rd raw 5 - 48).

(** The text that [sprintf] stores for the date and for the time. *)
Definition date_text (raw : list Z) : list Z :=
  chars (default EmptyString (months !! Z.to_nat (month_raw raw - 1)))
    ++ [32; to_char (rd raw 6); to_char (rd raw 7)].

Definition time_text (raw : list Z) : list Z :=
  [to_char (rd raw 8); to_char (rd raw 9)] ++ chars " hr : "
    ++ [to_char (rd raw 10); to_char (rd raw 11)] ++ chars " min".

(** A character array after [text] and a NUL were stored at its start. *)
Definition put (dst text : list Z) : list Z :=
  text ++ 0 :: drop (length text + 1) dst.

(** A character array after one of the copy loops ran over [body]: an empty
    body leaves the array as it was. *)
Definition put_field (dst body : list Z) : list Z :=
  match body with
  | [] => dst
  | _ => put dst (map to_char body)
  end.

(** The two length-prefixed bodies that follow the marker at offset 12. *)
Definition first_body (raw : list Z) : list Z :=
  take (Z.to_nat (rd raw 13)) (drop 14 raw).

Definition second_body (raw : list Z) : list Z :=
  let n1 := Z.to_nat (rd raw 13) in
  take (Z.to_nat (rd raw (15 + n1))) (drop (16 + n1) raw).

(** The record that the extractor leaves in [data]. *)
Definition extracted (raw : list Z) (data : cid_data) : cid_data :=
  mk_cid_data
    (put (date data) (date_text raw))
    (put (call_time data) (time_text raw))
    (if rd raw 12 =? NAME then put_field (cd_name data) (first_body raw)
     else if rd raw 12 =? NUM then put_field (cd_name data) (second_body raw)
     else cd_name data)
    (if rd raw 12 =? NAME then put_field (cd_number data) (second_body raw)
     else if rd raw 12 =? NUM then put_field (cd_number data) (first_body raw)
     else cd_number data).

(** The session after the extractor copied the record into it. *)
Definition displayed {filter_struct : Type} (cid : callerid_state filter_struct)
    (data : cid_data) : callerid_state filter_struct :=
  let d := extracted (rawdata cid) data in
  set_strings (memcpy_chars (name cid) (cd_name d) CID_FIELD_LEN)
    (memcpy_chars (number cid) (cd_number d) CID_FIELD_LEN)
    (put (date_time cid) (cstr (date d) ++ [32] ++ cstr (call_time d))) cid.

(** The buffers on which the extractor stays inside every array: the month
    digits read 1 to 12 and, after a name or number marker, both length
    bytes are at most 19. *)
Definition extractable (raw : list Z) : bool :=
  (1 <=? month_raw raw) && (month_raw raw <=? 12) &&
  (if (rd raw 12 =? NAME) || (rd raw 12 =? NUM) then
     (rd raw 13 <=? 19) && (rd raw (15 + Z.to_nat (rd raw 13)) <=? 19)
   else true).

(** *** The demodulator seen from the loop of [callerid_feed] *)

Section Demodulated.
Context {filter_struct : Type}.
Variable fsk_serial :
  fsk_data filter_struct -> list Z -> Z -> serial_out filter_struct.

End Demodulated.

(** *** More inputs and views for the statements *)


(** A session for 1000 Hz at 1200 baud, as [callerid_new] makes it: less
    than one sample per bit, so that [ispb] is 0. *)
Definition session_narrow : callerid_state unit :=
  set_fskd (mk_fsk_data 8 0 2 0 0 0 0 0 0 0 0 0 0 1 tt) (calloc_state tt).

(** The words of [w] bytes number [k * w], [(k + 1) * w], ... of a buffer,
    [n] of them. *)
Fixpoint every_wth_word (w : nat) (buffer : list Z) (k n : nat) : list Z :=
  match n with
  | O => []
  | S n' => take w (drop (k * w * w) buffer) ++ every_wth_word w buffer (S k) n'
  end.




(** A capture buffer of 4096 frames of two 16-bit samples: the first channel
    holds the bytes 0x11 0x22, the second 0xEE 0xFF. *)
Definition stereo_16 : list Z :=
  mjoin (replicate 4096 [0x11; 0x22; 0xEE; 0xFF]).

(** The image of a WAV file: the header of a mono 16-bit PCM file at 44100
    Hz, and 8292 bytes of samples. *)
Definition wav_image : list Z :=
  chars "RIFF" ++ [132; 32; 0; 0] ++ chars "WAVE" ++ chars "fmt "
    ++ [16; 0; 0; 0] ++ [1; 0] ++ [1; 0] ++ [68; 172; 0; 0]
    ++ [136; 88; 1; 0] ++ [2; 0] ++ [16; 0] ++ chars "data"
    ++ [100; 32; 0; 0] ++ replicate (Z.to_nat 8292) 7.

(** ** Floats that hold integers *)


(** * Properties *)

(** ** Sums and the message buffer *)

Lemma zsum_app (l1 l2 : list Z) : zsum (l1 ++ l2) = zsum l1 + zsum l2.
Proof.
  unfold zsum. induction l1 as [|x l1 IH]; simpl; [reflexivity | rewrite IH; lia].
Qed.

Lemma zsum_snoc (l : list Z) (b : Z) : zsum (l ++ [b]) = zsum l + b.
Proof. rewrite zsum_app. unfold zsum. simpl. lia. Qed.

Lemma zsum_cons (b : Z) (l : list Z) : zsum (b :: l) = b + zsum l.
Proof. reflexivity. Qed.

Lemma raw_of_length (msg : list Z) :
  (length msg <= 256)%nat -> length (raw_of msg) = 256%nat.
Proof.
  intros H. unfold raw_of. rewrite length_app, length_replicate.
  change (Z.to_nat RAWDATA_LEN) with 256%nat. lia.
Qed.

Lemma insert_raw_of (msg : list Z) (b : Z) :
  (length msg < 256)%nat ->
  <[length msg := b]> (raw_of msg) = raw_of (msg ++ [b]).
Proof.
  intros H. unfold raw_of. change (Z.to_nat RAWDATA_LEN) with 256%nat.
  rewrite length_app. simpl.
  replace (256 - length msg)%nat with (S (256 - (length msg + 1)))%nat by lia.
  rewrite insert_app_r_alt by lia.
  rewrite Nat.sub_diag. simpl. rewrite <- app_assoc. reflexivity.
Qed.

Lemma raw_of_lookup_msg (msg : list Z) (i : nat) :
  (i < length msg)%nat -> raw_of msg !! i = msg !! i.
Proof. intros H. unfold raw_of. apply lookup_app_l. exact H. Qed.

Lemma raw_of_lookup_zero (msg : list Z) (i : nat) :
  (length msg <= i < 256)%nat -> raw_of msg !! i = Some 0.
Proof.
  intros H. unfold raw_of. change (Z.to_nat RAWDATA_LEN) with 256%nat.
  rewrite lookup_app_r by lia. apply lookup_replicate_2. lia.
Qed.

Lemma in_rawdata (n : nat) :
  (n < 256)%nat -> (0 <=? Z.of_nat n) && (Z.of_nat n <? RAWDATA_LEN) = true.
Proof.
  intros H. apply andb_true_intro. unfold RAWDATA_LEN.
  split; [apply Z.leb_le | apply Z.ltb_lt]; lia.
Qed.

Lemma aget_raw_of_msg (msg : list Z) (i : nat) (v : Z) :
  (length msg <= 256)%nat -> msg !! i = Some v ->
  aget RAWDATA_LEN (raw_of msg) (Z.of_nat i) = Done v.
Proof.
  intros Hlen Hv. pose proof (lookup_lt_Some _ _ _ Hv) as Hi.
  unfold aget. rewrite in_rawdata by lia.
  rewrite Nat2Z.id, raw_of_lookup_msg by exact Hi. rewrite Hv. reflexivity.
Qed.

Lemma aget_raw_of_zero (msg : list Z) (i : nat) :
  (length msg <= i < 256)%nat ->
  aget RAWDATA_LEN (raw_of msg) (Z.of_nat i) = Done 0.
Proof.
  intros H. unfold aget. rewrite in_rawdata by lia.
  rewrite Nat2Z.id, raw_of_lookup_zero by exact H. reflexivity.
Qed.

Lemma fresh_session {F : Type} (c0 : callerid_state F) :
  fresh c0 -> session c0 [] MESSAGE_TYPE = c0.
Proof.
  intros (Hraw & Hck & Hsaw & _). destruct c0; simpl in *; subst.
  unfold session; simpl. reflexivity.
Qed.

(** ** The decoder, one byte at a time *)

Section DecoderSteps.
Context {F : Type}.
Variable c0 : callerid_state F.

Ltac decode_session H :=
  unfold decode_CID_msg, decode_continue, aset, session;
  cbn [msg_off rawdata sawflag cksum];
  rewrite (in_rawdata _ H), Nat2Z.id, (insert_raw_of _ _ H);
  cbn [bind sawflag set_rawdata set_sawflag set_cksum fskd rawdata oldstuff
       oldlen cksum name number date_time msg_off set_msg_off set_msg_type
       set_name_field set_number_field set_data_field name_field
       number_field msg_type data_field];
  simpl (_ =? _); cbv iota;
  rewrite ?zsum_snoc, ?Z.add_assoc.

Lemma decode_type_mdmf msg nf nbf mt df :
  (length msg < 256)%nat ->
  decode_CID_msg (mk_statics nf nbf mt (Z.of_nat (length msg)) df)
    (session c0 msg MESSAGE_TYPE) MDMF
  = Done (0, [], mk_statics nf nbf MDMF (Z.of_nat (length msg) + 1) df,
          session c0 (msg ++ [MDMF]) MESSAGE_LENGTH).
Proof. intros H. decode_session H. reflexivity. Qed.

Lemma decode_type_sdmf msg nf nbf mt df :
  (length msg < 256)%nat ->
  decode_CID_msg (mk_statics nf nbf mt (Z.of_nat (length msg)) df)
    (session c0 msg MESSAGE_TYPE) SDMF
  = Done (0, [], mk_statics nf nbf SDMF (Z.of_nat (length msg) + 1) df,
          session c0 (msg ++ [SDMF]) MESSAGE_LENGTH).
Proof. intros H. decode_session H. reflexivity. Qed.

Lemma decode_type_other msg nf nbf mt df a :
  (length msg < 256)%nat -> a <> MDMF -> a <> SDMF ->
  decode_CID_msg (mk_statics nf nbf mt (Z.of_nat (length msg)) df)
    (session c0 msg MESSAGE_TYPE) a
  = Done (0, [], mk_statics nf nbf mt (Z.of_nat (length msg) + 1) df,
          session c0 (msg ++ [a]) UNKNOWN).
Proof.
  intros H Ha Hb. decode_session H.
  destruct (Z.eqb_spec a MDMF); [contradiction|].
  destruct (Z.eqb_spec a SDMF); [contradiction|]. reflexivity.
Qed.

Lemma decode_length msg nf nbf mt df a :
  (length msg < 256)%nat ->
  decode_CID_msg (mk_statics nf nbf mt (Z.of_nat (length msg)) df)
    (session c0 msg MESSAGE_LENGTH) a
  = Done (0, [], mk_statics nf nbf mt (Z.of_nat (length msg) + 1) df,
          session c0 (msg ++ [a]) DATA_TYPE).
Proof. intros H. decode_session H. reflexivity. Qed.

Lemma decode_data_type_date msg nf nbf mt df :
  (length msg < 256)%nat ->
  decode_CID_msg (mk_statics nf nbf mt (Z.of_nat (length msg)) df)
    (session c0 msg DATA_TYPE) DATE_TIME
  = Done (0, [], mk_statics nf nbf mt (Z.of_nat (length msg) + 1) df,
          session c0 (msg ++ [DATE_TIME]) DATA_LENGTH).
Proof. intros H. decode_session H. reflexivity. Qed.

Lemma decode_data_type_name msg nf nbf mt df :
  (length msg < 256)%nat ->
  decode_CID_msg (mk_statics nf nbf mt (Z.of_nat (length msg)) df)
    (session c0 msg DATA_TYPE) NAME
  = Done (0, [], mk_statics 1 nbf mt (Z.of_nat (length msg) + 1) df,
          session c0 (msg ++ [NAME]) DATA_LENGTH).
Proof. intros H. decode_session H. reflexivity. Qed.

Lemma decode_data_type_num msg nf nbf mt df :
  (length msg < 256)%nat ->
  decode_CID_msg (mk_statics nf nbf mt (Z.of_nat (length msg)) df)
    (session c0 msg DATA_TYPE) NUM
  = Done (0, [], mk_statics nf 1 mt (Z.of_nat (length msg) + 1) df,
          session c0 (msg ++ [NUM]) DATA_LENGTH).
Proof. intros H. decode_session H. reflexivity. Qed.

Lemma decode_data_length msg nf nbf mt df a :
  (length msg < 256)%nat ->
  decode_CID_msg (mk_statics nf nbf mt (Z.of_nat (length msg)) df)
    (session c0 msg DATA_LENGTH) a
  = Done (0, [], mk_statics nf nbf mt (Z.of_nat (length msg) + 1) a,
          session c0 (msg ++ [a]) DATA).
Proof. intros H. decode_session H. reflexivity. Qed.

Lemma decode_data msg nf nbf mt df b :
  (length msg < 256)%nat -> df <> 1 ->
  decode_CID_msg (mk_statics nf nbf mt (Z.of_nat (length msg)) df)
    (session c0 msg DATA) b
  = Done (0, [], mk_statics nf nbf mt (Z.of_nat (length msg) + 1) (df - 1),
          session c0 (msg ++ [b]) DATA).
Proof.
  intros H Hdf. decode_session H.
  destruct (Z.eqb_spec (df - 1) 0) as [E|E]; [lia | reflexivity].
Qed.

Lemma decode_data_last msg nf nbf mt b :
  (length msg < 256)%nat ->
  decode_CID_msg (mk_statics nf nbf mt (Z.of_nat (length msg)) 1)
    (session c0 msg DATA) b
  = let '(nf', nbf', saw) := after_field nf nbf mt in
    Done (0, [], mk_statics nf' nbf' mt (Z.of_nat (length msg) + 1) 0,
          session c0 (msg ++ [b]) saw).
Proof.
  intros H. decode_session H. unfold after_field.
  destruct ((mt =? MDMF) && negb (nf =? 0) && negb (nbf =? 0)); [reflexivity|].
  destruct ((mt =? SDMF) && negb (nbf =? 0)); reflexivity.
Qed.

Lemma decode_checksum msg nf nbf mt df b :
  (length msg < 256)%nat ->
  decode_CID_msg (mk_statics nf nbf mt (Z.of_nat (length msg)) df)
    (session c0 msg CHECKSUM) b
  = Done (1,
          [if b =? 256 - Z.land (cksum c0 + zsum msg) 255
           then Checksum_Passed else Checksum_Failed],
          mk_statics nf nbf mt 0 df,
          set_rawdata (raw_of (msg ++ [b])) (session c0 msg CHECKSUM)).
Proof.
  intros H. decode_session H.
  destruct (b =? 256 - Z.land (cksum c0 + zsum msg) 255); reflexivity.
Qed.

Lemma decode_unknown msg nf nbf mt df b :
  (length msg < 256)%nat ->
  decode_CID_msg (mk_statics nf nbf mt (Z.of_nat (length msg)) df)
    (session c0 msg UNKNOWN) b
  = Done (-1, [Unknown_Msg],
          mk_statics nf nbf mt (Z.of_nat (length msg) + 1) df,
          set_rawdata (raw_of (msg ++ [b])) (session c0 msg UNKNOWN)).
Proof. intros H. decode_session H. reflexivity. Qed.
End DecoderSteps.

(** ** The decoder, field by field *)

Lemma feed_bytes_go {F : Type} (g g1 : statics) (cid cid1 : callerid_state F)
    (b : Z) (rest : list Z) :
  decode_CID_msg g cid b = Done (0, [], g1, cid1) ->
  feed_bytes g cid (b :: rest) = feed_bytes g1 cid1 rest.
Proof.
  intros H. simpl. rewrite H. simpl.
  destruct (feed_bytes g1 cid1 rest) as [[[[[r o] g2] c2] u]| |]; reflexivity.
Qed.

Lemma feed_bytes_stop {F : Type} (g g1 : statics) (cid cid1 : callerid_state F)
    (b res : Z) (out : list console) (rest : list Z) :
  decode_CID_msg g cid b = Done (res, out, g1, cid1) -> res <> 0 ->
  feed_bytes g cid (b :: rest) = Done ((res, out, g1, cid1), rest).
Proof.
  intros H Hres. simpl. rewrite H. simpl.
  destruct (Z.eqb_spec res 0); [contradiction | reflexivity].
Qed.

Lemma off_snoc (msg : list Z) (b : Z) :
  Z.of_nat (length msg) + 1 = Z.of_nat (length (msg ++ [b])).
Proof. rewrite length_app. simpl. lia. Qed.

Section DecoderFields.
Context {F : Type}.
Variable c0 : callerid_state F.

(** The bytes of a field after its length byte. *)
Lemma feed_data body : forall msg nf nbf mt rest,
  body <> [] -> (length msg + length body <= 256)%nat ->
  feed_bytes (mk_statics nf nbf mt (Z.of_nat (length msg))
                (Z.of_nat (length body)))
    (session c0 msg DATA) (body ++ rest)
  = let '(nf', nbf', saw) := after_field nf nbf mt in
    feed_bytes (mk_statics nf' nbf' mt (Z.of_nat (length (msg ++ body))) 0)
      (session c0 (msg ++ body) saw) rest.
Proof.
  induction body as [|b body IH]; intros msg nf nbf mt rest Hne Hlen.
  - contradiction.
  - destruct body as [|b' body].
    + simpl in Hlen. simpl app.
      pose proof (decode_data_last c0 msg nf nbf mt b ltac:(lia)) as Hd.
      change (Z.of_nat (length [b])) with 1.
      destruct (after_field nf nbf mt) as [[nf' nbf'] saw].
      rewrite (off_snoc msg b) in Hd.
      apply (feed_bytes_go _ _ _ _ _ _ Hd).
    + simpl in Hlen.
      pose proof (decode_data c0 msg nf nbf mt
                    (Z.of_nat (length (b :: b' :: body))) b
                    ltac:(lia) ltac:(simpl; lia)) as Hd.
      rewrite (off_snoc msg b) in Hd.
      replace (Z.of_nat (length (b :: b' :: body)) - 1)
        with (Z.of_nat (length (b' :: body))) in Hd by (simpl; lia).
      change ((b :: b' :: body) ++ rest) with (b :: ((b' :: body) ++ rest)).
      rewrite (feed_bytes_go _ _ _ _ _ _ Hd).
      rewrite (IH (msg ++ [b]) nf nbf mt rest ltac:(discriminate)
                 ltac:(rewrite length_app; simpl in *; lia)).
      rewrite <- app_assoc. reflexivity.
Qed.

(** A whole field: type, length and body. *)
Lemma feed_field t body msg nf nbf mt df nf1 nbf1 rest :
  (t = DATE_TIME /\ nf1 = nf /\ nbf1 = nbf) \/
  (t = NAME /\ nf1 = 1 /\ nbf1 = nbf) \/
  (t = NUM /\ nf1 = nf /\ nbf1 = 1) ->
  body <> [] -> (length msg + 2 + length body <= 256)%nat ->
  feed_bytes (mk_statics nf nbf mt (Z.of_nat (length msg)) df)
    (session c0 msg DATA_TYPE) (field t body ++ rest)
  = let '(nf', nbf', saw) := after_field nf1 nbf1 mt in
    feed_bytes
      (mk_statics nf' nbf' mt (Z.of_nat (length (msg ++ field t body))) 0)
      (session c0 (msg ++ field t body) saw) rest.
Proof.
  intros Ht Hne Hlen. unfold field. simpl app.
  assert (Hty : decode_CID_msg
                  (mk_statics nf nbf mt (Z.of_nat (length msg)) df)
                  (session c0 msg DATA_TYPE) t
                = Done (0, [],
                        mk_statics nf1 nbf1 mt (Z.of_nat (length msg) + 1) df,
                        session c0 (msg ++ [t]) DATA_LENGTH)).
  { destruct Ht as [(-> & -> & ->) | [(-> & -> & ->) | (-> & -> & ->)]];
      [apply decode_data_type_date | apply decode_data_type_name
       | apply decode_data_type_num]; lia. }
  rewrite (off_snoc msg t) in Hty.
  rewrite (feed_bytes_go _ _ _ _ _ _ Hty).
  pose proof (decode_data_length c0 (msg ++ [t]) nf1 nbf1 mt df
                (Z.of_nat (length body))
                ltac:(rewrite length_app; simpl; lia)) as Hl.
  rewrite (off_snoc (msg ++ [t]) (Z.of_nat (length body))) in Hl.
  rewrite (feed_bytes_go _ _ _ _ _ _ Hl).
  rewrite (feed_data body ((msg ++ [t]) ++ [Z.of_nat (length body)])
             nf1 nbf1 mt rest Hne
             ltac:(rewrite !length_app; simpl; lia)).
  replace (((msg ++ [t]) ++ [Z.of_nat (length body)]) ++ body)
    with (msg ++ t :: Z.of_nat (length body) :: body)
    by (rewrite <- !app_assoc; reflexivity).
  reflexivity.
Qed.

(** The two bytes that open a message. *)
Lemma feed_header mt len nf nbf mt0 df rest :
  mt = MDMF \/ mt = SDMF ->
  feed_bytes (mk_statics nf nbf mt0 0 df) (session c0 [] MESSAGE_TYPE)
    (mt :: len :: rest)
  = feed_bytes (mk_statics nf nbf mt 2 df) (session c0 [mt; len] DATA_TYPE)
      rest.
Proof.
  intros Hmt.
  assert (Hty : decode_CID_msg (mk_statics nf nbf mt0 0 df)
                  (session c0 [] MESSAGE_TYPE) mt
                = Done (0, [], mk_statics nf nbf mt 1 df,
                        session c0 [mt] MESSAGE_LENGTH)).
  { destruct Hmt as [-> | ->];
      [apply (decode_type_mdmf c0 []) | apply (decode_type_sdmf c0 [])];
      simpl; lia. }
  rewrite (feed_bytes_go _ _ _ _ _ _ Hty).
  pose proof (decode_length c0 [mt] nf nbf mt df len ltac:(simpl; lia)) as Hl.
  exact (feed_bytes_go _ _ _ _ _ _ Hl).
Qed.

(** The checksum byte ends the spill. *)
Lemma feed_checksum msg nf nbf mt df b rest :
  (length msg < 256)%nat ->
  feed_bytes (mk_statics nf nbf mt (Z.of_nat (length msg)) df)
    (session c0 msg CHECKSUM) (b :: rest)
  = Done ((1,
           [if b =? 256 - Z.land (cksum c0 + zsum msg) 255
            then Checksum_Passed else Checksum_Failed],
           mk_statics nf nbf mt 0 df,
           set_rawdata (raw_of (msg ++ [b])) (session c0 msg CHECKSUM)),
          rest).
Proof.
  intros H. eapply feed_bytes_stop; [apply decode_checksum; exact H | lia].
Qed.
End DecoderFields.

(** ** The extractor *)

Lemma take_drop_cons (raw : list Z) (k n : nat) (b : Z) (body : list Z) :
  take (S n) (drop k raw) = b :: body ->
  raw !! k = Some b /\ take n (drop (S k) raw) = body.
Proof.
  intros H. destruct (drop k raw) as [|x l] eqn:E; [discriminate|].
  simpl in H. injection H as -> Hb.
  assert (Hk : raw !! k = Some b).
  { rewrite <- (Nat.add_0_r k), <- lookup_drop, E. reflexivity. }
  split; [exact Hk|].
  rewrite (drop_S _ _ _ Hk) in E. injection E as ->. exact Hb.
Qed.

Lemma sprintf_char (dst : list Z) (k : nat) (c : Z) :
  (k + 2 <= 20)%nat ->
  sprintf_at CID_FIELD_LEN dst (Z.of_nat k) [c]
  = Done (take k dst ++ [c; 0] ++ drop (k + 2) dst).
Proof.
  intros H. unfold sprintf_at, CID_FIELD_LEN. simpl length.
  replace ((0 <=? Z.of_nat k) && (Z.of_nat k + (Z.of_nat 1 + 1) <=? 20)) with true.
  - rewrite Nat2Z.id. replace (Z.to_nat (Z.of_nat k + (Z.of_nat 1 + 1))) with (k + 2)%nat by lia.
    reflexivity.
  - symmetry. apply andb_true_intro. split; [apply Z.leb_le | apply Z.leb_le]; lia.
Qed.

Lemma copy_field_spec (body : list Z) : forall raw base k dst,
  body <> [] -> 0 <= base ->
  take (length body) (drop (Z.to_nat base + k) raw) = body ->
  base + Z.of_nat k + Z.of_nat (length body) <= 256 ->
  (k + length body <= 19)%nat -> length dst = 20%nat ->
  copy_field (length body) raw base (Z.of_nat k) dst
  = Done (take k dst ++ map to_char body ++ 0 :: drop (k + length body + 1) dst).
Proof.
  induction body as [|b body IH]; intros raw base k dst Hne Hb Hraw Hin Hk Hdst.
  - contradiction.
  - simpl length in *. apply take_drop_cons in Hraw as [Hget Hraw].
    cbn [copy_field].
    assert (Ha : aget RAWDATA_LEN raw (base + Z.of_nat k) = Done b).
    { unfold aget, RAWDATA_LEN.
      replace ((0 <=? base + Z.of_nat k) && (base + Z.of_nat k <? 256)) with true
        by (symmetry; apply andb_true_intro; split; [apply Z.leb_le | apply Z.ltb_lt]; lia).
      replace (Z.to_nat (base + Z.of_nat k)) with (Z.to_nat base + k)%nat by lia.
      rewrite Hget. reflexivity. }
    rewrite Ha. cbn [bind]. rewrite sprintf_char by lia. cbn [bind].
    destruct body as [|b' body].
    + simpl. replace (k + 1 + 1)%nat with (k + 2)%nat by lia. reflexivity.
    + replace (Z.of_nat k + 1) with (Z.of_nat (S k)) by lia.
      rewrite (IH raw base (S k)); try lia; try discriminate.
      * f_equal.
        rewrite take_app_ge by (rewrite length_take; lia).
        rewrite length_take, Hdst.
        replace (S k - k `min` 20)%nat with 1%nat by lia.
        rewrite drop_app_ge by (rewrite length_take; lia).
        rewrite length_take, Hdst.
        replace (S k + length (b' :: body) + 1 - k `min` 20)%nat with (2 + length (b' :: body))%nat by (simpl; lia).
        rewrite (drop_app_add' [to_char b; 0] _ 2) by reflexivity.
        rewrite drop_drop. simpl take.
        rewrite <- app_assoc. simpl.
        replace (k + 2 + S (length body))%nat with (k + S (S (length body)) + 1)%nat by lia. reflexivity.
      * replace (Z.to_nat base + S k)%nat with (S (Z.to_nat base + k)) by lia. exact Hraw.
      * rewrite !length_app, length_take, length_drop. simpl in *. lia.
Qed.

Lemma aget_rd (raw : list Z) (i : Z) :
  length raw = 256%nat -> 0 <= i < 256 ->
  aget RAWDATA_LEN raw i = Done (rd raw (Z.to_nat i)).
Proof.
  intros Hlen Hi. unfold aget, rd, RAWDATA_LEN.
  replace ((0 <=? i) && (i <? 256)) with true
    by (symmetry; apply andb_true_intro; split; [apply Z.leb_le | apply Z.ltb_lt]; lia).
  destruct (lookup_lt_is_Some_2 raw (Z.to_nat i) ltac:(lia)) as [v Hv].
  rewrite Hv. reflexivity.
Qed.

Lemma aget_out (raw : list Z) (i : Z) :
  256 <= i -> aget RAWDATA_LEN raw i = Undef.
Proof.
  intros Hi. unfold aget, RAWDATA_LEN.
  replace (i <? 256) with false by (symmetry; apply Z.ltb_ge; lia).
  rewrite andb_false_r. reflexivity.
Qed.

Lemma sprintf_put (len : Z) (dst text : list Z) :
  Z.of_nat (length text) + 1 <= len ->
  sprintf_at len dst 0 text = Done (put dst text).
Proof.
  intros H. unfold sprintf_at, put.
  replace ((0 <=? 0) && (0 + (Z.of_nat (length text) + 1) <=? len)) with true
    by (symmetry; apply andb_true_intro; split; apply Z.leb_le; lia).
  rewrite Z.add_0_l.
  replace (Z.to_nat (Z.of_nat (length text) + 1)) with (length text + 1)%nat by lia.
  simpl. rewrite <- app_assoc. reflexivity.
Qed.

Lemma copy_field_done (n : nat) (raw : list Z) (base : Z) (dst : list Z) :
  length raw = 256%nat -> 0 <= base -> base + Z.of_nat n <= 256 ->
  (n <= 19)%nat -> length dst = 20%nat ->
  copy_field n raw base 0 dst
  = Done (put_field dst (take n (drop (Z.to_nat base) raw))).
Proof.
  intros Hraw Hb Hin Hn Hdst.
  set (body := take n (drop (Z.to_nat base) raw)).
  assert (Hlen : length body = n).
  { unfold body. rewrite length_take, length_drop. lia. }
  destruct n as [|n].
  - destruct body; [reflexivity | discriminate].
  - rewrite <- Hlen. change 0 with (Z.of_nat 0).
    rewrite (copy_field_spec body raw base 0 dst); try lia.
    + destruct body as [|b body]; [discriminate|].
      unfold put_field, put. rewrite length_map. reflexivity.
    + destruct body; [discriminate | discriminate].
    + rewrite Nat.add_0_r, Hlen. reflexivity.
Qed.

Lemma aget_not_timeout raw i : aget RAWDATA_LEN raw i <> Timeout.
Proof. unfold aget. destruct (_ && _); [destruct (raw !! _)|]; discriminate. Qed.

Lemma copy_field_undef (n : nat) : forall raw base k dst,
  (n <> 0)%nat -> (20 <= k + n)%nat ->
  copy_field n raw base (Z.of_nat k) dst = Undef.
Proof.
  induction n as [|n IH]; intros raw base k dst Hn Hk; [contradiction|].
  cbn [copy_field].
  destruct (aget RAWDATA_LEN raw (base + Z.of_nat k)) as [c| |] eqn:Ea;
    [|reflexivity|exfalso; exact (aget_not_timeout _ _ Ea)].
  cbn [bind]. unfold sprintf_at.
  destruct ((0 <=? Z.of_nat k) && (Z.of_nat k + (Z.of_nat (length [to_char c]) + 1) <=? CID_FIELD_LEN)) eqn:E;
    [|reflexivity].
  cbn [bind]. apply andb_prop in E as [_ E]. apply Z.leb_le in E.
  unfold CID_FIELD_LEN in E. simpl length in E.
  replace (Z.of_nat k + 1) with (Z.of_nat (S k)) by lia.
  apply IH; lia.
Qed.


Lemma months_text (m : Z) :
  1 <= m <= 12 ->
  exists s, months !! Z.to_nat (m - 1) = Some s /\ (length (chars s) <= 9)%nat.
Proof.
  intros H.
  assert (Hm : m = 1 \/ m = 2 \/ m = 3 \/ m = 4 \/ m = 5 \/ m = 6 \/ m = 7 \/
               m = 8 \/ m = 9 \/ m = 10 \/ m = 11 \/ m = 12) by lia.
  repeat (destruct Hm as [-> | Hm]; [eexists; split; [reflexivity | simpl; lia] |]).
  subst m. eexists; split; [reflexivity | simpl; lia].
Qed.

Lemma cstr_length (a : list Z) : (length (cstr a) <= length a)%nat.
Proof.
  induction a as [|c a IH]; simpl; [lia|].
  destruct (c =? 0); simpl; lia.
Qed.

Lemma put_length (dst text : list Z) :
  (length text + 1 <= length dst)%nat -> length (put dst text) = length dst.
Proof.
  intros H. unfold put. rewrite length_app. simpl. rewrite length_drop. lia.
Qed.

Lemma put_field_length (dst body : list Z) :
  (length body + 1 <= length dst)%nat -> length (put_field dst body) = length dst.
Proof.
  intros H. destruct body as [|b body]; [reflexivity|].
  unfold put_field. apply put_length. rewrite length_map. exact H.
Qed.

Section Extraction.
Context {F : Type}.
Variables (cid : callerid_state F) (data : cid_data).
Hypothesis Hraw : length (rawdata cid) = 256%nat.
Hypothesis Hdata : allocated data.
Hypothesis Hdt : length (date_time cid) = 64%nat.

Lemma get_CID_info_done :
  extractable (rawdata cid) = true ->
  get_CID_info cid data
  = Done ([CID_Record (record_line (displayed cid data))],
          displayed cid data, extracted (rawdata cid) data).
Proof.
  intros Hx. unfold extractable in Hx.
  apply andb_prop in Hx as [Hm Hf]. apply andb_prop in Hm as [Hm1 Hm2].
  apply Z.leb_le in Hm1, Hm2.
  destruct (months_text (month_raw (rawdata cid)) ltac:(lia)) as (s & Hs & Hslen).
  destruct Hdata as (Hd1 & Hd2 & Hd3 & Hd4).
  change (Z.to_nat CID_FIELD_LEN) with 20%nat in Hd1, Hd2, Hd3, Hd4.
  unfold get_CID_info.
  rewrite !(aget_rd (rawdata cid)) by (exact Hraw || lia).
  cbn [bind].
  change (Z.to_nat 4) with 4%nat; change (Z.to_nat 5) with 5%nat;
  change (Z.to_nat 6) with 6%nat; change (Z.to_nat 7) with 7%nat;
  change (Z.to_nat 8) with 8%nat; change (Z.to_nat 9) with 9%nat;
  change (Z.to_nat 10) with 10%nat; change (Z.to_nat 11) with 11%nat;
  change (Z.to_nat 12) with 12%nat; change (Z.to_nat 13) with 13%nat.
  change ((rd (rawdata cid) 4 - 48) * 10 + (rd (rawdata cid) 5 - 48))
    with (month_raw (rawdata cid)).
  replace ((0 <=? month_raw (rawdata cid) - 1)
           && (month_raw (rawdata cid) - 1 <? 12)) with true
    by (symmetry; apply andb_true_intro; split;
        [apply Z.leb_le | apply Z.ltb_lt]; lia).
  rewrite Hs. cbn [bind].
  rewrite sprintf_put
    by (rewrite length_app; unfold CID_FIELD_LEN; simpl length; lia).
  cbn [bind].
  rewrite sprintf_put by (unfold CID_FIELD_LEN; simpl; lia).
  cbn [bind].
  assert (Hdate : put (date data)
                    (chars s ++ [32; to_char (rd (rawdata cid) 6);
                                 to_char (rd (rawdata cid) 7)])
                  = put (date data) (date_text (rawdata cid))).
  { unfold date_text. rewrite Hs. reflexivity. }
  rewrite Hdate. clear Hdate.
  change ([to_char (rd (rawdata cid) 8); to_char (rd (rawdata cid) 9)]
            ++ chars " hr : "
            ++ [to_char (rd (rawdata cid) 10); to_char (rd (rawdata cid) 11)]
            ++ chars " min") with (time_text (rawdata cid)).
  assert (Hfields :
    (if rd (rawdata cid) 12 =? NAME
     then
       do nm <- copy_field (Z.to_nat (rd (rawdata cid) 13)) (rawdata cid)
                  14 0 (cd_name data);
       do n2 <- aget RAWDATA_LEN (rawdata cid)
                  (15 + 0 `max` rd (rawdata cid) 13);
       do nb <- copy_field (Z.to_nat n2) (rawdata cid)
                  (16 + 0 `max` rd (rawdata cid) 13) 0 (cd_number data);
       Done (nm, nb)
     else if rd (rawdata cid) 12 =? NUM
     then
       do nb <- copy_field (Z.to_nat (rd (rawdata cid) 13)) (rawdata cid)
                  14 0 (cd_number data);
       do n2 <- aget RAWDATA_LEN (rawdata cid)
                  (15 + 0 `max` rd (rawdata cid) 13);
       do nm <- copy_field (Z.to_nat n2) (rawdata cid)
                  (16 + 0 `max` rd (rawdata cid) 13) 0 (cd_name data);
       Done (nm, nb)
     else Done (cd_name data, cd_number data))%outcome
    = Done (cd_name (extracted (rawdata cid) data),
            cd_number (extracted (rawdata cid) data))).
  { unfold extracted, first_body, second_body. cbn [cd_name cd_number].
    destruct (rd (rawdata cid) 12 =? NAME) eqn:E1;
      [|destruct (rd (rawdata cid) 12 =? NUM) eqn:E2]; cbn [orb] in Hf;
      [| |reflexivity];
      apply andb_prop in Hf as [Hn1 Hn2]; apply Z.leb_le in Hn1, Hn2.
    all: rewrite copy_field_done
           by (try exact Hraw; try exact Hd3; try exact Hd4; lia).
    all: cbn [bind].
    all: rewrite aget_rd by (exact Hraw || lia).
    all: cbn [bind].
    all: replace (Z.to_nat (15 + 0 `max` rd (rawdata cid) 13))
           with (15 + Z.to_nat (rd (rawdata cid) 13))%nat by lia.
    all: rewrite copy_field_done
           by (try exact Hraw; try exact Hd3; try exact Hd4; lia).
    all: cbn [bind].
    all: replace (Z.to_nat (16 + 0 `max` rd (rawdata cid) 13))
           with (16 + Z.to_nat (rd (rawdata cid) 13))%nat by lia.
    all: reflexivity. }
  rewrite Hfields. clear Hfields. cbn [bind].
  rewrite sprintf_put.
  - cbn [bind]. reflexivity.
  - pose proof (cstr_length (put (date data) (date_text (rawdata cid)))) as H1.
    pose proof (cstr_length (put (call_time data) (time_text (rawdata cid)))) as H2.
    rewrite put_length in H1
      by (unfold date_text; rewrite Hs, length_app, Hd1; simpl; lia).
    rewrite put_length in H2 by (rewrite Hd2; simpl; lia).
    rewrite !length_app. unfold CID_NAME_LEN. simpl length.
    rewrite Hd1 in H1. rewrite Hd2 in H2. simpl in H1, H2. lia.
Qed.

Lemma get_CID_info_undef :
  extractable (rawdata cid) = false -> get_CID_info cid data = Undef.
Proof.
  intros Hx. unfold extractable in Hx.
  destruct Hdata as (Hd1 & Hd2 & Hd3 & Hd4).
  change (Z.to_nat CID_FIELD_LEN) with 20%nat in Hd1, Hd2, Hd3, Hd4.
  unfold get_CID_info.
  rewrite !(aget_rd (rawdata cid)) by (exact Hraw || lia).
  cbn [bind].
  change (Z.to_nat 4) with 4%nat; change (Z.to_nat 5) with 5%nat;
  change (Z.to_nat 12) with 12%nat; change (Z.to_nat 13) with 13%nat.
  change ((rd (rawdata cid) 4 - 48) * 10 + (rd (rawdata cid) 5 - 48))
    with (month_raw (rawdata cid)).
  destruct ((1 <=? month_raw (rawdata cid))
            && (month_raw (rawdata cid) <=? 12)) eqn:Em.
  - apply andb_prop in Em as [Hm1 Hm2]. apply Z.leb_le in Hm1, Hm2.
    destruct (months_text (month_raw (rawdata cid)) ltac:(lia))
      as (s & Hs & Hslen).
    replace ((0 <=? month_raw (rawdata cid) - 1)
             && (month_raw (rawdata cid) - 1 <? 12)) with true
      by (symmetry; apply andb_true_intro; split;
          [apply Z.leb_le | apply Z.ltb_lt]; lia).
    rewrite Hs. cbn [bind].
    rewrite sprintf_put
      by (rewrite length_app; unfold CID_FIELD_LEN; simpl length; lia).
    cbn [bind].
    rewrite sprintf_put by (unfold CID_FIELD_LEN; simpl; lia).
    cbn [bind]. cbn [andb] in Hx.
    assert (Hcopy : forall n base dst,
               20 <= n -> copy_field (Z.to_nat n) (rawdata cid) base 0 dst
                          = Undef).
    { intros n base dst Hn. change 0 with (Z.of_nat 0).
      apply copy_field_undef; lia. }
    destruct (rd (rawdata cid) 12 =? NAME) eqn:E1;
      [|destruct (rd (rawdata cid) 12 =? NUM) eqn:E2]; cbn [orb] in Hx;
      [| |discriminate].
    all: apply andb_false_iff in Hx.
    all: destruct (Z.leb_spec (rd (rawdata cid) 13) 19) as [Hn1|Hn1];
      [|rewrite Hcopy by lia; reflexivity].
    all: destruct Hx as [Hx|Hx]; [discriminate|]; apply Z.leb_gt in Hx.
    all: rewrite copy_field_done
           by (try exact Hraw; try exact Hd3; try exact Hd4; lia).
    all: cbn [bind].
    all: rewrite aget_rd by (exact Hraw || lia).
    all: cbn [bind].
    all: replace (Z.to_nat (15 + 0 `max` rd (rawdata cid) 13))
           with (15 + Z.to_nat (rd (rawdata cid) 13))%nat by lia.
    all: rewrite Hcopy by lia; reflexivity.
  - replace ((0 <=? month_raw (rawdata cid) - 1)
             && (month_raw (rawdata cid) - 1 <? 12)) with false;
      [reflexivity|].
    symmetry. apply andb_false_iff. apply andb_false_iff in Em.
    destruct Em as [Em|Em]; [left; apply Z.leb_gt; apply Z.leb_gt in Em
                            | right; apply Z.ltb_ge; apply Z.leb_gt in Em]; lia.
Qed.

Lemma get_CID_info_defined :
  is_done (get_CID_info cid data) = extractable (rawdata cid).
Proof.
  destruct (extractable (rawdata cid)) eqn:E.
  - rewrite get_CID_info_done by exact E. reflexivity.
  - rewrite get_CID_info_undef by exact E. reflexivity.
Qed.
End Extraction.

(** ** Whole messages through the decoder *)

Lemma field_length t body : length (field t body) = (2 + length body)%nat.
Proof. reflexivity. Qed.

Lemma field_nonempty_app (l1 l2 : list Z) : l1 <> [] -> l1 ++ l2 <> [].
Proof. destruct l1; [contradiction | discriminate]. Qed.

Section Messages.
Context {F : Type}.
Variable c0 : callerid_state F.

(** A header, a date and time field and two more fields, the second of
    which completes an MDMF message. *)
Lemma decode_mdmf len dt t1 b1 t2 b2 ck :
  (t1 = NAME /\ t2 = NUM) \/ (t1 = NUM /\ t2 = NAME) ->
  dt <> [] -> b1 <> [] -> b2 <> [] ->
  (length dt + length b1 + length b2 <= 247)%nat ->
  let msg := [MDMF; len] ++ field DATE_TIME dt ++ field t1 b1 ++ field t2 b2 in
  feed_bytes statics_init (session c0 [] MESSAGE_TYPE) (msg ++ [ck])
  = Done ((1,
           [if ck =? 256 - Z.land (cksum c0 + zsum msg) 255
            then Checksum_Passed else Checksum_Failed],
           mk_statics 0 0 MDMF 0 0,
           set_rawdata (raw_of (msg ++ [ck])) (session c0 msg CHECKSUM)),
          []).
Proof.
  intros Ht Hdt Hb1 Hb2 Hlen msg. subst msg.
  rewrite <- !app_assoc. change ([MDMF; len] ++ ?l) with (MDMF :: len :: l).
  unfold statics_init. rewrite feed_header by (left; reflexivity).
  change 2 with (Z.of_nat (length [MDMF; len])).
  rewrite (feed_field c0 DATE_TIME dt [MDMF; len] 0 0 MDMF 0 0 0)
    by (auto; simpl; lia).
  change (after_field 0 0 MDMF) with (0, 0, DATA_TYPE). cbv beta iota.
  destruct Ht as [[-> ->] | [-> ->]].
  - rewrite (feed_field c0 NAME b1 _ 0 0 MDMF 0 1 0)
      by (auto; rewrite length_app, field_length; simpl; lia).
    change (after_field 1 0 MDMF) with (1, 0, DATA_TYPE). cbv beta iota.
    rewrite (feed_field c0 NUM b2 _ 1 0 MDMF 0 1 1)
      by (auto; rewrite !length_app, !field_length; simpl; lia).
    change (after_field 1 1 MDMF) with (0, 0, CHECKSUM). cbv beta iota.
    rewrite feed_checksum
      by (rewrite !length_app, !field_length; simpl; lia).
    rewrite <- !app_assoc. reflexivity.
  - rewrite (feed_field c0 NUM b1 _ 0 0 MDMF 0 0 1)
      by (auto; rewrite length_app, field_length; simpl; lia).
    change (after_field 0 1 MDMF) with (0, 1, DATA_TYPE). cbv beta iota.
    rewrite (feed_field c0 NAME b2 _ 0 1 MDMF 0 1 1)
      by (auto; rewrite !length_app, !field_length; simpl; lia).
    change (after_field 1 1 MDMF) with (0, 0, CHECKSUM). cbv beta iota.
    rewrite feed_checksum
      by (rewrite !length_app, !field_length; simpl; lia).
    rewrite <- !app_assoc. reflexivity.
Qed.

(** The SDMF message with a date and a number, from any statics whose
    [msg_off] and [number_field] are 0: the flag [name_field], the message
    type and the field counter left by earlier sessions do not matter. *)
Lemma decode_sdmf_date_number nf mt0 df len dt nb ck :
  dt <> [] -> nb <> [] -> (length dt + length nb <= 249)%nat ->
  let msg := sdmf_date_number len dt nb in
  feed_bytes (mk_statics nf 0 mt0 0 df) (session c0 [] MESSAGE_TYPE)
    (msg ++ [ck])
  = Done ((1,
           [if ck =? 256 - Z.land (cksum c0 + zsum msg) 255
            then Checksum_Passed else Checksum_Failed],
           mk_statics nf 0 SDMF 0 0,
           set_rawdata (raw_of (msg ++ [ck])) (session c0 msg CHECKSUM)),
          []).
Proof.
  intros Hdt Hnb Hlen msg. subst msg. unfold sdmf_date_number.
  rewrite <- !app_assoc. change ([SDMF; len] ++ ?l) with (SDMF :: len :: l).
  rewrite feed_header by (right; reflexivity).
  change 2 with (Z.of_nat (length [SDMF; len])).
  rewrite (feed_field c0 DATE_TIME dt [SDMF; len] nf 0 SDMF df nf 0)
    by (auto; simpl; lia).
  change (after_field nf 0 SDMF) with (nf, 0, DATA_TYPE). cbv beta iota.
  rewrite (feed_field c0 NUM nb _ nf 0 SDMF 0 nf 1)
    by (auto; rewrite length_app, field_length; simpl; lia).
  change (after_field nf 1 SDMF) with (nf, 0, CHECKSUM). cbv beta iota.
  rewrite feed_checksum by (rewrite !length_app, !field_length; simpl; lia).
  rewrite <- !app_assoc. reflexivity.
Qed.

Lemma decode_sdmf_number len nb ck :
  nb <> [] -> (length nb <= 251)%nat ->
  let msg := sdmf_number len nb in
  feed_bytes statics_init (session c0 [] MESSAGE_TYPE) (msg ++ [ck])
  = Done ((1,
           [if ck =? 256 - Z.land (cksum c0 + zsum msg) 255
            then Checksum_Passed else Checksum_Failed],
           mk_statics 0 0 SDMF 0 0,
           set_rawdata (raw_of (msg ++ [ck])) (session c0 msg CHECKSUM)),
          []).
Proof.
  intros Hnb Hlen msg. subst msg. unfold sdmf_number.
  rewrite <- !app_assoc. change ([SDMF; len] ++ ?l) with (SDMF :: len :: l).
  unfold statics_init. rewrite feed_header by (right; reflexivity).
  change 2 with (Z.of_nat (length [SDMF; len])).
  rewrite (feed_field c0 NUM nb _ 0 0 SDMF 0 0 1) by (auto; simpl; lia).
  change (after_field 0 1 SDMF) with (0, 0, CHECKSUM). cbv beta iota.
  rewrite feed_checksum by (rewrite !length_app, !field_length; simpl; lia).
  rewrite <- !app_assoc. reflexivity.
Qed.
End Messages.

(** ** Where the extractor finds the fields of a stored message *)

Lemma rd_middle (pre rest : list Z) (x : Z) (k : nat) :
  k = length pre -> rd (pre ++ x :: rest) k = x.
Proof. intros ->. unfold rd. rewrite list_lookup_middle by reflexivity. reflexivity. Qed.

Lemma layout_first (pre b rest : list Z) (t : Z) :
  length pre = 12%nat ->
  let raw := pre ++ t :: Z.of_nat (length b) :: b ++ rest in
  rd raw 12 = t /\ rd raw 13 = Z.of_nat (length b) /\ first_body raw = b.
Proof.
  intros Hpre raw. subst raw. split; [|split].
  - apply rd_middle. lia.
  - change (pre ++ t :: ?l) with (pre ++ [t] ++ l). rewrite app_assoc.
    apply rd_middle. rewrite length_app. simpl. lia.
  - unfold first_body.
    assert (H13 : rd (pre ++ t :: Z.of_nat (length b) :: b ++ rest) 13
                  = Z.of_nat (length b)).
    { change (pre ++ t :: ?l) with (pre ++ [t] ++ l). rewrite app_assoc.
      apply rd_middle. rewrite length_app. simpl. lia. }
    rewrite H13, Nat2Z.id.
    rewrite (drop_app_add' pre _ 12 2) by lia. simpl drop.
    apply take_app_length.
Qed.

Lemma layout_second (pre b rest : list Z) (t x n2 : Z) :
  length pre = 12%nat ->
  let raw := pre ++ t :: Z.of_nat (length b) :: b ++ x :: n2 :: rest in
  rd raw (15 + Z.to_nat (rd raw 13)) = n2 /\
  second_body raw = take (Z.to_nat n2) rest.
Proof.
  intros Hpre raw.
  destruct (layout_first pre b (x :: n2 :: rest) t Hpre) as (_ & H13 & _).
  fold raw in H13.
  assert (Hn2 : rd raw (15 + Z.to_nat (rd raw 13)) = n2).
  { rewrite H13, Nat2Z.id. subst raw.
    replace (pre ++ t :: Z.of_nat (length b) :: b ++ x :: n2 :: rest)
      with ((pre ++ t :: Z.of_nat (length b) :: b ++ [x]) ++ n2 :: rest)
      by (rewrite <- !app_assoc; simpl; rewrite <- app_assoc; reflexivity).
    apply rd_middle. rewrite !length_app. simpl. rewrite length_app. simpl. lia. }
  split; [exact Hn2|].
  unfold second_body. rewrite Hn2, H13, Nat2Z.id. subst raw.
  replace (pre ++ t :: Z.of_nat (length b) :: b ++ x :: n2 :: rest)
    with ((pre ++ t :: Z.of_nat (length b) :: b ++ [x; n2]) ++ rest)
    by (rewrite <- !app_assoc; simpl; rewrite <- app_assoc; reflexivity).
  rewrite drop_app_length'; [reflexivity|].
  rewrite !length_app. simpl. rewrite length_app. simpl. lia.
Qed.

Lemma cstr_text (body rest : list Z) :
  Forall is_char body -> cstr (map to_char body ++ 0 :: rest) = body.
Proof.
  induction 1 as [|c l Hc Hl IH]; [reflexivity|].
  unfold is_char in Hc. simpl. unfold to_char at 1 2.
  rewrite Z.mod_small by lia.
  destruct (Z.eqb_spec c 0); [lia|]. f_equal. exact IH.
Qed.

Lemma cstr_put_field (dst body : list Z) :
  body <> [] -> Forall is_char body -> cstr (put_field dst body) = body.
Proof.
  intros Hne Hall. destruct body as [|b body]; [contradiction|].
  unfold put_field, put. apply cstr_text. exact Hall.
Qed.

Lemma rd_prefix (pre rest : list Z) (k : nat) :
  (k < length pre)%nat -> rd (pre ++ rest) k = rd pre k.
Proof. intros H. unfold rd. rewrite lookup_app_l by exact H. reflexivity. Qed.

Lemma date_prefix_reads (pre rest : list Z) :
  length pre = 12%nat ->
  month_raw (pre ++ rest) = month_raw pre /\
  date_text (pre ++ rest) = date_text pre /\
  time_text (pre ++ rest) = time_text pre.
Proof.
  intros H. unfold date_text, time_text, month_raw.
  rewrite !rd_prefix by lia. auto.
Qed.

Lemma month_raw_prefix (h0 h1 : Z) (dt : list Z) :
  (2 <= length dt)%nat ->
  month_raw ([h0; h1] ++ field DATE_TIME dt) = month_of dt.
Proof.
  intros H. destruct dt as [|d0 [|d1 dt]]; simpl in H; try lia. reflexivity.
Qed.

(** The buffer after a header, a date and time field of eight characters,
    two further fields and whatever follows them were stored. *)
Lemma stored_fields (h0 h1 t1 t2 : Z) (dt b1 b2 tl : list Z) :
  length dt = 8%nat ->
  (length b1 + length b2 + length tl <= 240)%nat ->
  let pre := [h0; h1] ++ field DATE_TIME dt in
  let raw := raw_of (([h0; h1] ++ field DATE_TIME dt ++ field t1 b1
                        ++ field t2 b2) ++ tl) in
  length raw = 256%nat /\
  month_raw raw = month_of dt /\
  date_text raw = date_text pre /\ time_text raw = time_text pre /\
  rd raw 12 = t1 /\ rd raw 13 = Z.of_nat (length b1) /\
  rd raw (15 + Z.to_nat (rd raw 13)) = Z.of_nat (length b2) /\
  first_body raw = b1 /\ second_body raw = b2.
Proof.
  intros Hdt Hlen pre raw.
  assert (Hpre : length pre = 12%nat) by (unfold pre; simpl; lia).
  assert (Hraw : raw = pre ++ t1 :: Z.of_nat (length b1) :: b1
                         ++ t2 :: Z.of_nat (length b2)
                         :: (b2 ++ tl ++ replicate
                               (256 - (16 + length b1 + length b2 + length tl)) 0)).
  { unfold raw, raw_of. change (Z.to_nat RAWDATA_LEN) with 256%nat.
    replace (length (([h0; h1] ++ field DATE_TIME dt ++ field t1 b1
                        ++ field t2 b2) ++ tl))
      with (16 + length b1 + length b2 + length tl)%nat
      by (rewrite !length_app, !field_length; simpl; lia).
    unfold pre, field. rewrite <- !app_assoc. simpl.
    reflexivity. }
  split; [apply raw_of_length; rewrite !length_app, !field_length; simpl; lia|].
  destruct (date_prefix_reads pre (t1 :: Z.of_nat (length b1) :: b1
                         ++ t2 :: Z.of_nat (length b2)
                         :: (b2 ++ tl ++ replicate
                               (256 - (16 + length b1 + length b2 + length tl)) 0))
              Hpre) as (Hm & Hd & Ht).
  destruct (layout_first pre b1 (t2 :: Z.of_nat (length b2)
                         :: (b2 ++ tl ++ replicate
                               (256 - (16 + length b1 + length b2 + length tl)) 0))
              t1 Hpre) as (H12 & H13 & Hf).
  destruct (layout_second pre b1 (b2 ++ tl ++ replicate
                               (256 - (16 + length b1 + length b2 + length tl)) 0)
              t1 t2 (Z.of_nat (length b2)) Hpre) as (H15 & Hs).
  cbv zeta in H12, H13, Hf, H15, Hs.
  rewrite <- Hraw in Hm, Hd, Ht, H12, H13, Hf, H15, Hs.
  rewrite Nat2Z.id, take_app_length in Hs.
  rewrite Hm. unfold pre at 1. rewrite month_raw_prefix by lia.
  auto 10.
Qed.

Lemma displayed_strings {F : Type} (c1 c2 : callerid_state F) (data : cid_data) :
  extracted (rawdata c1) data = extracted (rawdata c2) data ->
  name c1 = name c2 -> number c1 = number c2 -> date_time c1 = date_time c2 ->
  name (displayed c1 data) = name (displayed c2 data) /\
  number (displayed c1 data) = number (displayed c2 data) /\
  date_time (displayed c1 data) = date_time (displayed c2 data) /\
  record_line (displayed c1 data) = record_line (displayed c2 data).
Proof.
  intros He Hn Hb Hd. unfold record_line, displayed.
  cbn [name number date_time set_strings]. rewrite He, Hn, Hb, Hd. auto.
Qed.

Section Orders.
Context {F : Type}.
Variables (c0 : callerid_state F) (data : cid_data).
Hypothesis Hfresh : fresh c0.
Hypothesis Hdata : allocated data.

(** In the first session of a process, a valid MDMF message with a date
    and time field, a name and a number gives the same record whichever of
    the name and the number comes first: the same lines are printed, the
    same [cid_data] is filled in, the same strings are copied into the
    session, and the name and the number are the transmitted ones. *)
Theorem mdmf_field_order_irrelevant (len : Z) (dt nm nb : list Z) :
  length dt = 8%nat -> 1 <= month_of dt <= 12 ->
  (1 <= length nm <= 19)%nat -> (1 <= length nb <= 19)%nat ->
  Forall is_char nm -> Forall is_char nb ->
  exists out g cidA cidB d,
    spill statics_init c0 data (framed (mdmf_name_first len dt nm nb))
      = Done (1, out, g, cidA, d) /\
    spill statics_init c0 data (framed (mdmf_number_first len dt nm nb))
      = Done (1, out, g, cidB, d) /\
    name cidA = name cidB /\ number cidA = number cidB /\
    date_time cidA = date_time cidB /\
    cstr (cd_name d) = nm /\ cstr (cd_number d) = nb.
Proof.
  intros Hdt Hmonth Hnm Hnb Hcnm Hcnb.
  assert (Hsum : zsum (mdmf_number_first len dt nm nb)
                 = zsum (mdmf_name_first len dt nm nb)).
  { unfold mdmf_number_first, mdmf_name_first, field.
    rewrite !zsum_app, !zsum_cons. lia. }
  assert (Hne : forall l : list Z, (1 <= length l)%nat -> l <> []).
  { intros [|? ?] H; [simpl in H; lia | discriminate]. }
  pose proof (decode_mdmf c0 len dt NAME nm NUM nb
                (checksum_of (mdmf_name_first len dt nm nb))
                ltac:(auto) ltac:(apply Hne; lia) ltac:(apply Hne; lia)
                ltac:(apply Hne; lia) ltac:(lia)) as HA.
  pose proof (decode_mdmf c0 len dt NUM nb NAME nm
                (checksum_of (mdmf_number_first len dt nm nb))
                ltac:(auto) ltac:(apply Hne; lia) ltac:(apply Hne; lia)
                ltac:(apply Hne; lia) ltac:(lia)) as HB.
  cbv zeta in HA, HB. rewrite (fresh_session c0 Hfresh) in HA, HB.
  fold (mdmf_name_first len dt nm nb) in HA.
  fold (mdmf_number_first len dt nm nb) in HB.
  unfold spill, framed. rewrite HA, HB. clear HA HB.
  cbn [bind]. change (1 <? 0) with false. change (negb (1 =? 0)) with true.
  cbv iota. rewrite Hsum. unfold checksum_of. rewrite Hsum.
  set (ck := (256 - zsum (mdmf_name_first len dt nm nb) mod 256) mod 256).
  set (cidA := set_rawdata (raw_of (mdmf_name_first len dt nm nb ++ [ck]))
                 (session c0 (mdmf_name_first len dt nm nb) CHECKSUM)).
  set (cidB := set_rawdata (raw_of (mdmf_number_first len dt nm nb ++ [ck]))
                 (session c0 (mdmf_number_first len dt nm nb) CHECKSUM)).
  destruct (stored_fields MDMF len NAME NUM dt nm nb [ck] Hdt
              ltac:(simpl; lia))
    as (HlA & HmA & HdA & HtA & H12A & H13A & H15A & HfA & HsA).
  destruct (stored_fields MDMF len NUM NAME dt nb nm [ck] Hdt
              ltac:(simpl; lia))
    as (HlB & HmB & HdB & HtB & H12B & H13B & H15B & HfB & HsB).
  fold (mdmf_name_first len dt nm nb) in HlA, HmA, HdA, HtA, H12A, H13A,
    H15A, HfA, HsA.
  fold (mdmf_number_first len dt nm nb) in HlB, HmB, HdB, HtB, H12B, H13B,
    H15B, HfB, HsB.
  change (raw_of (mdmf_name_first len dt nm nb ++ [ck]))
    with (rawdata cidA) in HlA, HmA, HdA, HtA, H12A, H13A, H15A, HfA, HsA.
  change (raw_of (mdmf_number_first len dt nm nb ++ [ck]))
    with (rawdata cidB) in HlB, HmB, HdB, HtB, H12B, H13B, H15B, HfB, HsB.
  assert (Hdt64 : length (date_time c0) = 64%nat) by apply Hfresh.
  assert (HxA : extractable (rawdata cidA) = true).
  { unfold extractable. rewrite H15A, H13A, H12A, HmA.
    change ((NAME =? NAME) || (NAME =? NUM)) with true. cbv iota.
    repeat (apply andb_true_intro; split); apply Z.leb_le; lia. }
  assert (HxB : extractable (rawdata cidB) = true).
  { unfold extractable. rewrite H15B, H13B, H12B, HmB.
    change ((NUM =? NAME) || (NUM =? NUM)) with true. cbv iota.
    repeat (apply andb_true_intro; split); apply Z.leb_le; lia. }
  rewrite (get_CID_info_done cidA data HlA Hdata Hdt64 HxA).
  rewrite (get_CID_info_done cidB data HlB Hdata Hdt64 HxB).
  cbn [bind].
  assert (HeA : extracted (rawdata cidA) data
                = mk_cid_data
                    (put (date data)
                       (date_text ([MDMF; len] ++ field DATE_TIME dt)))
                    (put (call_time data)
                       (time_text ([MDMF; len] ++ field DATE_TIME dt)))
                    (put_field (cd_name data) nm)
                    (put_field (cd_number data) nb)).
  { unfold extracted. rewrite HdA, HtA, H12A, HfA, HsA. reflexivity. }
  assert (HeB : extracted (rawdata cidB) data = extracted (rawdata cidA) data).
  { rewrite HeA. unfold extracted. rewrite HdB, HtB, H12B, HfB, HsB.
    reflexivity. }
  destruct (displayed_strings cidB cidA data HeB eq_refl eq_refl eq_refl)
    as (Hn & Hb & Hd & Hl).
  rewrite HeB, Hl.
  eexists _, _, (displayed cidA data), (displayed cidB data), _.
  split; [reflexivity|]. split; [reflexivity|].
  rewrite Hn, Hb, Hd, HeA. cbn [cd_name cd_number].
  repeat split; try reflexivity; apply cstr_put_field; auto; apply Hne; lia.
Qed.
End Orders.

(** The buffer after a header, a date and time field of eight characters,
    one further field and a last byte were stored. *)
Lemma stored_last_field (h0 h1 t1 ck : Z) (dt b1 : list Z) :
  length dt = 8%nat -> (length b1 <= 200)%nat ->
  let pre := [h0; h1] ++ field DATE_TIME dt in
  let raw := raw_of (([h0; h1] ++ field DATE_TIME dt ++ field t1 b1) ++ [ck]) in
  length raw = 256%nat /\
  month_raw raw = month_of dt /\
  date_text raw = date_text pre /\ time_text raw = time_text pre /\
  rd raw 12 = t1 /\ rd raw 13 = Z.of_nat (length b1) /\
  rd raw (15 + Z.to_nat (rd raw 13)) = 0 /\
  first_body raw = b1 /\ second_body raw = [].
Proof.
  intros Hdt Hlen pre raw.
  assert (Hpre : length pre = 12%nat) by (unfold pre; simpl; lia).
  assert (Hraw : raw = pre ++ t1 :: Z.of_nat (length b1) :: b1
                         ++ ck :: 0 :: replicate (240 - length b1) 0).
  { unfold raw, raw_of. change (Z.to_nat RAWDATA_LEN) with 256%nat.
    replace (length (([h0; h1] ++ field DATE_TIME dt ++ field t1 b1) ++ [ck]))
      with (15 + length b1)%nat
      by (rewrite !length_app, !field_length; simpl; lia).
    replace (256 - (15 + length b1))%nat with (S (240 - length b1)) by lia.
    unfold pre, field. rewrite <- !app_assoc. simpl. reflexivity. }
  split; [apply raw_of_length; rewrite !length_app, !field_length; simpl; lia|].
  destruct (date_prefix_reads pre
              (t1 :: Z.of_nat (length b1) :: b1
                 ++ ck :: 0 :: replicate (240 - length b1) 0) Hpre)
    as (Hm & Hd & Ht).
  destruct (layout_first pre b1 (ck :: 0 :: replicate (240 - length b1) 0)
              t1 Hpre) as (H12 & H13 & Hf).
  destruct (layout_second pre b1 (replicate (240 - length b1) 0) t1 ck 0 Hpre)
    as (H15 & Hs).
  cbv zeta in H12, H13, Hf, H15, Hs.
  rewrite <- Hraw in Hm, Hd, Ht, H12, H13, Hf, H15, Hs.
  change (Z.to_nat 0) with 0%nat in Hs. rewrite take_0 in Hs.
  rewrite Hm. unfold pre at 1. rewrite month_raw_prefix by lia.
  auto 10.
Qed.

Section Sdmf.
Context {F : Type}.
Variables (c0 : callerid_state F) (data : cid_data).
Hypothesis Hfresh : fresh c0.
Hypothesis Hdata : allocated data.

(** Claim C3, as amended.  In a new session that the decoder enters with
    its static variables [msg_off] and [number_field] at 0, as in the first
    session of a process, an SDMF message made of a date and time field and
    a number field of 1 to 19 characters, followed by any checksum byte, is
    decoded to completion (result 1) and the extracted number is the
    transmitted one; the name member of the record is left as it was
    allocated.  The other static variables may hold anything. *)
Theorem sdmf_number_extracted (g0 : statics) (len ck : Z) (dt nb : list Z) :
  msg_off g0 = 0 -> number_field g0 = 0 ->
  length dt = 8%nat -> 1 <= month_of dt <= 12 ->
  (1 <= length nb <= 19)%nat -> Forall is_char nb ->
  exists out g cid' d,
    spill g0 c0 data (sdmf_date_number len dt nb ++ [ck])
      = Done (1, out, g, cid', d) /\
    cstr (cd_number d) = nb /\ cd_name d = cd_name data.
Proof.
  intros Hoff Hnbf Hdt Hmonth Hnb Hcnb.
  destruct g0 as [nf nbf mt0 off df]. cbn [msg_off number_field] in Hoff, Hnbf.
  subst off nbf.
  assert (Hne : forall l : list Z, (1 <= length l)%nat -> l <> []).
  { intros [|? ?] H; [simpl in H; lia | discriminate]. }
  pose proof (decode_sdmf_date_number c0 nf mt0 df len dt nb ck
                ltac:(apply Hne; lia) ltac:(apply Hne; lia) ltac:(lia)) as HA.
  cbv zeta in HA. rewrite (fresh_session c0 Hfresh) in HA.
  unfold spill. rewrite HA. clear HA.
  cbn [bind]. change (1 <? 0) with false. change (negb (1 =? 0)) with true.
  cbv iota.
  set (cidA := set_rawdata (raw_of (sdmf_date_number len dt nb ++ [ck]))
                 (session c0 (sdmf_date_number len dt nb) CHECKSUM)).
  destruct (stored_last_field SDMF len NUM ck dt nb Hdt ltac:(lia))
    as (HlA & HmA & HdA & HtA & H12A & H13A & H15A & HfA & HsA).
  fold (sdmf_date_number len dt nb) in HlA, HmA, HdA, HtA, H12A, H13A,
    H15A, HfA, HsA.
  change (raw_of (sdmf_date_number len dt nb ++ [ck]))
    with (rawdata cidA) in HlA, HmA, HdA, HtA, H12A, H13A, H15A, HfA, HsA.
  assert (Hdt64 : length (date_time c0) = 64%nat) by apply Hfresh.
  assert (HxA : extractable (rawdata cidA) = true).
  { unfold extractable. rewrite H15A, H13A, H12A, HmA.
    change ((NUM =? NAME) || (NUM =? NUM)) with true. cbv iota.
    repeat (apply andb_true_intro; split); apply Z.leb_le; lia. }
  rewrite (get_CID_info_done cidA data HlA Hdata Hdt64 HxA).
  cbn [bind].
  eexists _, _, _, _. split; [reflexivity|].
  unfold extracted. rewrite H12A, HfA, HsA. cbn [cd_name cd_number].
  change (NUM =? NAME) with false. change (NUM =? NUM) with true. cbv iota.
  split; [apply cstr_put_field; auto; apply Hne; lia | reflexivity].
Qed.
End Sdmf.

(** ** What a call of the decoder can return *)

Lemma decode_results {F : Type} (g g' : statics) (cid cid' : callerid_state F)
    (b res : Z) (out : list console) :
  decode_CID_msg g cid b = Done (res, out, g', cid') ->
  (res = 0 /\ out = []) \/
  (res = 1 /\ sawflag cid = CHECKSUM /\
   (out = [Checksum_Passed] \/ out = [Checksum_Failed])) \/
  (res = -1 /\ out = [Unknown_Msg]).
Proof.
  unfold decode_CID_msg, decode_continue.
  destruct (aset RAWDATA_LEN (rawdata cid) (msg_off g) b) as [raw| |];
    [|discriminate|discriminate].
  cbn [bind sawflag set_rawdata].
  repeat match goal with
         | |- context [if ?c then _ else _] => destruct c eqn:?
         end;
    intros H; injection H as <- <- <- <-; auto 6.
  all: right; left; repeat split; auto;
    match goal with
    | E : (sawflag _ =? CHECKSUM) = true |- _ => apply Z.eqb_eq in E; exact E
    end.
Qed.

Section FeedResults.
Context {F : Type}.
Variable fsk_serial : fsk_data F -> list Z -> Z -> serial_out F.

Lemma feed_loop_returned (fuel : nat) : forall g cid buf b out r,
  feed_loop fsk_serial fuel g cid buf b out = Done r ->
  match r with
  | Returned res out' _ _ =>
      out = [] ->
      (res = 1 /\ (out' = [Checksum_Passed] \/ out' = [Checksum_Failed])) \/
      (res = -1 /\ out' = [Unknown_Msg])
  | Drained _ out' _ _ => out = [] -> out' = []
  end.
Proof.
  induction fuel as [|fuel IH]; intros g cid buf b out r.
  - simpl. destruct (_ >=? _); [discriminate|].
    intros H; injection H as <-. auto.
  - cbn [feed_loop].
    destruct (_ >=? _); [|intros H; injection H as <-; auto].
    destruct (_ && _); [|discriminate].
    destruct (negb _).
    + destruct (decode_CID_msg _ _ _) as [[[[res o] g1] c1]| |] eqn:Ed;
        [|discriminate|discriminate].
      cbn [bind]. apply decode_results in Ed.
      destruct (res =? -1) eqn:E1.
      * intros H; injection H as <-. intros ->.
        apply Z.eqb_eq in E1. subst res.
        destruct Ed as [[? _]|[[? _]|[_ ->]]]; try lia. auto.
      * destruct (negb (res =? 0)) eqn:E0.
        -- intros H; injection H as <-. intros ->.
           apply Z.eqb_neq in E1. apply negb_true_iff, Z.eqb_neq in E0.
           destruct Ed as [[? _]|[[_ [_ Ho]]|[? _]]]; try lia. auto.
        -- apply negb_false_iff, Z.eqb_eq in E0. subst res.
           destruct Ed as [[_ ->]|[[? _]|[? _]]]; try lia.
           rewrite app_nil_r. apply IH.
    + apply IH.
Qed.
End FeedResults.

(** ** The loop of [callerid_feed] *)

Lemma decode_fskd {F : Type} (g g' : statics) (cid cid' : callerid_state F)
    (b res : Z) (out : list console) :
  decode_CID_msg g cid b = Done (res, out, g', cid') -> fskd cid' = fskd cid.
Proof.
  unfold decode_CID_msg, decode_continue.
  destruct (aset RAWDATA_LEN (rawdata cid) (msg_off g) b) as [raw| |];
    [|discriminate|discriminate].
  cbn [bind sawflag set_rawdata].
  repeat match goal with
         | |- context [if ?c then _ else _] => destruct c
         end;
    intros H; injection H as <- <- <- <-; reflexivity.
Qed.

Lemma decode_not_timeout {F : Type} (g : statics) (cid : callerid_state F) (b : Z) :
  decode_CID_msg g cid b <> Timeout.
Proof.
  unfold decode_CID_msg, decode_continue, aset.
  destruct (_ && _); [|discriminate].
  cbn [bind sawflag set_rawdata].
  repeat match goal with
         | |- context [if ?c then _ else _] => destruct c
         end; discriminate.
Qed.

Section FeedLoop.
Context {F : Type}.
Variable fsk_serial : fsk_data F -> list Z -> Z -> serial_out F.

Lemma feed_loop_drained (fuel : nat) : forall g cid buf b out buf' out' g' cid',
  feed_loop fsk_serial fuel g cid buf b out = Done (Drained buf' out' g' cid') ->
  (exists k, buf' = drop k buf) /\
  Z.of_nat (length buf') < ispb (fskd cid') * 12.
Proof.
  induction fuel as [|fuel IH]; intros g cid buf b out buf' out' g' cid'.
  - simpl. destruct (Z.geb_spec (Z.of_nat (length buf)) (ispb (fskd cid) * 12))
      as [Hge|Hlt]; [discriminate|].
    intros H; injection H as <- <- <- <-. split; [exists 0%nat; reflexivity | lia].
  - cbn [feed_loop].
    destruct (Z.geb_spec (Z.of_nat (length buf)) (ispb (fskd cid) * 12))
      as [Hge|Hlt].
    + destruct (_ && _); [|discriminate].
      assert (Hstep : forall g1 c1 o1,
                 feed_loop fsk_serial fuel g1 c1
                   (drop (Z.to_nat (Z.of_nat (length buf)
                                    - s_len (fsk_serial (fskd cid) buf b))) buf)
                   (s_byte (fsk_serial (fskd cid) buf b)) o1
                 = Done (Drained buf' out' g' cid') ->
                 (exists k, buf' = drop k buf) /\
                 Z.of_nat (length buf') < ispb (fskd cid') * 12).
      { intros g1 c1 o1 H. apply IH in H as [[k ->] Hlt].
        split; [|exact Hlt]. rewrite drop_drop. eexists; reflexivity. }
      destruct (negb _).
      * destruct (decode_CID_msg _ _ _) as [[[[res o] g1] c1]| |];
          [|discriminate|discriminate].
        cbn [bind]. destruct (res =? -1); [discriminate|].
        destruct (negb (res =? 0)); [discriminate|]. apply Hstep.
      * apply Hstep.
    + intros H; injection H as <- <- <- <-.
      split; [exists 0%nat; reflexivity | lia].
Qed.

Lemma feed_loop_returns (fuel : nat) : forall g cid buf b out res out' g' cid',
  feed_loop fsk_serial fuel g cid buf b out = Done (Returned res out' g' cid') ->
  res = 1 \/ res = -1.
Proof.
  induction fuel as [|fuel IH]; intros g cid buf b out res out' g' cid'.
  - simpl. destruct (_ >=? _); discriminate.
  - cbn [feed_loop]. destruct (_ >=? _); [|discriminate].
    destruct (_ && _); [|discriminate].
    destruct (negb _); [|apply IH].
    destruct (decode_CID_msg _ _ _) as [[[[r o] g1] c1]| |];
      [|discriminate|discriminate].
    cbn [bind]. destruct (r =? -1); [intros H; injection H as <-; auto|].
    destruct (negb (r =? 0)); [intros H; injection H as <-; auto|]. apply IH.
Qed.

Hypothesis Hserial : consuming fsk_serial.

Lemma feed_loop_terminates (fuel : nat) : forall g cid buf b out,
  0 < ispb (fskd cid) -> (length buf < fuel)%nat ->
  feed_loop fsk_serial fuel g cid buf b out <> Timeout.
Proof.
  induction fuel as [|fuel IH]; intros g cid buf b out Hispb Hfuel; [lia|].
  cbn [feed_loop].
  destruct (Z.geb_spec (Z.of_nat (length buf)) (ispb (fskd cid) * 12))
    as [Hge|Hlt0]; [|discriminate].
  destruct (Hserial (fskd cid) buf b) as (Hi & Hl & Hlt).
  assert (Hne : buf <> []) by (destruct buf; [simpl in *; lia | discriminate]).
  specialize (Hlt Hne).
  replace ((0 <=? s_len (fsk_serial (fskd cid) buf b))
           && (s_len (fsk_serial (fskd cid) buf b) <=? Z.of_nat (length buf)))
    with true
    by (symmetry; apply andb_true_intro; split; apply Z.leb_le; lia).
  assert (Hstep : forall g1 (c1 : callerid_state F) o1,
             ispb (fskd c1) = ispb (fskd cid) ->
             feed_loop fsk_serial fuel g1 c1
               (drop (Z.to_nat (Z.of_nat (length buf)
                                - s_len (fsk_serial (fskd cid) buf b))) buf)
               (s_byte (fsk_serial (fskd cid) buf b)) o1 <> Timeout).
  { intros g1 c1 o1 Hc. apply IH; [lia|]. rewrite length_drop. lia. }
  destruct (negb _).
  - destruct (decode_CID_msg _ _ _) as [[[[res o] g1] c1]| |] eqn:Ed;
      [|discriminate|exfalso; exact (decode_not_timeout _ _ _ Ed)].
    cbn [bind]. destruct (res =? -1); [discriminate|].
    destruct (negb (res =? 0)); [discriminate|].
    apply Hstep. apply decode_fskd in Ed. rewrite Ed. exact Hi.
  - apply Hstep. exact Hi.
Qed.

Lemma feed_loop_ispb (fuel : nat) : forall g cid buf b out buf' out' g' cid',
  feed_loop fsk_serial fuel g cid buf b out = Done (Drained buf' out' g' cid') ->
  ispb (fskd cid') = ispb (fskd cid).
Proof.
  induction fuel as [|fuel IH]; intros g cid buf b out buf' out' g' cid'.
  - simpl. destruct (_ >=? _); [discriminate|].
    intros H; injection H as <- <- <- <-. reflexivity.
  - cbn [feed_loop].
    destruct (_ >=? _); [|intros H; injection H as <- <- <- <-; reflexivity].
    destruct (_ && _); [|discriminate].
    destruct (Hserial (fskd cid) buf b) as (Hi & _).
    destruct (negb _).
    + destruct (decode_CID_msg _ _ _) as [[[[res o] g1] c1]| |] eqn:Ed;
        [|discriminate|discriminate].
      cbn [bind]. destruct (res =? -1); [discriminate|].
      destruct (negb (res =? 0)); [discriminate|].
      intros H. apply IH in H. rewrite H.
      apply decode_fskd in Ed. rewrite Ed. exact Hi.
    + intros H. apply IH in H. rewrite H. exact Hi.
Qed.
End FeedLoop.

(** ** Claims about [callerid_feed] *)

Section FeedClaims.
Context {F : Type}.
Variable fsk_serial : fsk_data F -> list Z -> Z -> serial_out F.

(** Claim C2, as amended.  A call of [callerid_feed] that returns yields
    0 without printing, or 1 after the checksum byte was received, whether
    the checksum matched or not, or -1 after a byte arrived in the
    [UNKNOWN] state; a failed checksum is only printed. *)
Theorem feed_result_kinds (fuel : nat) (g g' : statics)
    (cid cid' : callerid_state F) (ubuf : list Z) (res : Z)
    (out : list console) :
  callerid_feed fsk_serial fuel g cid ubuf = Done (res, out, g', cid') ->
  (res = 0 /\ out = []) \/
  (res = 1 /\ (out = [Checksum_Passed] \/ out = [Checksum_Failed])) \/
  (res = -1 /\ out = [Unknown_Msg]).
Proof.
  unfold callerid_feed. destruct (_ && _); [|discriminate].
  destruct (feed_loop _ _ _ _ _ _ _) as [[r o g1 c1|buf o g1 c1]| |] eqn:El;
    [| |discriminate|discriminate]; cbn [bind].
  - apply feed_loop_returned in El. specialize (El eq_refl).
    intros H; injection H as <- <- <- <-. auto.
  - apply feed_loop_returned in El. specialize (El eq_refl). subst o.
    destruct (negb _); [destruct (_ <=? _); [|discriminate]|];
      intros H; injection H as <- <- <- <-; auto.
Qed.

Hypothesis Hserial : consuming fsk_serial.

(** While one window of [ispb * 12] samples fits the carry-over array:
    with a demodulator that uses up samples, a call of [callerid_feed]
    comes to an end; when its loop is left because less than one window
    remains, the call returns 0 with exactly these samples as
    carry-over; and after every call that returns 0 the carry-over is
    the unconsumed end of the old carry-over followed by the new samples,
    in order, [oldlen] is its size in bytes, and it is shorter than one
    window. *)
Theorem carry_over_after_feed (fuel : nat) (g : statics)
    (cid : callerid_state F) (ubuf : list Z) :
  0 < ispb (fskd cid) ->
  ispb (fskd cid) * 12 <= OLDSTUFF_LEN + 1 ->
  0 <= oldlen cid <= 2 * OLDSTUFF_LEN ->
  (length (carry_over cid ++ ubuf) < fuel)%nat ->
  callerid_feed fsk_serial fuel g cid ubuf <> Timeout /\
  (forall buf' out g1 cid1,
      feed_loop fsk_serial fuel g cid (carry_over cid ++ ubuf) 88 []
        = Done (Drained buf' out g1 cid1) ->
      exists cid',
        callerid_feed fsk_serial fuel g cid ubuf = Done (0, out, g1, cid') /\
        carry_over cid' = buf') /\
  (forall out g' cid',
      callerid_feed fsk_serial fuel g cid ubuf = Done (0, out, g', cid') ->
      (exists k, carry_over cid' = drop k (carry_over cid ++ ubuf)) /\
      oldlen cid' = 2 * Z.of_nat (length (carry_over cid')) /\
      Z.of_nat (length (carry_over cid')) < ispb (fskd cid') * 12).
Proof.
  intros Hispb Hcap Hold Hfuel.
  assert (Hin : (0 <=? oldlen cid) && (oldlen cid <=? 2 * OLDSTUFF_LEN) = true)
    by (apply andb_true_intro; split; apply Z.leb_le; lia).
  assert (Hstore : forall buf' out g1 cid1,
             feed_loop fsk_serial fuel g cid (carry_over cid ++ ubuf) 88 []
               = Done (Drained buf' out g1 cid1) ->
             exists cid',
               callerid_feed fsk_serial fuel g cid ubuf
                 = Done (0, out, g1, cid') /\
               carry_over cid' = buf' /\
               oldlen cid' = 2 * Z.of_nat (length buf') /\
               fskd cid' = fskd cid1).
  { intros buf' out g1 cid1 El. unfold callerid_feed. rewrite Hin.
    fold (carry_over cid). rewrite El. cbn [bind].
    pose proof (feed_loop_drained _ _ _ _ _ _ _ _ _ _ _ El) as [_ Hlt].
    pose proof (feed_loop_ispb _ Hserial _ _ _ _ _ _ _ _ _ _ El) as Hi.
    destruct (Z.eqb_spec (Z.of_nat (length buf')) 0) as [E0|E0]; cbn [negb].
    - eexists. split; [reflexivity|]. unfold carry_over.
      cbn [oldlen oldstuff set_old fskd].
      destruct buf'; [|simpl in E0; lia]. auto.
    - replace (Z.of_nat (length buf') <=? OLDSTUFF_LEN) with true
        by (symmetry; apply Z.leb_le; lia).
      eexists. split; [reflexivity|]. unfold carry_over.
      cbn [oldlen oldstuff set_old fskd].
      rewrite Z.quot_mul by lia. rewrite Nat2Z.id, take_app_length.
      split; [reflexivity|]. split; [lia | reflexivity]. }
  split; [|split].
  - unfold callerid_feed. rewrite Hin. fold (carry_over cid).
    pose proof (feed_loop_terminates _ Hserial fuel g cid
                  (carry_over cid ++ ubuf) 88 [] Hispb Hfuel) as Ht.
    destruct (feed_loop _ _ _ _ _ _ _) as [[r o g1 c1|buf o g1 c1]| |];
      [| | |contradiction]; cbn [bind]; try discriminate.
    destruct (Z.of_nat (length buf) =? 0); cbn [negb];
      [|destruct (Z.of_nat (length buf) <=? OLDSTUFF_LEN)]; discriminate.
  - intros buf' out g1 cid1 El.
    destruct (Hstore _ _ _ _ El) as (cid' & H1 & H2 & _). eauto.
  - intros out g' cid' Hfeed.
    destruct (feed_loop fsk_serial fuel g cid (carry_over cid ++ ubuf) 88 [])
      as [[r o g1 c1|buf o g1 c1]| |] eqn:El.
    + exfalso. pose proof (feed_loop_returns _ _ _ _ _ _ _ _ _ _ _ El) as Hr.
      unfold callerid_feed in Hfeed. rewrite Hin in Hfeed.
      fold (carry_over cid) in Hfeed. rewrite El in Hfeed.
      cbn [bind] in Hfeed. injection Hfeed as -> _ _ _. lia.
    + destruct (Hstore _ _ _ _ eq_refl) as (cid2 & H1 & H2 & H3 & H4).
      rewrite H1 in Hfeed. injection Hfeed as _ _ <-.
      pose proof (feed_loop_drained _ _ _ _ _ _ _ _ _ _ _ El) as [[k Hk] Hlt].
      rewrite H2, H4. split; [exists k; exact Hk|]. split; [exact H3 | exact Hlt].
    + exfalso. unfold callerid_feed in Hfeed. rewrite Hin in Hfeed.
      fold (carry_over cid) in Hfeed. rewrite El in Hfeed. discriminate.
    + exfalso. unfold callerid_feed in Hfeed. rewrite Hin in Hfeed.
      fold (carry_over cid) in Hfeed. rewrite El in Hfeed. discriminate.
Qed.
End FeedClaims.

(** ** An unknown message type *)

Lemma in_rawdata_Z (off : Z) :
  0 <= off < RAWDATA_LEN -> (0 <=? off) && (off <? RAWDATA_LEN) = true.
Proof.
  intros H. apply andb_true_intro.
  split; [apply Z.leb_le | apply Z.ltb_lt]; lia.
Qed.

Lemma decode_type_other_any {F : Type} (g : statics) (cid : callerid_state F)
    (a : Z) :
  sawflag cid = MESSAGE_TYPE -> a <> MDMF -> a <> SDMF ->
  0 <= msg_off g < RAWDATA_LEN ->
  decode_CID_msg g cid a
  = Done (0, [], set_msg_off (msg_off g + 1) g,
          set_cksum (cksum cid + a)
            (set_sawflag UNKNOWN
               (set_rawdata (<[Z.to_nat (msg_off g) := a]> (rawdata cid)) cid))).
Proof.
  intros Hsaw Ha1 Ha2 Hoff.
  unfold decode_CID_msg, decode_continue, aset. rewrite in_rawdata_Z by exact Hoff.
  cbn [bind sawflag set_rawdata]. rewrite Hsaw.
  change (MESSAGE_TYPE =? MESSAGE_TYPE) with true. cbv iota.
  destruct (Z.eqb_spec a MDMF); [contradiction|].
  destruct (Z.eqb_spec a SDMF); [contradiction|].
  destruct cid; reflexivity.
Qed.

Lemma decode_unknown_any {F : Type} (g : statics) (cid : callerid_state F)
    (b : Z) :
  sawflag cid = UNKNOWN -> 0 <= msg_off g < RAWDATA_LEN ->
  decode_CID_msg g cid b
  = Done (-1, [Unknown_Msg], set_msg_off (msg_off g + 1) g,
          set_rawdata (<[Z.to_nat (msg_off g) := b]> (rawdata cid)) cid).
Proof.
  intros Hsaw Hoff.
  unfold decode_CID_msg, decode_continue, aset. rewrite in_rawdata_Z by exact Hoff.
  cbn [bind sawflag set_rawdata]. rewrite Hsaw. reflexivity.
Qed.


(** ** Claim about [callerid_new] *)

(** ** Binary digits *)

Lemma digits2_size (p : positive) : digits2_pos p = Pos.size p.
Proof. induction p as [p IH|p IH|]; simpl; rewrite ?IH; reflexivity. Qed.




(** ** Values that need no rounding *)












(** ** Conversion of any positive integer *)








(** ** The checksum test *)

Lemma land_255 (x : Z) : Z.land x 255 = x mod 256.
Proof. change 255 with (Z.ones 8). rewrite Z.land_ones by lia. reflexivity. Qed.

(** In the [CHECKSUM] state of a session that started with a zero sum, a
    byte is accepted exactly when it is the checksum of the bytes stored so
    far and their sum is not a multiple of 256. *)
Lemma checksum_accepts_iff (msg : list Z) (b : Z) :
  is_byte b ->
  (b =? 256 - Z.land (0 + zsum msg) 255) = true
  <-> (zsum msg mod 256 <> 0 /\ b = checksum_of msg).
Proof.
  intros Hb. unfold is_byte in Hb. rewrite land_255, Z.add_0_l, Z.eqb_eq.
  unfold checksum_of.
  pose proof (Z.mod_pos_bound (zsum msg) 256 ltac:(lia)) as Hm.
  destruct (Z.eq_dec (zsum msg mod 256) 0) as [E|E].
  - rewrite E. split; [lia | intros [? _]; contradiction].
  - rewrite (Z.mod_small (256 - zsum msg mod 256)) by lia.
    split; [intros ->; auto | intros [_ ->]; reflexivity].
Qed.

(** Claim C1.  The stored bytes of [zero_sum_msg] add up to 1280, so that
    the byte that makes the sum of the whole message zero modulo 256 is 0;
    the decoder compares it with 256 and prints that the checksum failed. *)
Theorem checksum_zero_sum_rejected :
  zsum zero_sum_msg = 1280 /\
  framed zero_sum_msg = zero_sum_msg ++ [0] /\
  zsum (framed zero_sum_msg) mod 256 = 0 /\
  fed_result (decoded_of (feed_bytes statics_init session0 (framed zero_sum_msg)))
    = Some (1, [Checksum_Failed]).
Proof. vm_compute. auto. Qed.

(** No byte is accepted after [zero_sum_msg]. *)
Lemma zero_sum_rejects_every_byte (b : Z) :
  is_byte b ->
  fed_result (decoded_of (feed_bytes statics_init session0 (zero_sum_msg ++ [b])))
    = Some (1, [Checksum_Failed]).
Proof.
  intros Hb. unfold zero_sum_msg, mdmf_number_first.
  pose proof (decode_mdmf session0 26 (chars "01011200") NUM (chars "5551212")
                NAME (chars "ALICE") b) as H.
  cbv zeta in H. rewrite (fresh_session session0) in H
    by (repeat split; reflexivity).
  rewrite H; [|auto|discriminate|discriminate|discriminate|simpl; lia].
  cbn [decoded_of fed_result].
  destruct (Z.eqb_spec b (256 - Z.land (cksum session0 + zsum ([MDMF; 26] ++ field DATE_TIME (chars "01011200") ++ field NUM (chars "5551212") ++ field NAME (chars "ALICE")))  255)) as [E|E];
    [|reflexivity].
  exfalso. vm_compute in E. unfold is_byte in Hb. lia.
Qed.

(** Claim C2, counterexample.  A message with a wrong checksum byte makes
    [callerid_feed] return 1, as the same message with the right checksum
    does, and [main] goes on to display the record. *)
Lemma checksum_mismatch_returns_complete :
  fed_result (callerid_feed serial_double 1000 statics_init session0
                (samples_of bad_checksum 431))
    = Some (1, [Checksum_Failed]) /\
  fed_result (callerid_feed serial_double 1000 statics_init session0
                (samples_of (framed mdmf_john) 431))
    = Some (1, [Checksum_Passed]) /\
  turn_printed (turn0 (samples_of bad_checksum 431))
    = [Checksum_Failed;
       CID_Record (chars "January 05 14 hr : 32 min 5551234 JOHN")].
Proof. vm_compute. auto. Qed.

Lemma feed_result_kinds_witness :
  (1 = 0 /\ [Checksum_Failed] = []) \/
  (1 = 1 /\ ([Checksum_Failed] = [Checksum_Passed]
             \/ [Checksum_Failed] = [Checksum_Failed])) \/
  (1 = -1 /\ [Checksum_Failed] = [Unknown_Msg]).
Proof.
  eapply (feed_result_kinds serial_double 1000 statics_init _ session0 _
            (samples_of bad_checksum 431)).
  vm_compute. reflexivity.
Defined.

(** Claim C3, counterexample.  The example message without a date and time
    field is decoded to completion, but the extractor takes its digits for
    the date: the month number is 55 and the table of month names is read
    out of bounds; no number is extracted.  And when the date and time field
    is there, the name is not the empty string but what the allocation left
    in the record. *)
Lemma sdmf_example_not_extracted :
  framed sdmf_example = [4; 8; 2; 7; 53; 53; 53; 49; 50; 51; 52; 130] /\
  fed_result (decoded_of (feed_bytes statics_init session0 (framed sdmf_example)))
    = Some (1, [Checksum_Passed]) /\
  month_raw (raw_of (framed sdmf_example)) = 55 /\
  spill statics_init session0 data0 (framed sdmf_example) = Undef /\
  (cd_name <$> record_of
     (spill statics_init session0 data0
        (framed (sdmf_date_number 19 (chars "01051432") (chars "5551234")))))
    = Some (replicate 20 0xAA).
Proof. vm_compute. auto 6. Qed.

Lemma fresh_session0 : fresh session0.
Proof. repeat split; reflexivity. Qed.

Lemma allocated_data0 : allocated data0.
Proof. repeat split; reflexivity. Qed.

Lemma chars_are_chars (s : string) :
  forallb (fun c => (0 <? c) && (c <? 256)) (chars s) = true ->
  Forall is_char (chars s).
Proof.
  intros H. apply List.Forall_forall. intros c Hc.
  rewrite forallb_forall in H. specialize (H c Hc). apply andb_prop in H as [H1 H2].
  apply Z.ltb_lt in H1, H2. split; assumption.
Qed.

Lemma sdmf_number_extracted_witness :
  exists out g cid' d,
    spill (mk_statics 1 0 SDMF 0 0) session0 data0
      (sdmf_date_number 19 (chars "01051432") (chars "5551234") ++ [222])
      = Done (1, out, g, cid', d) /\
    cstr (cd_number d) = chars "5551234" /\ cd_name d = cd_name data0.
Proof.
  apply (sdmf_number_extracted session0 data0 fresh_session0 allocated_data0
           (mk_statics 1 0 SDMF 0 0) 19 222 (chars "01051432") (chars "5551234")).
  - reflexivity.
  - reflexivity.
  - reflexivity.
  - vm_compute. split; discriminate.
  - simpl. lia.
  - apply chars_are_chars. reflexivity.
Defined.

(** ** What the next session sees of the statics *)

Lemma decode_agree {F : Type} (g g' : statics) (cid : callerid_state F) (b : Z) :
  agree (sawflag cid) g g' ->
  related (decode_CID_msg g cid b) (decode_CID_msg g' cid b).
Proof.
  destruct g as [nf nbf mt off df], g' as [nf' nbf' mt' off' df'].
  destruct cid as [f raw os ol ck nm nb dt saw].
  unfold agree. cbn [name_field number_field msg_off msg_type data_field sawflag].
  intros (<- & <- & <- & Hmt & Hdf).
  unfold decode_CID_msg, decode_continue, aset.
  cbn [msg_off rawdata].
  destruct ((0 <=? off) && (off <? RAWDATA_LEN)); [|exact I].
  cbn [bind sawflag set_rawdata set_sawflag set_cksum fskd rawdata oldstuff
       oldlen cksum name number date_time msg_off set_msg_off set_msg_type
       set_name_field set_number_field set_data_field name_field
       number_field msg_type data_field].
  destruct (Z.eqb_spec saw MESSAGE_TYPE) as [->|N0].
  { destruct (b =? MDMF); [|destruct (b =? SDMF)]; cbn; unfold agree; cbn;
      repeat split; auto 10. }
  destruct (Z.eqb_spec saw MESSAGE_LENGTH) as [->|N1].
  { cbn. unfold agree; cbn. destruct Hmt as [?|[?|?]]; try discriminate.
    repeat split; auto 10. }
  destruct (Z.eqb_spec saw DATA_TYPE) as [->|N2].
  { destruct Hmt as [?|[?|?]]; try discriminate.
    destruct (b =? DATE_TIME); [|destruct (b =? NUM); [|destruct (b =? NO_NUM);
      [|destruct (b =? NAME); [|destruct (b =? NO_NAME)]]]];
      cbn; unfold agree; cbn; repeat split; auto 10. }
  destruct (Z.eqb_spec saw DATA_LENGTH) as [->|N3].
  { destruct Hmt as [?|[?|?]]; try discriminate.
    cbn. unfold agree; cbn. repeat split; auto 10. }
  destruct (Z.eqb_spec saw DATA) as [->|N4].
  { destruct Hmt as [?|[?|Hmt]]; try discriminate.
    destruct Hdf as [?|[?|[?|[?|[?|Hdf]]]]]; try discriminate.
    cbn in Hmt, Hdf. subst mt' df'.
    destruct (df - 1 =? 0);
      [destruct ((mt =? MDMF) && negb (nf =? 0) && negb (nbf =? 0));
       [|destruct ((mt =? SDMF) && negb (nbf =? 0))]|];
      cbn; unfold agree; cbn; repeat split; auto 10. }
  destruct (Z.eqb_spec saw CHECKSUM) as [->|N5].
  { destruct (b =? _); cbn; repeat split; auto. }
  cbn. repeat split; auto.
Qed.

Lemma feed_bytes_agree {F : Type} (bytes : list Z) :
  forall (g g' : statics) (cid : callerid_state F),
    agree (sawflag cid) g g' ->
    related_run (feed_bytes g cid bytes) (feed_bytes g' cid bytes).
Proof.
  induction bytes as [|b rest IH]; intros g g' cid Hg.
  - simpl. destruct Hg as (H1 & H2 & H3 & _). auto 10.
  - cbn [feed_bytes].
    pose proof (decode_agree g g' cid b Hg) as Hd. unfold related in Hd.
    destruct (decode_CID_msg g cid b) as [[[[res out] g1] c1]| |];
      destruct (decode_CID_msg g' cid b) as [[[[res' out'] g1'] c1']| |];
      try contradiction; [|exact I].
    destruct Hd as (<- & <- & <- & Hd). cbn [bind].
    destruct (res =? 0).
    + specialize (IH g1 g1' c1 Hd). unfold related_run in IH.
      destruct (feed_bytes g1 c1 rest) as [[[[[r o] g2] c2] u]| |];
        destruct (feed_bytes g1' c1 rest) as [[[[[r' o'] g2'] c2'] u']| |];
        try contradiction; [|exact I].
      cbn [bind]. destruct IH as (<- & <- & <- & <- & IH).
      cbn. repeat split; try reflexivity; apply IH.
    + cbn. repeat split; try reflexivity; apply Hd.
Qed.

(** A new session whose statics have clear flags and a zero offset, as
    every session that ended in the [CHECKSUM] state of an MDMF message
    leaves them, prints and extracts what a session in a new process does,
    whatever the bytes. *)
Lemma session_isolation_flags_clear {F : Type} (g : statics)
    (cid : callerid_state F) (data : cid_data) (bytes : list Z) :
  sawflag cid = MESSAGE_TYPE ->
  name_field g = 0 -> number_field g = 0 -> msg_off g = 0 ->
  printed (spill g cid data bytes) = printed (spill statics_init cid data bytes) /\
  record_of (spill g cid data bytes)
    = record_of (spill statics_init cid data bytes) /\
  is_done (spill g cid data bytes) = is_done (spill statics_init cid data bytes).
Proof.
  intros Hsaw Hn Hb Ho.
  assert (Hg : agree (sawflag cid) g statics_init).
  { unfold agree. rewrite Hsaw, Hn, Hb, Ho. cbn. auto 10. }
  pose proof (feed_bytes_agree bytes g statics_init cid Hg) as H.
  unfold related_run in H. unfold spill.
  destruct (feed_bytes g cid bytes) as [[[[[r o] g2] c2] u]| |];
    destruct (feed_bytes statics_init cid bytes) as [[[[[r' o'] g2'] c2'] u']| |];
    try contradiction; [|auto].
  destruct H as (<- & <- & <- & <- & _). cbn [bind].
  destruct (r <? 0); [auto|].
  destruct (negb (r =? 0)); [|auto].
  destruct (get_CID_info c2 data) as [[[o1 c3] d1]| |]; cbn; auto.
Qed.

(** The statics after a complete MDMF message have clear flags and a zero
    offset. *)
Lemma statics_after_mdmf {F : Type} (c0 : callerid_state F) (len ck : Z)
    (dt b1 b2 : list Z) (t1 t2 : Z) :
  (t1 = NAME /\ t2 = NUM) \/ (t1 = NUM /\ t2 = NAME) ->
  dt <> [] -> b1 <> [] -> b2 <> [] ->
  (length dt + length b1 + length b2 <= 247)%nat ->
  exists res out cid,
    feed_bytes statics_init (session c0 [] MESSAGE_TYPE)
      (([MDMF; len] ++ field DATE_TIME dt ++ field t1 b1 ++ field t2 b2) ++ [ck])
      = Done ((res, out, mk_statics 0 0 MDMF 0 0, cid), []).
Proof.
  intros Ht Hdt Hb1 Hb2 Hlen.
  rewrite (decode_mdmf c0 len dt t1 b1 t2 b2 ck Ht Hdt Hb1 Hb2 Hlen).
  eauto.
Qed.

(** ** Two sessions of one process *)

(** Claim C4.  The spill [sdmf_named] is decoded and displayed, and leaves
    the static [name_field] set.  A new session then stops the valid message
    [mdmf_john_number_first] after its number field: the marker of the name
    field is taken for the checksum, the checksum is reported as failed and
    the name is never copied.  In a process that has seen no other spill the
    same message passes its checksum and yields the name. *)
Theorem name_flag_survives_session :
  printed first_spill
    = [Checksum_Passed;
       CID_Record (chars "January 05 14 hr : 32 min 5551234 JOHN")] /\
  name_field (statics_after first_spill) = 1 /\
  hd Unknown_Msg (printed second_spill) = Checksum_Failed /\
  (cd_name <$> record_of second_spill) = Some (cd_name data0) /\
  hd Unknown_Msg (printed second_spill_alone) = Checksum_Passed /\
  (cstr <$> (cd_name <$> record_of second_spill_alone)) = Some (chars "JOHN").
Proof. vm_compute. auto 10. Qed.

(** Claim C8.  In the session that follows the spill [sdmf_named], the two
    field orders of one valid MDMF message do not give the same record.
    With the name first the checksum passes and the record holds the number
    and the name.  With the number first the decoder enters [CHECKSUM]
    after the number field, because the static [name_field] is still set:
    the checksum is reported as failed and the name is never copied, so
    that the record shows what the allocation left where the name should
    be. *)
Theorem field_order_matters_after_sdmf :
  name_field (statics_after first_spill) = 1 /\
  printed second_spill_name_first
    = [Checksum_Passed;
       CID_Record (chars "January 05 14 hr : 32 min 5551234 JOHN")] /\
  (cstr <$> (cd_name <$> record_of second_spill_name_first))
    = Some (chars "JOHN") /\
  hd Unknown_Msg (printed second_spill) = Checksum_Failed /\
  (cd_name <$> record_of second_spill) = Some (cd_name data0) /\
  (cd_number <$> record_of second_spill)
    = (cd_number <$> record_of second_spill_name_first) /\
  record_of second_spill <> record_of second_spill_name_first.
Proof.
  split; [vm_compute; reflexivity|]. split; [vm_compute; reflexivity|].
  split; [vm_compute; reflexivity|]. split; [vm_compute; reflexivity|].
  split; [vm_compute; reflexivity|]. split; [vm_compute; reflexivity|].
  vm_compute. discriminate.
Qed.

(** ** The size of the message buffer *)

(** Every byte that does not end the session is stored at [msg_off], inside
    the array, and moves [msg_off] by one. *)
Lemma decode_offset {F : Type} (g g' : statics) (cid cid' : callerid_state F)
    (b : Z) (out : list console) :
  decode_CID_msg g cid b = Done (0, out, g', cid') ->
  0 <= msg_off g < RAWDATA_LEN /\ msg_off g' = msg_off g + 1.
Proof.
  unfold decode_CID_msg, decode_continue, aset.
  destruct (Z.leb_spec 0 (msg_off g)) as [Hlo|Hlo]; [|discriminate].
  destruct (Z.ltb_spec (msg_off g) RAWDATA_LEN) as [Hhi|Hhi]; [|discriminate].
  cbn [andb bind sawflag set_rawdata].
  repeat match goal with
         | |- context [if ?c then _ else _] => destruct c
         end;
    intros H; try discriminate H; injection H as <- <- <-;
    (split; [lia | destruct g; reflexivity]).
Qed.

(** A run that has not ended after [bytes] has stored all of them: it
    started at most [length bytes] entries before the end of [rawdata]. *)
Lemma feed_bytes_offset {F : Type} (bytes : list Z) :
  forall (g g' : statics) (cid cid' : callerid_state F) (out : list console)
         (unread : list Z),
    feed_bytes g cid bytes = Done ((0, out, g', cid'), unread) ->
    msg_off g' = msg_off g + Z.of_nat (length bytes) /\
    (bytes <> [] -> 0 <= msg_off g /\ msg_off g' <= RAWDATA_LEN).
Proof.
  induction bytes as [|b rest IH]; intros g g' cid cid' out unread.
  - simpl. intros H; injection H as <- <- <- <-. split; [lia | contradiction].
  - cbn [feed_bytes].
    destruct (decode_CID_msg g cid b) as [[[[res o] g1] c1]| |] eqn:Ed;
      [|discriminate|discriminate].
    cbn [bind]. destruct (Z.eqb_spec res 0) as [->|Hres].
    + apply decode_offset in Ed as [Hin Hoff].
      destruct (feed_bytes g1 c1 rest) as [[[[[r o'] g2] c2] u]| |] eqn:Er;
        [|discriminate|discriminate].
      cbn [bind]. intros H; injection H as -> <- <- <- <-.
      apply IH in Er as [Hlen Hrest]. split.
      * rewrite Hlen, Hoff. simpl length. lia.
      * intros _. split; [lia|].
        destruct rest as [|b' rest'].
        -- simpl in Hlen. lia.
        -- destruct (Hrest ltac:(discriminate)). lia.
    + intros H; injection H as -> <- <- <- <-. contradiction.
Qed.

(** Claim C5.  After the 256 bytes that [long_field] stores first, the
    decoder is still inside the data of the field, with [msg_off] equal to
    256; the next byte is stored at [rawdata[256]], outside the array. *)
Theorem rawdata_overflow :
  length long_field = 259%nat /\
  fed_result (decoded_of (feed_bytes statics_init session0 (take 256 long_field)))
    = Some (0, []) /\
  decoder_view (decoded_of (feed_bytes statics_init session0 (take 256 long_field)))
    = Some (256, 12735, DATA) /\
  feed_bytes statics_init session0 (take 257 long_field) = Undef.
Proof. vm_compute. auto. Qed.

(** ** Extraction without validation *)

(** Claim C6, counterexample.  Two messages that are decoded to completion
    with a good checksum: one whose month digits read 13, one whose name
    field has 200 characters.  The extractor does not reject them: it
    reads the table of month names, respectively writes the name member,
    out of bounds. *)
Lemma extraction_reads_out_of_bounds :
  fed_result (decoded_of (feed_bytes statics_init session0 (framed month_13)))
    = Some (1, [Checksum_Passed]) /\
  spill statics_init session0 data0 (framed month_13) = Undef /\
  fed_result (decoded_of (feed_bytes statics_init session0 (framed long_name)))
    = Some (1, [Checksum_Passed]) /\
  spill statics_init session0 data0 (framed long_name) = Undef.
Proof. vm_compute. auto. Qed.

(** Claim C6, as amended.  The extractor validates nothing and has no error
    result.  On a buffer whose month digits read 1 to 12 and whose two
    length bytes after a name or number marker are at most 19 it fills in
    the record; on every other buffer it leaves the bounds of an array. *)
Theorem extraction_unvalidated {F : Type} (cid : callerid_state F)
    (data : cid_data) :
  length (rawdata cid) = 256%nat -> allocated data ->
  length (date_time cid) = 64%nat ->
  (extractable (rawdata cid) = true ->
   get_CID_info cid data
   = Done ([CID_Record (record_line (displayed cid data))],
           displayed cid data, extracted (rawdata cid) data)) /\
  (extractable (rawdata cid) = false -> get_CID_info cid data = Undef).
Proof.
  intros Hraw Hdata Hdt. split; intros Hx.
  - apply get_CID_info_done; assumption.
  - apply get_CID_info_undef; assumption.
Qed.

Lemma extraction_unvalidated_witness :
  get_CID_info (session session0 (framed mdmf_john) CHECKSUM) data0
  = Done ([CID_Record (chars "January 05 14 hr : 32 min 5551234 JOHN")],
          displayed (session session0 (framed mdmf_john) CHECKSUM) data0,
          extracted (raw_of (framed mdmf_john)) data0) /\
  get_CID_info (session session0 (framed month_13) CHECKSUM) data0 = Undef.
Proof.
  split.
  - apply (proj1 (extraction_unvalidated
                    (session session0 (framed mdmf_john) CHECKSUM) data0
                    eq_refl allocated_data0 eq_refl)).
    reflexivity.
  - apply (proj2 (extraction_unvalidated
                    (session session0 (framed month_13) CHECKSUM) data0
                    eq_refl allocated_data0 eq_refl)).
    reflexivity.
Defined.

(** ** Concrete runs for the remaining claims *)



Lemma mdmf_field_order_witness :
  exists out g cidA cidB d,
    spill statics_init session0 data0
      (framed (mdmf_name_first 25 (chars "01051432") (chars "JOHN")
                 (chars "5551234")))
      = Done (1, out, g, cidA, d) /\
    spill statics_init session0 data0
      (framed (mdmf_number_first 25 (chars "01051432") (chars "JOHN")
                 (chars "5551234")))
      = Done (1, out, g, cidB, d) /\
    name cidA = name cidB /\ number cidA = number cidB /\
    date_time cidA = date_time cidB /\
    cstr (cd_name d) = chars "JOHN" /\ cstr (cd_number d) = chars "5551234".
Proof.
  apply (mdmf_field_order_irrelevant session0 data0 fresh_session0
           allocated_data0 25 (chars "01051432") (chars "JOHN")
           (chars "5551234")).
  - reflexivity.
  - vm_compute. split; discriminate.
  - simpl. lia.
  - simpl. lia.
  - apply chars_are_chars. reflexivity.
  - apply chars_are_chars. reflexivity.
Defined.

Lemma serial_double_consuming {F : Type} :
  consuming (serial_double (filter_struct := F)).
Proof.
  intros fskd [|s buf] b; simpl; repeat split; try lia; try contradiction.
Qed.

(** The first 20 bytes of a message and 431 samples of silence, fed to a new
    session: the bytes are decoded, the call returns 0 and the silence is
    kept as carry-over. *)
Lemma carry_over_after_feed_witness :
  exists out g' cid',
    callerid_feed serial_double 452 statics_init session0
      (samples_of (take 20 mdmf_john) 431) = Done (0, out, g', cid') /\
    carry_over cid' = replicate 431 0 /\
    (exists k, carry_over cid'
               = drop k (carry_over session0
                           ++ samples_of (take 20 mdmf_john) 431)) /\
    oldlen cid' = 2 * Z.of_nat (length (carry_over cid')) /\
    Z.of_nat (length (carry_over cid')) < ispb (fskd cid') * 12.
Proof.
  destruct (carry_over_after_feed serial_double serial_double_consuming 452
              statics_init session0 (samples_of (take 20 mdmf_john) 431))
    as (_ & _ & Hzero);
    [reflexivity | vm_compute; discriminate
     | vm_compute; split; discriminate | vm_compute; lia |].
  eexists _, _, _. split; [vm_compute; reflexivity|].
  split; [vm_compute; reflexivity|].
  eapply Hzero. vm_compute. reflexivity.
Defined.

(** Claim C9.  At 44100 Hz and 500 baud [callerid_new] returns a session
    whose window is 88 * 12 = 1056 samples.  A call of [callerid_feed] with
    1050 samples has less than one window, so that its loop is not entered
    and the demodulator is not called: the 1050 residual samples are copied
    into [oldstuff], which holds 1000, and the copy leaves the array.
    Nothing compares the residue with the size of the array. *)
Theorem carry_over_overflow
    (fsk_serial : fsk_data unit -> list Z -> Z -> serial_out unit)
    (fuel : nat) (g : statics) :
  callerid_new tt id CID_SIG_V23 (main_param 44100 500) = Done session_wide /\
  Z.of_nat (length (replicate 1050 0)) < ispb (fskd session_wide) * 12 /\
  OLDSTUFF_LEN < Z.of_nat (length (replicate 1050 0)) /\
  callerid_feed fsk_serial fuel g session_wide (replicate 1050 0) = Undef.
Proof.
  split; [vm_compute; reflexivity|]. split; [vm_compute; reflexivity|].
  split; [vm_compute; reflexivity|]. destruct fuel; vm_compute; reflexivity.
Qed.


(** The default configuration of [main], 44100 Hz at 1200 baud, gives 36
    samples per bit and a rounding correction of 1. *)
Example callerid_new_default :
  callerid_new tt id CID_SIG_V23 (main_param 44100 1200) = Done session0.
Proof. vm_compute. reflexivity. Qed.

(** The arithmetic is in single precision: at 8800 Hz and 1200 baud the
    quotient 7.3333335 leaves the fraction 0.33333349, whose inverse is
    below 3, where exact arithmetic gives 1 / (1/3) = 3. *)
Example callerid_new_single_precision :
  exists cid, callerid_new tt id CID_SIG_V23 (main_param 8800 1200) = Done cid /\
              ispb (fskd cid) = 7 /\ pll_round_off (fskd cid) = 2.
Proof. eexists. split; [vm_compute; reflexivity|]. split; reflexivity. Qed.

(** ** More about one call of the decoder *)

(** What a call that returns 0 did: it stored the byte at [msg_off], moved
    [msg_off] by one, added the byte to the accumulator and printed nothing. *)
Lemma decode_stores {F : Type} (g g' : statics) (cid cid' : callerid_state F)
    (b : Z) (out : list console) :
  decode_CID_msg g cid b = Done (0, out, g', cid') ->
  out = [] /\ 0 <= msg_off g < RAWDATA_LEN /\ msg_off g' = msg_off g + 1 /\
  cksum cid' = cksum cid + b /\
  rawdata cid' = <[Z.to_nat (msg_off g) := b]> (rawdata cid).
Proof.
  unfold decode_CID_msg, decode_continue, aset.
  destruct (Z.leb_spec 0 (msg_off g)) as [Hlo|Hlo]; [|discriminate].
  destruct (Z.ltb_spec (msg_off g) RAWDATA_LEN) as [Hhi|Hhi]; [|discriminate].
  cbn [andb bind sawflag set_rawdata].
  repeat match goal with
         | |- context [if ?c then _ else _] => destruct c
         end;
    intros H; try discriminate H; injection H as <- <- <-;
    (split; [reflexivity|]; split; [lia|]; split; [destruct g; reflexivity|];
     split; reflexivity).
Qed.




(** ** Runs of bytes that do not end the session *)

Lemma insert_in_log (raw bytes : list Z) (k : nat) (b : Z) :
  (k < length raw)%nat ->
  take (S k) (<[k := b]> raw) ++ bytes
    ++ drop (S k + length bytes) (<[k := b]> raw)
  = take k raw ++ (b :: bytes) ++ drop (k + length (b :: bytes)) raw.
Proof.
  intros Hk.
  rewrite drop_insert_lt by lia.
  rewrite (take_S_r _ k b) by (apply list_lookup_insert_eq; exact Hk).
  rewrite take_insert_ge by lia.
  rewrite <- app_assoc. simpl.
  replace (k + S (length bytes))%nat with (S (k + length bytes)) by lia.
  reflexivity.
Qed.

(** Property X2.  As long as the decoder returns 0 it keeps a plain log: the
    bytes are in [rawdata] in the order of their arrival, from the offset at
    which the run started, their sum was added to [cksum] (which is not
    reduced modulo 256), and nothing was printed. *)
Theorem nonterminal_bytes_logged {F : Type} (bytes : list Z) :
  forall (g g' : statics) (cid cid' : callerid_state F) (out : list console)
         (unread : list Z),
    length (rawdata cid) = Z.to_nat RAWDATA_LEN ->
    feed_bytes g cid bytes = Done ((0, out, g', cid'), unread) ->
    out = [] /\ unread = [] /\
    msg_off g' = msg_off g + Z.of_nat (length bytes) /\
    cksum cid' = cksum cid + zsum bytes /\
    rawdata cid'
    = take (Z.to_nat (msg_off g)) (rawdata cid) ++ bytes
        ++ drop (Z.to_nat (msg_off g) + length bytes) (rawdata cid).
Proof.
  induction bytes as [|b rest IH]; intros g g' cid cid' out unread Hlen.
  - simpl. intros H; injection H as <- <- <- <-.
    rewrite Nat.add_0_r, take_drop. repeat split; try reflexivity; lia.
  - cbn [feed_bytes].
    destruct (decode_CID_msg g cid b) as [[[[res o] g1] c1]| |] eqn:Ed;
      [|discriminate|discriminate].
    cbn [bind]. destruct (Z.eqb_spec res 0) as [->|Hres].
    + apply decode_stores in Ed as (-> & Hin & Hoff & Hck & Hraw).
      destruct (feed_bytes g1 c1 rest) as [[[[[r o'] g2] c2] u]| |] eqn:Er;
        [|discriminate|discriminate].
      cbn [bind]. intros H; injection H as -> <- <- <- <-.
      apply IH in Er as (-> & -> & Hoff2 & Hck2 & Hraw2);
        [|rewrite Hraw, length_insert; exact Hlen].
      split; [reflexivity|]. split; [reflexivity|].
      split; [rewrite Hoff2, Hoff; simpl length; lia|].
      split; [rewrite Hck2, Hck, zsum_cons; lia|].
      rewrite Hraw2, Hraw, Hoff.
      replace (Z.to_nat (msg_off g + 1)) with (S (Z.to_nat (msg_off g))) by lia.
      apply insert_in_log. rewrite Hlen. unfold RAWDATA_LEN in *. lia.
    + intros H; injection H as -> <- <- <- <-. contradiction.
Qed.

Lemma nonterminal_bytes_logged_witness :
  exists g' cid',
    feed_bytes statics_init session0 mdmf_john = Done ((0, [], g', cid'), []) /\
    msg_off g' = 27 /\ cksum cid' = 1246 /\
    rawdata cid' = mdmf_john ++ replicate 229 0.
Proof.
  destruct (feed_bytes statics_init session0 mdmf_john)
    as [[[[[res out] g'] cid'] unread]| |] eqn:E; try (vm_compute in E; discriminate E).
  assert (Hres : res = 0) by (vm_compute in E; congruence). subst res.
  destruct (nonterminal_bytes_logged mdmf_john statics_init g' session0 cid'
              out unread eq_refl E) as (-> & -> & Hoff & Hck & Hraw).
  exists g', cid'. split; [reflexivity|].
  split; [exact Hoff|]. split; [exact Hck|]. exact Hraw.
Defined.

(** ** A field whose length byte is zero *)

Lemma decode_data_nonpositive {F : Type} (g : statics) (cid : callerid_state F)
    (b : Z) :
  sawflag cid = DATA -> data_field g <= 0 -> 0 <= msg_off g < RAWDATA_LEN ->
  decode_CID_msg g cid b
  = Done (0, [],
          set_data_field (data_field g - 1) (set_msg_off (msg_off g + 1) g),
          set_cksum (cksum cid + b)
            (set_rawdata (<[Z.to_nat (msg_off g) := b]> (rawdata cid)) cid)).
Proof.
  intros Hsaw Hdf Hoff.
  unfold decode_CID_msg, decode_continue, aset.
  rewrite in_rawdata_Z by exact Hoff.
  cbn [bind sawflag set_rawdata cksum]. rewrite Hsaw.
  change (DATA =? MESSAGE_TYPE) with false.
  change (DATA =? MESSAGE_LENGTH) with false.
  change (DATA =? DATA_TYPE) with false.
  change (DATA =? DATA_LENGTH) with false.
  change (DATA =? DATA) with true. cbv iota.
  cbn [data_field set_data_field set_msg_off].
  destruct (Z.eqb_spec (data_field g - 1) 0) as [E|E]; [lia | reflexivity].
Qed.

Lemma feed_data_nonpositive {F : Type} (bytes : list Z) :
  forall (g : statics) (cid : callerid_state F),
    sawflag cid = DATA -> data_field g <= 0 -> 0 <= msg_off g ->
    msg_off g + Z.of_nat (length bytes) <= RAWDATA_LEN ->
    exists cid',
      feed_bytes g cid bytes
      = Done ((0, [],
               set_data_field (data_field g - Z.of_nat (length bytes))
                 (set_msg_off (msg_off g + Z.of_nat (length bytes)) g),
               cid'), []) /\
      sawflag cid' = DATA.
Proof.
  induction bytes as [|b rest IH]; intros g cid Hsaw Hdf Hoff Hlen.
  - exists cid. simpl. rewrite Z.sub_0_r, Z.add_0_r.
    split; [destruct g; reflexivity | exact Hsaw].
  - simpl length in Hlen.
    pose proof (decode_data_nonpositive g cid b Hsaw Hdf ltac:(lia)) as Hd.
    rewrite (feed_bytes_go _ _ _ _ _ _ Hd).
    destruct (IH (set_data_field (data_field g - 1)
                    (set_msg_off (msg_off g + 1) g))
                (set_cksum (cksum cid + b)
                   (set_rawdata (<[Z.to_nat (msg_off g) := b]> (rawdata cid))
                      cid)))
      as (cid' & Hrun & Hsaw');
      [exact Hsaw | cbn; lia | cbn; lia | cbn; lia |].
    exists cid'. split; [|exact Hsaw'].
    rewrite Hrun. cbn [data_field msg_off set_data_field set_msg_off
                       name_field number_field msg_type].
    simpl length.
    replace (data_field g - 1 - Z.of_nat (length rest))
      with (data_field g - Z.of_nat (S (length rest))) by lia.
    replace (msg_off g + 1 + Z.of_nat (length rest))
      with (msg_off g + Z.of_nat (S (length rest))) by lia.
    reflexivity.
Qed.

(** Property X4.  A field that announces zero data bytes never ends.  The
    length byte 0 puts the decoder in the [DATA] state with a count of 0; the
    count is decremented before it is compared with 0, so that every byte
    that follows is taken for data of this field: the decoder returns 0,
    stays in [DATA] and prints nothing for as long as [rawdata] has room. *)
Theorem empty_field_never_ends {F : Type} (g : statics)
    (cid : callerid_state F) (bytes : list Z) :
  sawflag cid = DATA_LENGTH -> 0 <= msg_off g ->
  msg_off g + 1 + Z.of_nat (length bytes) <= RAWDATA_LEN ->
  exists g' cid',
    feed_bytes g cid (0 :: bytes) = Done ((0, [], g', cid'), []) /\
    sawflag cid' = DATA /\ data_field g' = - Z.of_nat (length bytes).
Proof.
  intros Hsaw Hoff Hlen.
  assert (Hd : decode_CID_msg g cid 0
               = Done (0, [], set_data_field 0 (set_msg_off (msg_off g + 1) g),
                       set_cksum (cksum cid + 0)
                         (set_sawflag DATA
                            (set_rawdata (<[Z.to_nat (msg_off g) := 0]> (rawdata cid))
                               cid)))).
  { unfold decode_CID_msg, decode_continue, aset.
    rewrite in_rawdata_Z by lia.
    cbn [bind sawflag set_rawdata cksum]. rewrite Hsaw. reflexivity. }
  rewrite (feed_bytes_go _ _ _ _ _ _ Hd).
  destruct (feed_data_nonpositive bytes
              (set_data_field 0 (set_msg_off (msg_off g + 1) g))
              (set_cksum (cksum cid + 0)
                 (set_sawflag DATA
                    (set_rawdata (<[Z.to_nat (msg_off g) := 0]> (rawdata cid))
                       cid))))
    as (cid' & Hrun & Hsaw'); [reflexivity | cbn; lia | cbn; lia | cbn; lia |].
  eexists _, cid'. split; [exact Hrun|]. split; [exact Hsaw'|]. cbn. lia.
Qed.

Lemma empty_field_never_ends_witness :
  exists g' cid',
    feed_bytes (mk_statics 1 0 MDMF 13 0)
      (session session0 ([MDMF; 25] ++ field DATE_TIME (chars "01051432") ++ [NAME])
         DATA_LENGTH)
      (0 :: field NUM (chars "5551234") ++ [77; 78])
    = Done ((0, [], g', cid'), []) /\
    sawflag cid' = DATA /\
    data_field g' = - Z.of_nat (length (field NUM (chars "5551234") ++ [77; 78])).
Proof.
  apply (empty_field_never_ends (mk_statics 1 0 MDMF 13 0)
           (session session0
              ([MDMF; 25] ++ field DATE_TIME (chars "01051432") ++ [NAME])
              DATA_LENGTH)
           (field NUM (chars "5551234") ++ [77; 78]));
    [reflexivity | vm_compute; discriminate | vm_compute; discriminate].
Defined.

(** ** A field marker that the decoder does not know *)



(** ** A session that starts at an offset *)

Section MessagesAt.
Context {F : Type}.
Variable c0 : callerid_state F.

(** The two bytes that open a message, stored after [pre]. *)
Lemma feed_header_at pre mt len nf nbf mt0 df rest :
  mt = MDMF \/ mt = SDMF -> (length pre + 2 <= 256)%nat ->
  feed_bytes (mk_statics nf nbf mt0 (Z.of_nat (length pre)) df)
    (session c0 pre MESSAGE_TYPE) (mt :: len :: rest)
  = feed_bytes
      (mk_statics nf nbf mt (Z.of_nat (length (pre ++ [mt; len]))) df)
      (session c0 (pre ++ [mt; len]) DATA_TYPE) rest.
Proof.
  intros Hmt Hlen.
  assert (Hty : decode_CID_msg (mk_statics nf nbf mt0 (Z.of_nat (length pre)) df)
                  (session c0 pre MESSAGE_TYPE) mt
                = Done (0, [],
                        mk_statics nf nbf mt (Z.of_nat (length pre) + 1) df,
                        session c0 (pre ++ [mt]) MESSAGE_LENGTH)).
  { destruct Hmt as [-> | ->];
      [apply decode_type_mdmf | apply decode_type_sdmf]; lia. }
  rewrite (off_snoc pre mt) in Hty.
  rewrite (feed_bytes_go _ _ _ _ _ _ Hty).
  pose proof (decode_length c0 (pre ++ [mt]) nf nbf mt df len
                ltac:(rewrite length_app; simpl; lia)) as Hl.
  rewrite (off_snoc (pre ++ [mt]) len) in Hl.
  rewrite (feed_bytes_go _ _ _ _ _ _ Hl).
  rewrite <- app_assoc. reflexivity.
Qed.

(** An MDMF message with a date and time field, a name and a number, stored
    after [pre]. *)
Lemma decode_mdmf_at pre len dt t1 b1 t2 b2 ck mt0 df :
  (t1 = NAME /\ t2 = NUM) \/ (t1 = NUM /\ t2 = NAME) ->
  dt <> [] -> b1 <> [] -> b2 <> [] ->
  (length pre + length dt + length b1 + length b2 <= 247)%nat ->
  let msg := [MDMF; len] ++ field DATE_TIME dt ++ field t1 b1 ++ field t2 b2 in
  feed_bytes (mk_statics 0 0 mt0 (Z.of_nat (length pre)) df)
    (session c0 pre MESSAGE_TYPE) (msg ++ [ck])
  = Done ((1,
           [if ck =? 256 - Z.land (cksum c0 + zsum (pre ++ msg)) 255
            then Checksum_Passed else Checksum_Failed],
           mk_statics 0 0 MDMF 0 0,
           set_rawdata (raw_of ((pre ++ msg) ++ [ck]))
             (session c0 (pre ++ msg) CHECKSUM)),
          []).
Proof.
  intros Ht Hdt Hb1 Hb2 Hlen msg. subst msg.
  rewrite <- !app_assoc. change ([MDMF; len] ++ ?l) with (MDMF :: len :: l).
  rewrite feed_header_at by (auto; lia).
  rewrite (feed_field c0 DATE_TIME dt (pre ++ [MDMF; len]) 0 0 MDMF df 0 0)
    by (auto; rewrite length_app; simpl; lia).
  change (after_field 0 0 MDMF) with (0, 0, DATA_TYPE). cbv beta iota.
  destruct Ht as [[-> ->] | [-> ->]].
  - rewrite (feed_field c0 NAME b1 _ 0 0 MDMF 0 1 0)
      by (auto; rewrite !length_app, field_length; simpl; lia).
    change (after_field 1 0 MDMF) with (1, 0, DATA_TYPE). cbv beta iota.
    rewrite (feed_field c0 NUM b2 _ 1 0 MDMF 0 1 1)
      by (auto; rewrite !length_app, !field_length; simpl; lia).
    change (after_field 1 1 MDMF) with (0, 0, CHECKSUM). cbv beta iota.
    rewrite feed_checksum
      by (rewrite !length_app, !field_length; simpl; lia).
    rewrite <- !app_assoc. reflexivity.
  - rewrite (feed_field c0 NUM b1 _ 0 0 MDMF 0 0 1)
      by (auto; rewrite !length_app, field_length; simpl; lia).
    change (after_field 0 1 MDMF) with (0, 1, DATA_TYPE). cbv beta iota.
    rewrite (feed_field c0 NAME b2 _ 0 1 MDMF 0 1 1)
      by (auto; rewrite !length_app, !field_length; simpl; lia).
    change (after_field 1 1 MDMF) with (0, 0, CHECKSUM). cbv beta iota.
    rewrite feed_checksum
      by (rewrite !length_app, !field_length; simpl; lia).
    rewrite <- !app_assoc. reflexivity.
Qed.
End MessagesAt.

(** ** The session after an unknown message type *)

Lemma fresh_session_zeros {F : Type} (c0 : callerid_state F) (k : nat) :
  fresh c0 -> (k <= 256)%nat -> session c0 (replicate k 0) MESSAGE_TYPE = c0.
Proof.
  intros (Hraw & Hck & Hsaw & _) Hk. destruct c0; simpl in *; subst.
  unfold session, raw_of; simpl.
  rewrite length_replicate. change (Z.to_nat RAWDATA_LEN) with 256%nat.
  rewrite <- replicate_add. replace (k + (256 - k))%nat with 256%nat by lia.
  assert (Hz : zsum (replicate k 0) = 0).
  { clear. induction k as [|k IH]; [reflexivity|].
    simpl replicate. rewrite zsum_cons, IH. reflexivity. }
  rewrite Hz. reflexivity.
Qed.

(** Property X6.  The statics outlive an error.  A session that ends with -1
    on the byte after an unknown message type leaves [msg_off] at 2.  [main]
    then makes a new session, but the decoder stores its bytes from offset 2
    on: a valid MDMF message is decoded to completion, and [get_CID_info],
    which reads the date at the fixed offsets 4 to 11, finds the marker and
    the length of the date and time field where it expects the month, and
    reads the table of month names out of bounds.  No message of this shape
    can be displayed after such an error. *)
Theorem unknown_type_shifts_next_session {F : Type} (c0 : callerid_state F)
    (data : cid_data) (a b len t1 t2 : Z) (dt b1 b2 : list Z) :
  fresh c0 -> allocated data -> a <> MDMF -> a <> SDMF ->
  (t1 = NAME /\ t2 = NUM) \/ (t1 = NUM /\ t2 = NAME) ->
  dt <> [] -> b1 <> [] -> b2 <> [] ->
  (length dt + length b1 + length b2 <= 245)%nat ->
  let msg := [MDMF; len] ++ field DATE_TIME dt ++ field t1 b1 ++ field t2 b2 in
  statics_after (spill statics_init c0 data [a; b]) = mk_statics 0 0 0 2 0 /\
  printed (spill statics_init c0 data [a; b]) = [Unknown_Msg] /\
  (exists line cid2,
      feed_bytes (mk_statics 0 0 0 2 0) c0 (framed msg)
        = Done ((1, [line], mk_statics 0 0 MDMF 0 0, cid2), []) /\
      rawdata cid2 = raw_of ([0; 0] ++ framed msg)) /\
  spill (mk_statics 0 0 0 2 0) c0 data (framed msg) = Undef.
Proof.
  intros Hfresh Hdata Ha1 Ha2 Ht Hdt Hb1 Hb2 Hlen msg.
  assert (Hsaw : sawflag c0 = MESSAGE_TYPE) by apply Hfresh.
  assert (Hdt64 : length (date_time c0) = 64%nat) by apply Hfresh.
  (* the session that fails *)
  pose proof (decode_type_other_any statics_init c0 a Hsaw Ha1 Ha2
                ltac:(vm_compute; split; [discriminate | reflexivity])) as H1.
  pose proof (decode_unknown_any (set_msg_off (msg_off statics_init + 1) statics_init)
                (set_cksum (cksum c0 + a)
                   (set_sawflag UNKNOWN
                      (set_rawdata
                         (<[Z.to_nat (msg_off statics_init) := a]> (rawdata c0))
                         c0))) b eq_refl
                ltac:(vm_compute; split; [discriminate | reflexivity])) as H2.
  assert (Hfirst : exists cid1,
             spill statics_init c0 data [a; b]
             = Done (-1, [Unknown_Msg], mk_statics 0 0 0 2 0, cid1, data)).
  { unfold spill. rewrite (feed_bytes_go _ _ _ _ _ _ H1).
    rewrite (feed_bytes_stop _ _ _ _ _ _ _ _ H2) by lia.
    cbn [bind]. change (-1 <? 0) with true. cbv iota. eexists. reflexivity. }
  destruct Hfirst as (cid1 & Hfirst). rewrite Hfirst.
  split; [reflexivity|]. split; [reflexivity|].
  (* the session that follows *)
  pose proof (decode_mdmf_at c0 (replicate 2 0) len dt t1 b1 t2 b2
                (checksum_of msg) 0 0 Ht Hdt Hb1 Hb2
                ltac:(rewrite length_replicate; lia)) as HA.
  cbv zeta in HA. fold msg in HA.
  rewrite (fresh_session_zeros c0 2 Hfresh ltac:(lia)) in HA.
  change (Z.of_nat (length (replicate 2 0))) with 2 in HA.
  change (replicate 2 0) with [0; 0] in HA.
  fold (framed msg) in HA.
  set (cid2 := set_rawdata (raw_of (([0; 0] ++ msg) ++ [checksum_of msg]))
                 (session c0 ([0; 0] ++ msg) CHECKSUM)) in *.
  assert (Hraw : rawdata cid2 = raw_of ([0; 0] ++ framed msg)).
  { unfold cid2, framed. cbn [rawdata set_rawdata]. rewrite <- app_assoc.
    reflexivity. }
  split.
  { eexists _, cid2. split; [exact HA | exact Hraw]. }
  unfold spill. rewrite HA. cbn [bind].
  change (1 <? 0) with false. change (negb (1 =? 0)) with true. cbv iota.
  assert (Hl : length (rawdata cid2) = 256%nat).
  { rewrite Hraw. apply raw_of_length. unfold framed, msg.
    rewrite !length_app, !field_length. simpl. lia. }
  assert (Hm : month_raw (rawdata cid2) = Z.of_nat (length dt) - 518).
  { rewrite Hraw. unfold month_raw, msg, framed, raw_of, field. cbn.
    unfold DATE_TIME. lia. }
  rewrite (get_CID_info_undef cid2 data Hl Hdata Hdt64); [reflexivity|].
  unfold extractable. rewrite Hm.
  replace (1 <=? Z.of_nat (length dt) - 518) with false
    by (symmetry; apply Z.leb_gt; lia).
  reflexivity.
Qed.

Lemma unknown_type_shifts_next_session_witness :
  statics_after (spill statics_init session0 data0 [0x55; 0])
    = mk_statics 0 0 0 2 0 /\
  printed (spill statics_init session0 data0 [0x55; 0]) = [Unknown_Msg] /\
  (exists line cid2,
      feed_bytes (mk_statics 0 0 0 2 0) session0 (framed mdmf_john)
        = Done ((1, [line], mk_statics 0 0 MDMF 0 0, cid2), []) /\
      rawdata cid2 = raw_of ([0; 0] ++ framed mdmf_john)) /\
  spill (mk_statics 0 0 0 2 0) session0 data0 (framed mdmf_john) = Undef.
Proof.
  apply (unknown_type_shifts_next_session session0 data0 0x55 0 25 NAME NUM
           (chars "01051432") (chars "JOHN") (chars "5551234")
           fresh_session0 allocated_data0);
    try discriminate; [left; split; reflexivity | simpl; lia].
Defined.

(** ** The markers for an absent name and an absent number *)

Section AbsentMarkers.
Context {F : Type}.
Variable c0 : callerid_state F.


End AbsentMarkers.

Section Withheld.
Context {F : Type}.
Variables (c0 : callerid_state F) (data : cid_data).
Hypothesis Hfresh : fresh c0.
Hypothesis Hdata : allocated data.

End Withheld.


(** ** The line that is displayed *)





Section Display.
Context {F : Type}.
Variables (c0 : callerid_state F) (data : cid_data).
Hypothesis Hfresh : fresh c0.
Hypothesis Hdata : allocated data.

End Display.


(** ** What the extractor leaves alone *)

Lemma memcpy_chars_length (dst src : list Z) (n : nat) :
  (n <= length src)%nat -> (n <= length dst)%nat ->
  length (memcpy_chars dst src (Z.of_nat n)) = length dst.
Proof.
  intros Hs Hd. unfold memcpy_chars. rewrite Nat2Z.id.
  rewrite length_app, length_take, length_drop. lia.
Qed.

Lemma extracted_allocated (raw : list Z) (data : cid_data) :
  allocated data -> extractable raw = true -> allocated (extracted raw data).
Proof.
  intros (Hd & Ht & Hn & Hb) Hx. unfold extractable in Hx.
  apply andb_prop in Hx as [Hm Hx]. apply andb_prop in Hm as [Hm1 Hm2].
  apply Z.leb_le in Hm1, Hm2.
  destruct (months_text (month_raw raw) ltac:(lia)) as (s & Hs & Hlen).
  change (Z.to_nat CID_FIELD_LEN) with 20%nat in *.
  assert (Hfirst : (length (first_body raw) <= Z.to_nat (rd raw 13))%nat).
  { unfold first_body. rewrite length_take. lia. }
  assert (Hsecond : (length (second_body raw)
                     <= Z.to_nat (rd raw (15 + Z.to_nat (rd raw 13))))%nat).
  { unfold second_body. cbv zeta. rewrite length_take. lia. }
  unfold allocated, extracted. cbn [date call_time cd_name cd_number].
  change (Z.to_nat CID_FIELD_LEN) with 20%nat.
  repeat split.
  - rewrite put_length; [exact Hd|]. unfold date_text. rewrite Hs.
    cbn [default]. rewrite length_app. simpl length. lia.
  - rewrite put_length; [exact Ht|]. rewrite Ht. unfold time_text.
    simpl length. lia.
  - destruct (rd raw 12 =? NAME); cbn [orb] in Hx;
      [|destruct (rd raw 12 =? NUM); [|exact Hn]];
      apply andb_prop in Hx as [H1 H2]; apply Z.leb_le in H1, H2;
      rewrite put_field_length; try exact Hn; lia.
  - destruct (rd raw 12 =? NAME); cbn [orb] in Hx;
      [|destruct (rd raw 12 =? NUM); [|exact Hb]];
      apply andb_prop in Hx as [H1 H2]; apply Z.leb_le in H1, H2;
      rewrite put_field_length; try exact Hb; lia.
Qed.

Lemma put_idem (dst text : list Z) : put (put dst text) text = put dst text.
Proof.
  unfold put. do 2 f_equal.
  change (text ++ 0 :: ?r) with (text ++ [0] ++ r). rewrite app_assoc.
  apply drop_app_length'. rewrite length_app. simpl. lia.
Qed.

Lemma memcpy_chars_idem (dst src : list Z) (n : nat) :
  (n <= length src)%nat ->
  memcpy_chars (memcpy_chars dst src (Z.of_nat n)) src (Z.of_nat n)
  = memcpy_chars dst src (Z.of_nat n).
Proof.
  intros H. unfold memcpy_chars. rewrite Nat2Z.id. f_equal.
  apply drop_app_length'. rewrite length_take. lia.
Qed.

Lemma displayed_idem {F : Type} (cid : callerid_state F) (data : cid_data) :
  allocated (extracted (rawdata cid) data) ->
  displayed (displayed cid data) data = displayed cid data.
Proof.
  intros (_ & _ & Hn & Hb). change (Z.to_nat CID_FIELD_LEN) with 20%nat in *.
  unfold displayed. cbn [rawdata name number date_time set_strings
                         fskd oldstuff oldlen cksum sawflag].
  unfold CID_FIELD_LEN. change 20 with (Z.of_nat 20).
  rewrite !memcpy_chars_idem by lia. rewrite put_idem. reflexivity.
Qed.

(** Property X9.  Whenever [get_CID_info] returns, it has changed nothing of
    the session but the three strings [name], [number] and [date_time]: the
    message buffer, the checksum, the state of the decoder, the carry-over
    and the demodulator are as before, so that the same record can be
    extracted again; and every character array, in the session and in the
    record, still has its declared size. *)
Theorem get_CID_info_frame {F : Type} (cid cid' : callerid_state F)
    (data data' : cid_data) (out : list console) :
  length (rawdata cid) = Z.to_nat RAWDATA_LEN -> allocated data ->
  length (name cid) = Z.to_nat CID_NAME_LEN ->
  length (number cid) = Z.to_nat CID_NAME_LEN ->
  length (date_time cid) = Z.to_nat CID_NAME_LEN ->
  get_CID_info cid data = Done (out, cid', data') ->
  fskd cid' = fskd cid /\ rawdata cid' = rawdata cid /\
  oldstuff cid' = oldstuff cid /\ oldlen cid' = oldlen cid /\
  cksum cid' = cksum cid /\ sawflag cid' = sawflag cid /\
  allocated data' /\
  length (name cid') = Z.to_nat CID_NAME_LEN /\
  length (number cid') = Z.to_nat CID_NAME_LEN /\
  length (date_time cid') = Z.to_nat CID_NAME_LEN /\
  get_CID_info cid' data = Done (out, cid', data').
Proof.
  intros Hraw Hdata Hn Hb Hdt Hrun.
  change (Z.to_nat RAWDATA_LEN) with 256%nat in Hraw.
  change (Z.to_nat CID_NAME_LEN) with 64%nat in *.
  pose proof (get_CID_info_defined cid data Hraw Hdata Hdt) as Hdef.
  rewrite Hrun in Hdef. cbn [is_done] in Hdef. symmetry in Hdef.
  rewrite (get_CID_info_done cid data Hraw Hdata Hdt Hdef) in Hrun.
  injection Hrun as <- <- <-.
  pose proof (extracted_allocated (rawdata cid) data Hdata Hdef) as Ha.
  assert (Ha' := Ha). destruct Ha' as (Hd1 & Hd2 & Hd3 & Hd4).
  change (Z.to_nat CID_FIELD_LEN) with 20%nat in *.
  assert (Hlen_dt : length (date_time (displayed cid data)) = 64%nat).
  { unfold displayed. cbn [date_time set_strings].
    rewrite put_length; [exact Hdt|]. rewrite Hdt, !length_app.
    pose proof (cstr_length (date (extracted (rawdata cid) data))).
    pose proof (cstr_length (call_time (extracted (rawdata cid) data))).
    change (length [32]) with 1%nat. lia. }
  assert (Hlen_n : length (name (displayed cid data)) = 64%nat).
  { unfold displayed. cbn [name set_strings]. unfold CID_FIELD_LEN.
    change 20 with (Z.of_nat 20). rewrite memcpy_chars_length; lia. }
  assert (Hlen_b : length (number (displayed cid data)) = 64%nat).
  { unfold displayed. cbn [number set_strings]. unfold CID_FIELD_LEN.
    change 20 with (Z.of_nat 20). rewrite memcpy_chars_length; lia. }
  repeat (split; [reflexivity || assumption|]).
  rewrite (get_CID_info_done (displayed cid data) data Hraw Hdata Hlen_dt Hdef).
  rewrite (displayed_idem cid data Ha). reflexivity.
Qed.

Lemma get_CID_info_frame_witness :
  exists out cid' data',
    get_CID_info (session session0 (framed mdmf_john) CHECKSUM) data0
      = Done (out, cid', data') /\
    rawdata cid' = raw_of (framed mdmf_john) /\ sawflag cid' = CHECKSUM /\
    allocated data' /\
    get_CID_info cid' data0 = Done (out, cid', data').
Proof.
  destruct (get_CID_info (session session0 (framed mdmf_john) CHECKSUM) data0)
    as [[[out cid'] data']| |] eqn:E; try (vm_compute in E; discriminate E).
  destruct (get_CID_info_frame (session session0 (framed mdmf_john) CHECKSUM)
              cid' data0 data' out eq_refl allocated_data0 eq_refl eq_refl
              eq_refl E)
    as (_ & Hraw & _ & _ & _ & Hsaw & Hall & _ & _ & _ & Hagain).
  exists out, cid', data'. auto.
Defined.

(** ** The decoder does not look at the demodulator *)




(** ** [callerid_feed] is the decoder applied to the demodulated bytes *)

Section FeedDecodes.
Context {F : Type}.
Variable fsk_serial : fsk_data F -> list Z -> Z -> serial_out F.




(** ** One turn of [main] *)



End FeedDecodes.



(** ** The ends of [callerid_feed] *)

Lemma decode_old {F : Type} (g g' : statics) (cid cid' : callerid_state F)
    (b res : Z) (out : list console) :
  decode_CID_msg g cid b = Done (res, out, g', cid') ->
  oldstuff cid' = oldstuff cid /\ oldlen cid' = oldlen cid.
Proof.
  unfold decode_CID_msg, decode_continue.
  destruct (aset RAWDATA_LEN (rawdata cid) (msg_off g) b) as [raw| |];
    [|discriminate|discriminate].
  cbn [bind sawflag set_rawdata].
  repeat match goal with
         | |- context [if ?c then _ else _] => destruct c
         end;
    intros H; injection H as <- <- <- <-; split; reflexivity.
Qed.

Section FeedEnds.
Context {F : Type}.
Variable fsk_serial : fsk_data F -> list Z -> Z -> serial_out F.

Lemma feed_loop_old (fuel : nat) : forall g cid buf b out r,
  feed_loop fsk_serial fuel g cid buf b out = Done r ->
  match r with
  | Returned _ _ _ cid' | Drained _ _ _ cid' =>
      oldstuff cid' = oldstuff cid /\ oldlen cid' = oldlen cid
  end.
Proof.
  induction fuel as [|fuel IH]; intros g cid buf b out r.
  - simpl. destruct (_ >=? _); [discriminate|].
    intros H; injection H as <-. split; reflexivity.
  - cbn [feed_loop].
    destruct (_ >=? _); [|intros H; injection H as <-; split; reflexivity].
    destruct (_ && _); [|discriminate].
    destruct (negb _).
    + destruct (decode_CID_msg _ _ _) as [[[[res o] g1] c1]| |] eqn:Ed;
        [|discriminate|discriminate].
      cbn [bind]. apply decode_old in Ed. cbn [oldstuff oldlen set_fskd] in Ed.
      destruct (res =? -1); [intros H; injection H as <-; exact Ed|].
      destruct (negb (res =? 0)); [intros H; injection H as <-; exact Ed|].
      intros H. apply IH in H. destruct Ed as [E1 E2].
      destruct r; rewrite E1, E2 in H; exact H.
    + intros H. apply IH in H. exact H.
Qed.

(** Property X12.  When a call ends the spill, with 1 or with -1, it returns
    from inside the loop: the samples that follow the last byte in the buffer
    are dropped, and the carry-over of the session is the one the call found. *)
Theorem feed_end_keeps_old_carry_over (fuel : nat) (g g' : statics)
    (cid cid' : callerid_state F) (ubuf : list Z) (res : Z)
    (out : list console) :
  callerid_feed fsk_serial fuel g cid ubuf = Done (res, out, g', cid') ->
  res <> 0 ->
  oldstuff cid' = oldstuff cid /\ oldlen cid' = oldlen cid /\
  carry_over cid' = carry_over cid.
Proof.
  unfold callerid_feed. destruct (_ && _); [|discriminate].
  destruct (feed_loop _ _ _ _ _ _ _) as [[r o g1 c1|buf o g1 c1]| |] eqn:El;
    [| |discriminate|discriminate]; cbn [bind].
  - apply feed_loop_old in El. destruct El as [Hs Hl].
    intros H; injection H as <- <- <- <-. intros _.
    unfold carry_over. rewrite Hs, Hl. auto.
  - destruct (negb _); [destruct (_ <=? _); [|discriminate]|];
      intros H; injection H as <- <- <- <-; intros Hres; contradiction.
Qed.

(** Property X13.  Input that does not fill one window is only kept.  When
    the old carry-over and the new samples together are shorter than [ispb *
    12] samples, the demodulator and the decoder are not called, whatever the
    fuel: the call returns 0, prints nothing, and the carry-over grows by the
    new samples. *)
Theorem short_feed_is_buffered (fuel : nat) (g : statics)
    (cid : callerid_state F) (ubuf : list Z) :
  0 <= oldlen cid <= 2 * OLDSTUFF_LEN ->
  Z.of_nat (length (carry_over cid ++ ubuf)) < ispb (fskd cid) * 12 ->
  Z.of_nat (length (carry_over cid ++ ubuf)) <= OLDSTUFF_LEN ->
  exists cid',
    callerid_feed fsk_serial fuel g cid ubuf = Done (0, [], g, cid') /\
    carry_over cid' = carry_over cid ++ ubuf /\
    oldlen cid' = 2 * Z.of_nat (length (carry_over cid ++ ubuf)) /\
    fskd cid' = fskd cid /\ rawdata cid' = rawdata cid /\
    cksum cid' = cksum cid /\ sawflag cid' = sawflag cid.
Proof.
  intros Hold Hshort Hfit. unfold callerid_feed.
  replace ((0 <=? oldlen cid) && (oldlen cid <=? 2 * OLDSTUFF_LEN)) with true
    by (symmetry; apply andb_true_intro; split; apply Z.leb_le; lia).
  fold (carry_over cid).
  assert (Hl : feed_loop fsk_serial fuel g cid (carry_over cid ++ ubuf) 88 []
               = Done (Drained (carry_over cid ++ ubuf) [] g cid)).
  { destruct fuel; cbn [feed_loop];
      (destruct (Z.geb_spec (Z.of_nat (length (carry_over cid ++ ubuf)))
                   (ispb (fskd cid) * 12)); [lia | reflexivity]). }
  rewrite Hl. cbn [bind].
  destruct (Z.eqb_spec (Z.of_nat (length (carry_over cid ++ ubuf))) 0) as [E|E];
    cbn [negb].
  - eexists. split; [reflexivity|].
    destruct (carry_over cid ++ ubuf) eqn:Ec; [|simpl in E; lia].
    unfold carry_over at 1. cbn. auto 10.
  - replace (Z.of_nat (length (carry_over cid ++ ubuf)) <=? OLDSTUFF_LEN)
      with true by (symmetry; apply Z.leb_le; lia).
    eexists. split; [reflexivity|].
    unfold carry_over at 1. cbn [oldlen oldstuff set_old fskd rawdata cksum sawflag].
    rewrite Z.quot_mul by lia. rewrite Nat2Z.id, take_app_length.
    repeat split; try reflexivity; lia.
Qed.

(** With a window of no samples the loop is never left by its condition. *)
Lemma feed_loop_never_drains (fuel : nat) : forall g cid buf b out r,
  (forall fskd buf b, ispb (s_fskd (fsk_serial fskd buf b)) = ispb fskd) ->
  ispb (fskd cid) <= 0 ->
  feed_loop fsk_serial fuel g cid buf b out = Done r ->
  match r with Returned _ _ _ _ => True | Drained _ _ _ _ => False end.
Proof.
  induction fuel as [|fuel IH]; intros g cid buf b out r Hkeep Hispb.
  - simpl. destruct (Z.geb_spec (Z.of_nat (length buf)) (ispb (fskd cid) * 12))
      as [Hge|Hlt]; [discriminate | lia].
  - cbn [feed_loop].
    destruct (Z.geb_spec (Z.of_nat (length buf)) (ispb (fskd cid) * 12))
      as [Hge|Hlt]; [|lia].
    destruct (_ && _); [|discriminate].
    destruct (negb _).
    + destruct (decode_CID_msg _ _ _) as [[[[res o] g1] c1]| |] eqn:Ed;
        [|discriminate|discriminate].
      cbn [bind]. apply decode_fskd in Ed. cbn [fskd set_fskd] in Ed.
      destruct (res =? -1); [intros H; injection H as <-; exact I|].
      destruct (negb (res =? 0)); [intros H; injection H as <-; exact I|].
      apply IH; [exact Hkeep|]. rewrite Ed, Hkeep. exact Hispb.
    + apply IH; [exact Hkeep|]. cbn [fskd set_fskd]. rewrite Hkeep. exact Hispb.
Qed.

(** Property X14.  A window of no samples.  When [ispb] is zero or negative,
    as it is when the sample rate is below the baud rate, the condition of
    the loop, [mylen >= ispb * 12], holds for every buffer, also for an empty
    one; the loop is then left only by a [return] after the decoder, so that
    no call returns 0: nothing ever reaches the code that saves the
    carry-over. *)
Theorem empty_window_never_asks_for_more (fuel : nat) (g g' : statics)
    (cid cid' : callerid_state F) (ubuf : list Z) (res : Z)
    (out : list console) :
  (forall fskd buf b, ispb (s_fskd (fsk_serial fskd buf b)) = ispb fskd) ->
  ispb (fskd cid) <= 0 ->
  callerid_feed fsk_serial fuel g cid ubuf = Done (res, out, g', cid') ->
  res = 1 \/ res = -1.
Proof.
  intros Hkeep Hispb. unfold callerid_feed. destruct (_ && _); [|discriminate].
  destruct (feed_loop _ _ _ _ _ _ _) as [[r o g1 c1|buf o g1 c1]| |] eqn:El;
    [| |discriminate|discriminate]; cbn [bind].
  - apply feed_loop_returns in El. intros H; injection H as <- _ _ _. exact El.
  - apply (feed_loop_never_drains _ _ _ _ _ _ _ Hkeep Hispb) in El.
    contradiction.
Qed.
End FeedEnds.

Lemma feed_end_keeps_old_carry_over_witness :
  exists g' cid',
    callerid_feed serial_double 1000 statics_init session0
      (samples_of (framed mdmf_john) 431) = Done (1, [Checksum_Passed], g', cid') /\
    oldstuff cid' = oldstuff session0 /\ oldlen cid' = oldlen session0 /\
    carry_over cid' = carry_over session0.
Proof.
  destruct (callerid_feed serial_double 1000 statics_init session0
              (samples_of (framed mdmf_john) 431))
    as [[[[res out] g'] cid']| |] eqn:E; try (vm_compute in E; discriminate E).
  assert (Hres : res = 1 /\ out = [Checksum_Passed])
    by (vm_compute in E; split; congruence).
  destruct Hres as [-> ->].
  exists g', cid'. split; [reflexivity|].
  apply (feed_end_keeps_old_carry_over serial_double 1000 statics_init g'
           session0 cid' (samples_of (framed mdmf_john) 431) 1
           [Checksum_Passed] E).
  discriminate.
Defined.

Lemma short_feed_is_buffered_witness :
  exists cid',
    callerid_feed serial_double 0 statics_init session0 (take 20 mdmf_john)
      = Done (0, [], statics_init, cid') /\
    carry_over cid' = carry_over session0 ++ take 20 mdmf_john /\
    oldlen cid' = 2 * Z.of_nat (length (carry_over session0 ++ take 20 mdmf_john)) /\
    fskd cid' = fskd session0 /\ rawdata cid' = rawdata session0 /\
    cksum cid' = cksum session0 /\ sawflag cid' = sawflag session0.
Proof.
  apply (short_feed_is_buffered serial_double 0 statics_init session0
           (take 20 mdmf_john));
    [vm_compute; split; discriminate | vm_compute; reflexivity
     | vm_compute; discriminate].
Defined.

Lemma empty_window_never_asks_for_more_witness : 1 = 1 \/ 1 = -1.
Proof.
  eapply (empty_window_never_asks_for_more serial_double 100 statics_init _
            session_narrow _ (framed mdmf_john)).
  - intros fskd [|s buf] b; reflexivity.
  - vm_compute. discriminate.
  - vm_compute. reflexivity.
Defined.

Example session_narrow_new :
  callerid_new tt id CID_SIG_V23 (main_param 1000 1200) = Done session_narrow.
Proof. vm_compute. reflexivity. Qed.

(** ** The command line *)

Section ArgumentsFacts.
Variable atoi : string -> Z.


End ArgumentsFacts.

(** ** The sizes of the buffers *)

(** Property X16.  Whatever the sample width, the decoder is fed 8192 bytes
    per turn.  [main] goes on only for 16, 24 or 32 bits per sample; the
    capture buffer then has 1024 * bits bytes, that is 8192 samples, and
    [size_of_buf], the size of the buffer handed to [callerid_feed], is 8192
    in all three cases.  For every other width the program exits before [bits
    / 8] is used as a divisor. *)
Theorem size_of_buf_is_8192 (o : options) :
  match main_capture o with
  | Some (pcm_cap, size_of_buf) =>
      (opt_bits o = 16 \/ opt_bits o = 24 \/ opt_bits o = 32) /\
      size pcm_cap = 1024 * opt_bits o /\ size_of_buf = 8192 /\
      size pcm_cap = size_of_buf * Z.quot (opt_bits o) 8
  | None => opt_bits o <> 16 /\ opt_bits o <> 24 /\ opt_bits o <> 32
  end.
Proof.
  unfold main_capture, format_of_bits.
  destruct (Z.eqb_spec (opt_bits o) 32) as [->|N32]; [vm_compute; auto 10|].
  destruct (Z.eqb_spec (opt_bits o) 24) as [->|N24]; [vm_compute; auto 10|].
  destruct (Z.eqb_spec (opt_bits o) 16) as [->|N16]; [vm_compute; auto 10|].
  auto.
Qed.

(** ** The copy of the captured bytes *)

Lemma aget_in (len : Z) (a : list Z) (i : nat) :
  Z.of_nat (length a) = len -> (i < length a)%nat ->
  aget len a (Z.of_nat i) = Done (default 0 (a !! i)).
Proof.
  intros Hlen Hi. unfold aget.
  replace ((0 <=? Z.of_nat i) && (Z.of_nat i <? len)) with true
    by (symmetry; apply andb_true_intro; split;
        [apply Z.leb_le | apply Z.ltb_lt]; lia).
  rewrite Nat2Z.id.
  destruct (lookup_lt_is_Some_2 a i Hi) as [v Hv]. rewrite Hv. reflexivity.
Qed.

Lemma take_one_more (a : list Z) (k n : nat) :
  (k < length a)%nat ->
  default 0 (a !! k) :: take n (drop (S k) a) = take (S n) (drop k a).
Proof.
  intros Hk. destruct (lookup_lt_is_Some_2 a k Hk) as [v Hv].
  rewrite Hv, (drop_S _ _ _ Hv). reflexivity.
Qed.

(** The inner loop, when it stays inside both buffers. *)
Lemma copy_bytes_done (n : nat) : forall (w i j : nat) (buffer buf : list Z),
  (i + j + n <= length buf)%nat -> (i * w + j + n <= length buffer)%nat ->
  copy_bytes n (Z.of_nat w) (Z.of_nat (length buf)) (Z.of_nat (length buffer))
    buffer buf (Z.of_nat i) (Z.of_nat j)
  = Done (take (i + j) buf ++ take n (drop (i * w + j) buffer)
            ++ drop (i + j + n) buf).
Proof.
  induction n as [|n IH]; intros w i j buffer buf Hbuf Hbuffer.
  - cbn [copy_bytes]. rewrite take_0, Nat.add_0_r. cbn [app].
    rewrite take_drop. reflexivity.
  - cbn [copy_bytes].
    replace (Z.of_nat i * Z.of_nat w + Z.of_nat j)
      with (Z.of_nat (i * w + j)) by lia.
    rewrite aget_in by lia. cbn [bind]. unfold aset.
    replace (Z.of_nat i + Z.of_nat j) with (Z.of_nat (i + j)) by lia.
    replace ((0 <=? Z.of_nat (i + j))
             && (Z.of_nat (i + j) <? Z.of_nat (length buf))) with true
      by (symmetry; apply andb_true_intro; split;
          [apply Z.leb_le | apply Z.ltb_lt]; lia).
    cbn [bind]. rewrite Nat2Z.id.
    replace (Z.of_nat j + 1) with (Z.of_nat (S j)) by lia.
    pose proof (IH w i (S j) buffer
                  (<[(i + j)%nat := default 0 (buffer !! (i * w + j)%nat)]> buf)) as H.
    rewrite length_insert in H. rewrite H by lia. f_equal.
    replace (i + S j)%nat with (S (i + j)) by lia.
    replace (i * w + S j)%nat with (S (i * w + j)) by lia.
    replace (S (i + j) + n)%nat
      with (S (i + j) + length (take n (drop (S (i * w + j)) buffer)))%nat
      by (rewrite length_take, length_drop; lia).
    rewrite insert_in_log by lia.
    rewrite take_one_more by lia.
    rewrite length_take, length_drop.
    replace (i + j + S n `min` (length buffer - (i * w + j)))%nat
      with (i + j + S n)%nat by lia.
    reflexivity.
Qed.

(** The outer loop, when the width divides the size of [buf]. *)
Lemma capture_copy_done (m : nat) :
  forall (fuel w n k : nat) (buffer buf : list Z),
    (0 < w)%nat -> (k + m = n)%nat -> (m <= fuel)%nat ->
    length buf = (n * w)%nat -> length buffer = (n * w * w)%nat ->
    capture_copy fuel (Z.of_nat w) (Z.of_nat (n * w)) (Z.of_nat (n * w * w))
      buffer buf (Z.of_nat (k * w))
    = Done (take (k * w) buf ++ every_wth_word w buffer k m).
Proof.
  induction m as [|m IH]; intros fuel w n k buffer buf Hw Hk Hfuel Hbuf Hbuffer.
  - assert (k = n) by lia. subst k.
    destruct fuel; cbn [capture_copy];
      (destruct (Z.ltb_spec (Z.of_nat (n * w)) (Z.of_nat (n * w))); [lia|]);
      cbn [every_wth_word]; rewrite app_nil_r, <- Hbuf, firstn_all; reflexivity.
  - destruct fuel as [|fuel]; [lia|]. cbn [capture_copy].
    destruct (Z.ltb_spec (Z.of_nat (k * w)) (Z.of_nat (n * w))) as [_|Hge];
      [|nia].
    rewrite Nat2Z.id.
    pose proof (copy_bytes_done w w (k * w) 0 buffer buf) as Hc.
    rewrite Hbuf, Hbuffer in Hc. change (Z.of_nat 0) with 0 in Hc.
    rewrite Hc by nia. clear Hc. cbn [bind].
    replace (Z.of_nat (k * w) + Z.of_nat w) with (Z.of_nat (S k * w)) by lia.
    rewrite (IH fuel w n (S k) buffer); try lia.
    + f_equal. cbn [every_wth_word]. rewrite !Nat.add_0_r.
      rewrite (app_assoc (take (k * w) buf)).
      rewrite take_app_length'
        by (rewrite length_app, !length_take, length_drop; nia).
      rewrite <- app_assoc. reflexivity.
    + rewrite !length_app, !length_take, !length_drop. nia.
Qed.

Lemma every_wth_word_length (w : nat) (buffer : list Z) (n : nat) :
  forall k, ((k + n) * w * w <= length buffer)%nat ->
            length (every_wth_word w buffer k n) = (n * w)%nat.
Proof.
  induction n as [|n IH]; intros k H; [reflexivity|].
  cbn [every_wth_word]. rewrite length_app, length_take, length_drop.
  rewrite IH by (replace (S k + n)%nat with (k + S n)%nat by lia; exact H).
  nia.
Qed.

Lemma every_wth_word_lookup (w : nat) (buffer : list Z) (n : nat) :
  forall k p j, ((k + n) * w * w <= length buffer)%nat ->
    (p < n)%nat -> (j < w)%nat ->
    every_wth_word w buffer k n !! (p * w + j)%nat
    = buffer !! ((k + p) * w * w + j)%nat.
Proof.
  induction n as [|n IH]; intros k p j H Hp Hj; [lia|].
  cbn [every_wth_word].
  destruct p as [|p].
  - rewrite lookup_app_l by (rewrite length_take, length_drop; nia).
    rewrite lookup_take_lt by lia. rewrite lookup_drop.
    f_equal. lia.
  - rewrite lookup_app_r by (rewrite length_take, length_drop; nia).
    rewrite length_take, length_drop.
    replace (S p * w + j - w `min` (length buffer - k * w * w))%nat
      with (p * w + j)%nat by nia.
    rewrite IH; [f_equal; lia | | lia | exact Hj].
    replace (S k + n)%nat with (k + S n)%nat by lia. exact H.
Qed.

(** Property X17.  One word out of every [w].  When the sample width [w] (in
    bytes) divides the size of [buf], as 2 and 4 divide 8192, the copy stays
    inside both buffers and comes to an end, every byte of [buf] is written,
    and the word number [p] of [buf] is the word number [p * w] of the
    capture buffer: with two interleaved channels of 16 bits, where [w] is 2,
    the decoder is fed the first channel only. *)
Theorem capture_copy_takes_every_wth_word (fuel w n : nat)
    (buffer buf : list Z) :
  (0 < w)%nat -> (n <= fuel)%nat ->
  length buf = (n * w)%nat -> length buffer = (n * w * w)%nat ->
  exists buf',
    capture_copy fuel (Z.of_nat w) (Z.of_nat (n * w)) (Z.of_nat (n * w * w))
      buffer buf 0 = Done buf' /\
    length buf' = (n * w)%nat /\
    (forall p j, (p < n)%nat -> (j < w)%nat ->
       buf' !! (p * w + j)%nat = buffer !! (p * w * w + j)%nat).
Proof.
  intros Hw Hfuel Hbuf Hbuffer.
  pose proof (capture_copy_done n fuel w n 0 buffer buf Hw eq_refl Hfuel
                Hbuf Hbuffer) as H.
  cbn [Nat.mul take app] in H. change (Z.of_nat 0) with 0 in H.
  exists (every_wth_word w buffer 0 n). split; [exact H|].
  split; [apply every_wth_word_length; lia|].
  intros p j Hp Hj.
  rewrite every_wth_word_lookup by (try assumption; lia).
  reflexivity.
Qed.

(** The inner loop leaves [buf] when it is asked for more bytes than fit. *)
Lemma copy_bytes_undef (n : nat) : forall (w buf_size buffer_size i j : Z)
    (buffer buf : list Z),
  0 <= i + j <= buf_size -> buf_size < i + j + Z.of_nat n ->
  copy_bytes n w buf_size buffer_size buffer buf i j = Undef.
Proof.
  induction n as [|n IH]; intros w buf_size buffer_size i j buffer buf Hin Hout; [lia|].
  cbn [copy_bytes]. unfold aget.
  destruct (_ && _); [|reflexivity].
  destruct (buffer !! _); [|reflexivity]. cbn [bind]. unfold aset.
  destruct (Z.ltb_spec (i + j) buf_size) as [Hlt|Hge];
    [|rewrite andb_false_r; reflexivity].
  replace (0 <=? i + j) with true by (symmetry; apply Z.leb_le; lia).
  cbn [andb bind]. apply IH; lia.
Qed.

Lemma copy_bytes_not_timeout (n : nat) : forall (w buf_size buffer_size i j : Z)
    (buffer buf : list Z),
  copy_bytes n w buf_size buffer_size buffer buf i j <> Timeout.
Proof.
  induction n as [|n IH]; intros w buf_size buffer_size i j buffer buf; [discriminate|].
  cbn [copy_bytes]. unfold aget.
  destruct (_ && _); [|discriminate].
  destruct (buffer !! _); [|discriminate]. cbn [bind]. unfold aset.
  destruct (_ && _); [|discriminate]. cbn [bind]. apply IH.
Qed.

Lemma capture_copy_undef (fuel : nat) : forall (w buf_size buffer_size i : Z)
    (buffer buf : list Z),
  0 < w -> 0 <= i <= buf_size -> (buf_size - i) mod w <> 0 ->
  buf_size - i < Z.of_nat fuel * w ->
  capture_copy fuel w buf_size buffer_size buffer buf i = Undef.
Proof.
  induction fuel as [|fuel IH]; intros w buf_size buffer_size i buffer buf Hw Hi Hmod Hfuel;
    [lia|].
  cbn [capture_copy].
  assert (Hne : i <> buf_size).
  { intros ->. apply Hmod. rewrite Z.sub_diag. reflexivity. }
  destruct (Z.ltb_spec i buf_size) as [Hlt|Hge]; [|lia].
  destruct (Z_lt_le_dec buf_size (i + w)) as [Hover|Hfit].
  - rewrite copy_bytes_undef by lia. reflexivity.
  - destruct (copy_bytes (Z.to_nat w) w buf_size buffer_size buffer buf i 0) as [buf'| |] eqn:Ec;
      [|reflexivity|exfalso; exact (copy_bytes_not_timeout _ _ _ _ _ _ _ _ Ec)].
    cbn [bind]. apply IH; [exact Hw|lia| |lia].
    replace (buf_size - (i + w)) with (buf_size - i + (-1) * w) by lia.
    rewrite Z.mod_add by lia. exact Hmod.
Qed.

(** Property X18.  A width that does not divide the size of [buf].  The outer
    loop stops when [i] reaches [size_of_buf], but the inner loop always
    writes a whole word: when [bits / 8] does not divide [size_of_buf], as 3
    does not divide 8192, the last word starts inside [buf] and ends outside,
    and the copy writes past the end of [buf], whatever the buffers hold. *)
Theorem capture_copy_leaves_buf (fuel : nat) (w buf_size buffer_size : Z)
    (buffer buf : list Z) :
  0 < w -> 0 <= buf_size -> buf_size mod w <> 0 -> buf_size < Z.of_nat fuel * w ->
  capture_copy fuel w buf_size buffer_size buffer buf 0 = Undef.
Proof.
  intros Hw Hsize Hmod Hfuel.
  apply capture_copy_undef; [exact Hw | lia | rewrite Z.sub_0_r; exact Hmod | lia].
Qed.

(** ** The file image *)

Lemma wav_copy_done (n : nat) : forall (off i : nat) (wavbuf buf : list Z),
  (i + n <= length buf)%nat -> (off + i + n <= length wavbuf)%nat ->
  wav_copy n (Z.of_nat (length buf)) (Z.of_nat (length wavbuf)) wavbuf buf
    (Z.of_nat off) (Z.of_nat i)
  = Done (take i buf ++ take n (drop (off + i) wavbuf) ++ drop (i + n) buf).
Proof.
  induction n as [|n IH]; intros off i wavbuf buf Hbuf Hwav.
  - cbn [wav_copy]. rewrite take_0, Nat.add_0_r. cbn [app].
    rewrite take_drop. reflexivity.
  - cbn [wav_copy].
    replace (Z.of_nat off + Z.of_nat i) with (Z.of_nat (off + i)) by lia.
    rewrite aget_in by lia. cbn [bind]. unfold aset.
    replace ((0 <=? Z.of_nat i) && (Z.of_nat i <? Z.of_nat (length buf)))
      with true
      by (symmetry; apply andb_true_intro; split;
          [apply Z.leb_le | apply Z.ltb_lt]; lia).
    cbn [bind]. rewrite Nat2Z.id.
    replace (Z.of_nat i + 1) with (Z.of_nat (S i)) by lia.
    pose proof (IH off (S i) wavbuf
                  (<[i := default 0 (wavbuf !! (off + i)%nat)]> buf)) as H.
    rewrite length_insert in H. rewrite H by lia. f_equal.
    replace (off + S i)%nat with (S (off + i)) by lia.
    replace (S i + n)%nat
      with (S i + length (take n (drop (S (off + i)) wavbuf)))%nat
      by (rewrite length_take, length_drop; lia).
    rewrite insert_in_log by lia.
    rewrite take_one_more by lia.
    rewrite length_take, length_drop.
    replace (i + S n `min` (length wavbuf - (off + i)))%nat
      with (i + S n)%nat by lia.
    reflexivity.
Qed.

Lemma wav_copy_undef (n : nat) : forall (buf_size st_size off i : Z)
    (wavbuf buf : list Z),
  0 <= off + i <= st_size -> st_size < off + i + Z.of_nat n ->
  wav_copy n buf_size st_size wavbuf buf off i = Undef.
Proof.
  induction n as [|n IH]; intros buf_size st_size off i wavbuf buf Hin Hout; [lia|].
  cbn [wav_copy]. unfold aget.
  destruct (Z.ltb_spec (off + i) st_size) as [Hlt|Hge];
    [|rewrite andb_false_r; reflexivity].
  destruct (0 <=? off + i); [|reflexivity]. cbn [andb].
  destruct (wavbuf !! _); [|reflexivity]. cbn [bind]. unfold aset.
  destruct (_ && _); [|reflexivity]. cbn [bind].
  replace (off + i + Z.of_nat (S n)) with (off + (i + 1) + Z.of_nat n) in Hout
    by lia.
  apply IH; lia.
Qed.

(** Property X19.  The file is read before its end is tested.  [main] starts
    with [off] at 44, the size of the header, and [samples] at 0, and adds
    the size of [buf] to both in every turn.  A turn copies [size_of_buf]
    bytes from offset [off] of the file image and only then compares
    [samples] with the size of the file: it yields a buffer exactly when all
    of these bytes are inside the image, and in every other case it has read
    past the end of [wavbuf].  The branch that calls [exit(0)] is never
    reached without such a read. *)
Theorem wav_fill_reads_before_it_tests (size_of_buf samples : nat)
    (wavbuf buf : list Z) :
  (0 < size_of_buf)%nat -> length buf = size_of_buf ->
  wav_fill (Z.of_nat size_of_buf) (Z.of_nat (length wavbuf)) wavbuf buf
    (WAV_HEADER_LEN + Z.of_nat samples) (Z.of_nat samples)
  = if WAV_HEADER_LEN + Z.of_nat samples + Z.of_nat size_of_buf
         <=? Z.of_nat (length wavbuf)
    then Done (Wav_Buffer
                 (take size_of_buf (drop (44 + samples) wavbuf))
                 (WAV_HEADER_LEN + Z.of_nat samples + Z.of_nat size_of_buf)
                 (Z.of_nat samples + Z.of_nat size_of_buf))
    else Undef.
Proof.
  intros Hsize Hbuf. unfold wav_fill, WAV_HEADER_LEN. rewrite Nat2Z.id.
  destruct (Z.leb_spec (44 + Z.of_nat samples + Z.of_nat size_of_buf)
              (Z.of_nat (length wavbuf))) as [Hin|Hout].
  - pose proof (wav_copy_done size_of_buf (44 + samples) 0 wavbuf buf) as H.
    rewrite Hbuf in H.
    replace (Z.of_nat (44 + samples)) with (44 + Z.of_nat samples) in H by lia.
    change (Z.of_nat 0) with 0 in H.
    rewrite H by lia. cbn [bind].
    destruct (Z.gtb_spec (Z.of_nat samples + Z.of_nat size_of_buf)
                (Z.of_nat (length wavbuf))) as [Hgt|Hle]; [lia|].
    rewrite take_0, Nat.add_0_r, Nat.add_0_l. cbn [app].
    rewrite (drop_ge buf) by lia. rewrite app_nil_r. reflexivity.
  - destruct (Z_le_gt_dec (44 + Z.of_nat samples) (Z.of_nat (length wavbuf)))
      as [Hstart|Hstart].
    + rewrite wav_copy_undef by lia. reflexivity.
    + destruct size_of_buf as [|n]; [lia|]. cbn [wav_copy]. unfold aget.
      replace (44 + Z.of_nat samples + 0 <? Z.of_nat (length wavbuf)) with false
        by (symmetry; apply Z.ltb_ge; lia).
      rewrite andb_false_r. reflexivity.
Qed.

Lemma strncmp_four (a b c d x y z t : Z) :
  x <> 0 -> y <> 0 -> z <> 0 -> t <> 0 ->
  exists r, strncmp [a; b; c; d] [x; y; z; t; 0] 4 = Done r /\
            (r = 0 <-> [a; b; c; d] = [x; y; z; t]).
Proof.
  intros Hx Hy Hz Ht. cbn [strncmp].
  destruct (Z.eqb_spec a x) as [->|Na];
    [|eexists; split; [reflexivity|]; split; [lia | congruence]].
  destruct (Z.eqb_spec x 0); [contradiction|].
  destruct (Z.eqb_spec b y) as [->|Nb];
    [|eexists; split; [reflexivity|]; split; [lia | congruence]].
  destruct (Z.eqb_spec y 0); [contradiction|].
  destruct (Z.eqb_spec c z) as [->|Nc];
    [|eexists; split; [reflexivity|]; split; [lia | congruence]].
  destruct (Z.eqb_spec z 0); [contradiction|].
  destruct (Z.eqb_spec d t) as [->|Nd];
    [|eexists; split; [reflexivity|]; split; [lia | congruence]].
  destruct (Z.eqb_spec t 0); [contradiction|].
  exists 0. split; [reflexivity|]. split; reflexivity.
Qed.

(** Property X20.  What makes a file a WAV file for the program.  A file
    image shorter than the 44 bytes of the header is read past its end.
    Otherwise the file is accepted exactly when its bytes 0 to 3 are "RIFF",
    its bytes 8 to 11 are "WAVE" and the 16-bit audio format at bytes 20 and
    21 is 1; the header is then the first 44 bytes, and nothing else in it,
    not the tags of its chunks nor the sample rate, the number of channels or
    the bits per sample, is looked at. *)
Theorem getHeader_checks (wavbuf temp_buf : list Z) :
  Forall is_byte wavbuf -> length temp_buf = Z.to_nat WAV_HEADER_LEN ->
  getHeader (Z.of_nat (length wavbuf)) wavbuf temp_buf
  = if Z.of_nat (length wavbuf) <? WAV_HEADER_LEN then Undef
    else if negb (bool_decide (take 4 wavbuf = chars "RIFF")
                  && bool_decide (take 4 (drop 8 wavbuf) = chars "WAVE"))
    then Done Not_a_wav_file
    else if negb (bool_decide (take 2 (drop 20 wavbuf) = [1; 0]))
    then Done Only_PCM_encoding_supported
    else Done (Wav_File_Information (wav_header_of (take 44 wavbuf))).
Proof.
  intros Hbytes Htemp. unfold getHeader, WAV_HEADER_LEN in *.
  change (Z.to_nat 44) with 44%nat in *.
  destruct (Z.ltb_spec (Z.of_nat (length wavbuf)) 44) as [Hshort|Hlong].
  { rewrite wav_copy_undef by lia. reflexivity. }
  pose proof (wav_copy_done 44 0 0 wavbuf temp_buf ltac:(lia) ltac:(lia)) as Hc.
  rewrite Htemp in Hc. change (Z.of_nat 44) with 44 in Hc.
  change (Z.of_nat 0) with 0 in Hc. rewrite Hc. clear Hc. cbn [bind].
  rewrite take_0, (drop_ge temp_buf) by lia. cbn [app drop Nat.add].
  rewrite app_nil_r.
  assert (H20 : is_byte (default 0 (wavbuf !! 20%nat)) /\
                is_byte (default 0 (wavbuf !! 21%nat))).
  { split.
    - destruct (lookup_lt_is_Some_2 wavbuf 20 ltac:(lia)) as [v Hv].
      rewrite Hv. exact (Forall_lookup_1 _ _ _ _ Hbytes Hv).
    - destruct (lookup_lt_is_Some_2 wavbuf 21 ltac:(lia)) as [v Hv].
      rewrite Hv. exact (Forall_lookup_1 _ _ _ _ Hbytes Hv). }
  clear Hbytes.
  do 44 (destruct wavbuf as [|? wavbuf]; [simpl in Hlong; lia|]).
  cbn [lookup list_lookup default] in H20. destruct H20 as [Hb20 Hb21].
  unfold is_byte, id in *.
  cbn [take drop wav_header_of chunk_id wh_format audio_format].
  change (chars "RIFF" ++ [0]) with [82; 73; 70; 70; 0].
  change (chars "WAVE" ++ [0]) with [87; 65; 86; 69; 0].
  change (chars "RIFF") with [82; 73; 70; 70].
  change (chars "WAVE") with [87; 65; 86; 69].
  destruct (strncmp_four z z0 z1 z2 82 73 70 70) as (r1 & -> & Hr1);
    try discriminate.
  cbn [bind].
  destruct (strncmp_four z7 z8 z9 z10 87 65 86 69) as (r2 & Hs2 & Hr2);
    try discriminate.
  destruct (Z.eqb_spec r1 0) as [E1|E1]; cbn [negb bind].
  - rewrite Hs2. cbn [bind].
    rewrite (bool_decide_eq_true_2 _ (proj1 Hr1 E1)). cbn [andb].
    destruct (Z.eqb_spec r2 0) as [E2|E2]; cbn [negb].
    + rewrite (bool_decide_eq_true_2 _ (proj1 Hr2 E2)). cbn [negb].
      unfold le_value. cbn [foldr].
      destruct (Z.eqb_spec (z19 + 256 * (z20 + 256 * 0)) 1) as [E3|E3];
        cbn [negb].
      * rewrite bool_decide_eq_true_2 by (f_equal; [lia | f_equal; lia]).
        reflexivity.
      * rewrite bool_decide_eq_false_2 by (intros H; injection H as -> ->; lia).
        reflexivity.
    + rewrite bool_decide_eq_false_2 by (intros H; apply E2, Hr2; exact H).
      reflexivity.
  - rewrite bool_decide_eq_false_2 by (intros H; apply E1, Hr1; exact H).
    reflexivity.
Qed.


Lemma capture_copy_takes_every_wth_word_witness :
  exists buf',
    capture_copy 4096 2 8192 16384 stereo_16 (replicate (Z.to_nat 8192) 0) 0
      = Done buf' /\
    length buf' = (4096 * 2)%nat /\
    (forall p j, (p < 4096)%nat -> (j < 2)%nat ->
       buf' !! (p * 2 + j)%nat = stereo_16 !! (p * 2 * 2 + j)%nat).
Proof.
  apply (capture_copy_takes_every_wth_word 4096 2 4096 stereo_16
           (replicate (Z.to_nat 8192) 0));
    [apply Nat.lt_0_succ | apply le_n | vm_compute; reflexivity
     | vm_compute; reflexivity].
Defined.

Lemma capture_copy_leaves_buf_witness :
  capture_copy 2731 3 8192 24576 (replicate (Z.to_nat 24576) 7)
    (replicate (Z.to_nat 8192) 0) 0
  = Undef.
Proof.
  apply capture_copy_leaves_buf;
    [reflexivity | discriminate | vm_compute; discriminate | reflexivity].
Defined.

Lemma wav_fill_reads_before_it_tests_witness :
  wav_fill (Z.of_nat (Z.to_nat 8192)) (Z.of_nat (length wav_image)) wav_image
    (replicate (Z.to_nat 8192) 0) (WAV_HEADER_LEN + Z.of_nat 0) (Z.of_nat 0)
  = Done (Wav_Buffer (replicate (Z.to_nat 8192) 7) 8236 8192) /\
  wav_fill (Z.of_nat (Z.to_nat 8192)) (Z.of_nat (length wav_image)) wav_image
    (replicate (Z.to_nat 8192) 7)
    (WAV_HEADER_LEN + Z.of_nat (Z.to_nat 8192)) (Z.of_nat (Z.to_nat 8192))
  = Undef.
Proof.
  split.
  - rewrite (wav_fill_reads_before_it_tests (Z.to_nat 8192) 0 wav_image
               (replicate (Z.to_nat 8192) 0));
      [vm_compute; reflexivity | vm_compute; lia | vm_compute; reflexivity].
  - rewrite (wav_fill_reads_before_it_tests (Z.to_nat 8192) (Z.to_nat 8192)
               wav_image (replicate (Z.to_nat 8192) 7));
      [vm_compute; reflexivity | vm_compute; lia | vm_compute; reflexivity].
Defined.

Lemma bytes_are_bytes (l : list Z) :
  forallb (fun c => (0 <=? c) && (c <? 256)) l = true -> Forall is_byte l.
Proof.
  intros H. apply List.Forall_forall. intros c Hc.
  rewrite forallb_forall in H. specialize (H c Hc). apply andb_prop in H as [H1 H2].
  apply Z.leb_le in H1. apply Z.ltb_lt in H2. split; assumption.
Qed.

Lemma getHeader_checks_witness :
  getHeader (Z.of_nat (length wav_image)) wav_image (replicate 44 0xAA)
  = Done (Wav_File_Information
            (mk_wav_header (chars "RIFF") 8324 (chars "WAVE") (chars "fmt ") 16
               1 1 44100 88200 2 16 (chars "data") 8292)).
Proof.
  rewrite (getHeader_checks wav_image (replicate 44 0xAA)
             (bytes_are_bytes wav_image eq_refl) eq_refl).
  vm_compute. reflexivity.
Defined.

(** ** The marker of the second field *)

Lemma rd_insert_ne (raw : list Z) (k i : nat) (x : Z) :
  i <> k -> rd (<[k := x]> raw) i = rd raw i.
Proof.
  intros H. unfold rd. rewrite list_lookup_insert_ne by auto. reflexivity.
Qed.

(** What the extractor computes does not depend on the entry of [rawdata]
    that holds the marker of the second field. *)
Lemma second_marker_reads (raw : list Z) (x : Z) :
  let raw' := <[(14 + Z.to_nat (rd raw 13))%nat := x]> raw in
  month_raw raw' = month_raw raw /\ date_text raw' = date_text raw /\
  time_text raw' = time_text raw /\ rd raw' 12 = rd raw 12 /\
  rd raw' 13 = rd raw 13 /\
  rd raw' (15 + Z.to_nat (rd raw 13)) = rd raw (15 + Z.to_nat (rd raw 13)) /\
  first_body raw' = first_body raw /\ second_body raw' = second_body raw.
Proof.
  intros raw'. subst raw'.
  set (k := (14 + Z.to_nat (rd raw 13))%nat).
  assert (H13 : rd (<[k := x]> raw) 13 = rd raw 13)
    by (apply rd_insert_ne; lia).
  unfold month_raw, date_text, time_text, month_raw, first_body, second_body.
  cbv zeta. rewrite H13.
  rewrite !(rd_insert_ne raw k) by lia.
  repeat split.
  - rewrite drop_insert_ge by lia. rewrite take_insert_ge by lia. reflexivity.
  - rewrite drop_insert_lt by lia. reflexivity.
Qed.

(** Property X21.  The second field is taken on trust.  After a name at offset 12
    [get_CID_info] copies whatever field follows into the number, and after
    a number whatever follows into the name: the marker of that second
    field is never read.  Changing this one entry of [rawdata] changes
    neither whether the extraction is defined, nor the line printed, nor the
    record, nor the strings of the session. *)
Theorem second_marker_never_read {F : Type} (cid : callerid_state F)
    (data : cid_data) (x : Z) :
  length (rawdata cid) = Z.to_nat RAWDATA_LEN -> allocated data ->
  length (date_time cid) = Z.to_nat CID_NAME_LEN ->
  let raw' := <[(14 + Z.to_nat (rd (rawdata cid) 13))%nat := x]> (rawdata cid) in
  get_CID_info (set_rawdata raw' cid) data
  = do (out, cid', data') <- get_CID_info cid data;
    Done (out, set_rawdata raw' cid', data').
Proof.
  intros Hraw Hdata Hdt raw'.
  change (Z.to_nat RAWDATA_LEN) with 256%nat in Hraw.
  change (Z.to_nat CID_NAME_LEN) with 64%nat in Hdt.
  destruct (second_marker_reads (rawdata cid) x)
    as (Hm & Hd & Ht & H12 & H13 & H15 & Hf & Hs).
  fold raw' in Hm, Hd, Ht, H12, H13, H15, Hf, Hs.
  assert (Hraw' : length (rawdata (set_rawdata raw' cid)) = 256%nat).
  { cbn [rawdata set_rawdata]. unfold raw'. rewrite length_insert. exact Hraw. }
  assert (Hx : extractable raw' = extractable (rawdata cid)).
  { unfold extractable. rewrite Hm, H12, H13, H15. reflexivity. }
  assert (He : extracted raw' data = extracted (rawdata cid) data).
  { unfold extracted. rewrite Hd, Ht, H12, Hf, Hs. reflexivity. }
  destruct (extractable (rawdata cid)) eqn:E.
  - rewrite (get_CID_info_done (set_rawdata raw' cid) data Hraw' Hdata Hdt)
      by (cbn [rawdata set_rawdata]; exact Hx).
    rewrite (get_CID_info_done cid data Hraw Hdata Hdt E). cbn [bind].
    unfold displayed, record_line.
    cbn [rawdata name number date_time set_rawdata set_strings].
    rewrite He. reflexivity.
  - rewrite (get_CID_info_undef (set_rawdata raw' cid) data Hraw' Hdata Hdt)
      by (cbn [rawdata set_rawdata]; exact Hx).
    rewrite (get_CID_info_undef cid data Hraw Hdata Hdt E). reflexivity.
Qed.

Lemma second_marker_never_read_witness :
  get_CID_info
    (set_rawdata (<[18%nat := NO_NUM]> (raw_of (framed mdmf_john)))
       (session session0 (framed mdmf_john) CHECKSUM)) data0
  = do (out, cid', data') <-
      get_CID_info (session session0 (framed mdmf_john) CHECKSUM) data0;
    Done (out, set_rawdata (<[18%nat := NO_NUM]> (raw_of (framed mdmf_john))) cid',
          data').
Proof.
  exact (second_marker_never_read (session session0 (framed mdmf_john) CHECKSUM)
           data0 NO_NUM eq_refl allocated_data0 eq_refl).
Defined.

Section AbsentNumber.
Context {F : Type}.
Variables (c0 : callerid_state F) (data : cid_data).
Hypothesis Hfresh : fresh c0.
Hypothesis Hdata : allocated data.

End AbsentNumber.

